(** * chart_classification: the dataset store and its parallel map

    A shallow embedding of [src/processing.py], [src/pipeline/storage.py],
    [src/pipeline/dataset.py] and [src/pipeline/construction.py].

    The Python code works on an ambient file system through [os], [shutil],
    [json], [pandas] and [numpy].  Here every operation is a function of an
    explicit [world]: the file system, a ghost log of the effects the
    pipeline performed, and the oracle that decides in which order the
    worker pool completes its tasks.  A Python exception is a [Raise]
    result; the world survives it, as the file system does in Python. *)

From Stdlib Require Import ZArith Lia Ascii.
From stdpp Require Import gmap strings list fin_maps pretty.


(** ** Exceptions and results *)

Inductive exn :=
| FileNotFoundError
| FileExistsError
| NotADirectoryError
| IsADirectoryError
| SameFileError
| KeyError (key : string)
| ValueError (msg : string)
| TypeError
| AttributeError
| ParserError
| JSONDecodeError
| UnidentifiedImageError
| StopIteration.

Inductive result (A : Type) :=
| Ok (a : A)
| Raise (e : exn).
Arguments Ok {A} a.
Arguments Raise {A} e.

Definition is_Ok {A} (r : result A) : Prop := ∃ a, r = Ok a.
Definition is_Raise {A} (r : result A) : Prop := ∃ e, r = Raise e.

Definition rbind {A B} (r : result A) (k : A → result B) : result B :=
  match r with
  | Ok a => k a
  | Raise e => Raise e
  end.

(** A list comprehension whose element expression may raise: the first
    failure, in list order, aborts the comprehension. *)
Fixpoint rmap {A B} (f : A → result B) (xs : list A) : result (list B) :=
  match xs with
  | [] => Ok []
  | x :: xs' =>
      rbind (f x) (λ y, rbind (rmap f xs') (λ ys, Ok (y :: ys)))
  end.

(** A list comprehension with a condition that may raise. *)
Fixpoint rfilter {A} (p : A → result bool) (xs : list A) : result (list A) :=
  match xs with
  | [] => Ok []
  | x :: xs' =>
      rbind (p x) (λ b,
        rbind (rfilter p xs') (λ ys, Ok (if b then x :: ys else ys)))
  end.

(** ** Data held in files *)

(** A cell of a ledger, as [pandas] types it on reading. *)
Inductive cell :=
| CStr (s : string)
| CBool (b : bool)
| CInt (z : Z).

Global Instance cell_eq_dec : EqDecision cell.
Proof. solve_decision. Defined.

(** Python truthiness, [bool(x)]. *)
Definition truthy (c : cell) : bool :=
  match c with
  | CStr s => negb (String.eqb s EmptyString)
  | CBool b => b
  | CInt z => negb (z =? 0)%Z
  end.

(** [f"{x}"] *)
Definition cell_str (c : cell) : string :=
  match c with
  | CStr s => s
  | CBool true => "True"
  | CBool false => "False"
  | CInt z => pretty z
  end.

(** [x in names], for a list of strings [names]. *)
Definition cell_in (c : cell) (names : list string) : bool :=
  match c with
  | CStr s => bool_decide (s ∈ names)
  | _ => false
  end.

(** A CSV file: the header line and the records.  The first header field
    is the index label when the writer emitted the index.  Tables are
    rectangular. *)
Record csv := Csv { header : list string; records : list (list cell) }.

(** A [pandas.DataFrame]: column labels, and per row the index value and
    the cells. *)
Record DataFrame := Frame {
  columns : list string;
  index : list cell;
  rows : list (list cell)
}.

(** A row as [iterrows] yields it, or a Python [dict]: label to value. *)
Definition row := list (string * cell).

(** [r[k]] *)
Fixpoint row_get (r : row) (k : string) : result cell :=
  match r with
  | [] => Raise (KeyError k)
  | (l, v) :: r' => if String.eqb l k then Ok v else row_get r' k
  end.

Definition iterrows (df : DataFrame) : list row :=
  map (λ cells, zip (columns df) cells) (rows df).

(** [df[k]] *)
Definition df_col (df : DataFrame) (k : string) : result (list cell) :=
  if bool_decide (k ∈ columns df)
  then rmap (λ r, row_get r k) (iterrows df)
  else Raise (KeyError k).

(** Keep the elements of [xs] whose mask bit is set. *)
Fixpoint select {A} (mask : list bool) (xs : list A) : list A :=
  match mask, xs with
  | b :: mask', x :: xs' => if b then x :: select mask' xs' else select mask' xs'
  | _, _ => []
  end.

(** [df[mask]] for a boolean list [mask]. *)
Definition df_mask (df : DataFrame) (mask : list bool) : DataFrame :=
  Frame (columns df) (select mask (index df)) (select mask (rows df)).

(** [range(n)] as index values. *)
Definition range_index (n : nat) : list cell :=
  map (λ i, CInt (Z.of_nat i)) (seq 0 n).

(** [pd.DataFrame(data, columns=cols)] *)
Definition new_frame (cols : list string) (data : list (list cell)) : DataFrame :=
  Frame cols (range_index (length data)) data.

(** The text [to_csv] writes: the index label (empty unless [index_label]
    is given), then the columns; every record starts with its index. *)
Definition csv_of_frame (df : DataFrame) (index_label : option string) : csv :=
  Csv (default EmptyString index_label :: columns df)
      (zip_with cons (index df) (rows df)).

(** Header fields as [read_csv] names them: an empty field at position
    [k] becomes [Unnamed: k]. *)
Definition read_header (h : list string) : list string :=
  imap (λ k n, if String.eqb n EmptyString then "Unnamed: " +:+ pretty k else n) h.

(** Position of the first occurrence of [k]. *)
Fixpoint position (k : string) (names : list string) : option nat :=
  match names with
  | [] => None
  | n :: names' => if String.eqb n k then Some 0 else S <$> position k names'
  end.

(** [pd.read_csv] on the content of a file.  Without [index_col] the
    frame gets a fresh range index; with [index_col=k] the column
    labelled [k] becomes the index.  A missing label is the
    [ValueError] "Index k invalid" when the table has records; on a
    table of the header alone the parser builds the empty frame by
    column position and fails on the label with a [TypeError]. *)
Definition frame_of_csv (t : csv) (index_col : option string) : result DataFrame :=
  let names := read_header (header t) in
  match index_col with
  | None => Ok (Frame names (range_index (length (records t))) (records t))
  | Some k =>
      match position k names with
      | None =>
          match records t with
          | [] => Raise TypeError
          | _ :: _ => Raise (ValueError ("Index " +:+ k +:+ " invalid"))
          end
      | Some j =>
          Ok (Frame (delete j names)
                    (map (λ r, default (CStr EmptyString) (r !! j)) (records t))
                    (map (delete j) (records t)))
      end
  end.

(** A JSON value of the process metadata. *)
Inductive jval :=
| JNull
| JBool (b : bool)
| JList (keys : list string).

(** A decoded image, [np.ndarray]: its shape and its pixel data. *)
Record ndarray := Array { shape : list nat; pixels : list Z }.

(** The values of [numpy]'s default integer type, [int64]. *)
Definition int64 (z : Z) : bool := (- 2 ^ 63 <=? z)%Z && (z <? 2 ^ 63)%Z.

(** What a file holds.  A JSON file is the sequence of documents that
    were dumped into it back to back: [json.load] accepts exactly one. *)
Inductive content :=
| CsvFile (t : csv)
| JsonFile (docs : list (gmap string jval))
| ImageFile (px : ndarray)
| NpyImages (a : list ndarray)
| NpyLabels (a : list Z)
| NpyWide.

(** [np.array(images)] on a list of arrays: the arrays stacked, when
    they all have one shape; a [ValueError] otherwise.  The message,
    which goes on to spell out the shapes, is cut to its first
    sentence. *)
Definition np_array (images : list ndarray) : result (list ndarray) :=
  match images with
  | [] => Ok []
  | a :: rest =>
      if forallb (λ b, bool_decide (shape b = shape a)) rest then Ok images
      else Raise (ValueError "setting an array element with a sequence.")
  end.

(** [np.array(classes)] on a list of Python integers, as [np.save]
    persists it: an [int64] array of the values when all of them fit.
    Other lists get a wider or inexact element type ([uint64],
    [float64] or Python objects); [NpyWide] stands for such a file,
    whose values are not tracked. *)
Definition np_array_ints (classes : list Z) : content :=
  if forallb int64 classes then NpyLabels classes else NpyWide.

(** ** The file system *)

(** What a path names. *)
Inductive node :=
| Dir
| File (c : content).

(** Paths are the literal strings the code builds; the working directory
    is the empty path. *)
Abbreviation filesystem := (gmap string node).

Fixpoint has_slash (s : string) : bool :=
  match s with
  | EmptyString => false
  | String c s' => Ascii.eqb c "/"%char || has_slash s'
  end.

(** [os.path.basename] *)
Fixpoint basename (s : string) : string :=
  match s with
  | EmptyString => EmptyString
  | String c s' =>
      if has_slash s' then basename s'
      else if Ascii.eqb c "/"%char then s' else s
  end.

(** The directory a path lives in: the part before the last slash. *)
Fixpoint parent (s : string) : string :=
  match s with
  | EmptyString => EmptyString
  | String c s' => if has_slash s' then String c (parent s') else EmptyString
  end.

Fixpoint strip_prefix (pre s : string) : option string :=
  match pre, s with
  | EmptyString, _ => Some s
  | String a pre', String b s' =>
      if Ascii.eqb a b then strip_prefix pre' s' else None
  | _, _ => None
  end.

(** The name under which [p] is an entry of directory [d], if it is one. *)
Definition entry_of (d p : string) : option string :=
  match strip_prefix (d +:+ "/") p with
  | Some n => if has_slash n || String.eqb n EmptyString then None else Some n
  | None => None
  end.

Definition exists_path (f : filesystem) (p : string) : bool :=
  match f !! p with
  | Some _ => true
  | None => false
  end.

Definition is_dir (f : filesystem) (p : string) : bool :=
  match f !! p with
  | Some Dir => true
  | _ => false
  end.

Definition has_parent (f : filesystem) (p : string) : bool :=
  String.eqb (parent p) EmptyString || is_dir f (parent p).

Definition entries (f : filesystem) (d : string) : list string :=
  omap (entry_of d) (elements (dom f)).

(** ** Worlds and effects *)

(** The ghost log: what the pipeline did to the file system, in order.
    [EConvert file key path out] is a call [CONVERSIONS[key](path)] made
    on behalf of source file [file], with its outcome. *)
Inductive event :=
| EMkdir (path : string)
| ECopy (src dst : string)
| EConvert (file key path : string) (out : result string).

Record world := World {
  fsys : filesystem;
  trace : list event;
  sched : list nat
}.

Definition M (A : Type) : Type := world → world * result A.

Definition ret {A} (a : A) : M A := λ w, (w, Ok a).
Definition raise {A} (e : exn) : M A := λ w, (w, Raise e).
Definition lift {A} (r : result A) : M A := λ w, (w, r).

Definition bind {A B} (m : M A) (k : A → M B) : M B :=
  λ w, match m w with
       | (w', Ok a) => k a w'
       | (w', Raise e) => (w', Raise e)
       end.

(** [try: m  except E: h], where [catches] selects the exceptions [E]. *)
Definition try_except {A} (m : M A) (catches : exn → bool) (h : M A) : M A :=
  λ w, match m w with
       | (w', Raise e) => if catches e then h w' else (w', Raise e)
       | out => out
       end.

Declare Scope py_scope.
Delimit Scope py_scope with py.
Notation "'let!' x ':=' m 'in' k" := (bind m (λ x, k))
  (at level 10, x pattern, m at level 100, k at level 200) : py_scope.
Notation "m ';;' k" := (bind m (λ _, k))
  (at level 100, k at level 200, right associativity) : py_scope.
Open Scope py_scope.

Definition get_fs : M filesystem := λ w, (w, Ok (fsys w)).
Definition put_fs (f : filesystem) : M unit :=
  λ w, (World f (trace w) (sched w), Ok tt).
Definition log (e : event) : M unit :=
  λ w, (World (fsys w) (trace w ++ [e]) (sched w), Ok tt).

(** A loop whose body may raise and has effects: [for x in xs: body]
    collecting the results. *)
Fixpoint mapM {A B} (f : A → M B) (xs : list A) : M (list B) :=
  match xs with
  | [] => ret []
  | x :: xs' => let! y := f x in let! ys := mapM f xs' in ret (y :: ys)
  end.

(** *** System calls *)

(** [os.listdir] *)
Definition listdir (d : string) : M (list string) :=
  let! f := get_fs in
  match f !! d with
  | Some Dir => ret (entries f d)
  | Some (File _) => raise NotADirectoryError
  | None => raise FileNotFoundError
  end.

(** [os.mkdir]: the directory the new one lies in must be there; a
    regular file in its place is a [NotADirectoryError]. *)
Definition mkdir (p : string) : M unit :=
  let! f := get_fs in
  if exists_path f p then raise FileExistsError
  else if has_parent f p then put_fs (<[p := Dir]> f);; log (EMkdir p)
  else match f !! parent p with
       | Some (File _) => raise NotADirectoryError
       | _ => raise FileNotFoundError
       end.

(** Reading a whole file: [open(p, "r")] and friends. *)
Definition read_file (p : string) : M content :=
  let! f := get_fs in
  match f !! p with
  | Some (File c) => ret c
  | Some Dir => raise IsADirectoryError
  | None => raise FileNotFoundError
  end.

(** Creating or truncating a file and writing it: [open(p, "w+")],
    [to_csv], [np.save].  Where the path is new, the directory it lies
    in must be there; a regular file in its place is a
    [NotADirectoryError]. *)
Definition write_file (p : string) (c : content) : M unit :=
  let! f := get_fs in
  match f !! p with
  | Some Dir => raise IsADirectoryError
  | Some (File _) => put_fs (<[p := File c]> f)
  | None =>
      if has_parent f p then put_fs (<[p := File c]> f)
      else match f !! parent p with
           | Some (File _) => raise NotADirectoryError
           | _ => raise FileNotFoundError
           end
  end.

(** [shutil.copyfile]: source and destination are the same file when
    both paths name one existing file; a source that is missing is no
    file at all and is found missing on opening it. *)
Definition copyfile (src dst : string) : M unit :=
  let! f := get_fs in
  if String.eqb src dst && exists_path f src then raise SameFileError
  else
    let! c := read_file src in
    write_file dst c;;
    log (ECopy src dst).

(** [shutil.rmtree]: the directory and everything below it. *)
Definition below (d p : string) : bool :=
  String.eqb p d ||
  match strip_prefix (d +:+ "/") p with Some _ => true | None => false end.

Definition rmtree (d : string) : M unit :=
  let! f := get_fs in
  match f !! d with
  | Some Dir => put_fs (filter (λ kv, below d kv.1 = false) f)
  | Some (File _) => raise NotADirectoryError
  | None => raise FileNotFoundError
  end.

(** *** Files of each kind *)

(** [pd.read_csv(p, index_col=...)] *)
Definition read_csv (p : string) (index_col : option string) : M DataFrame :=
  let! c := read_file p in
  match c with
  | CsvFile t => lift (frame_of_csv t index_col)
  | _ => raise ParserError
  end.

(** [df.to_csv(p, index_label=...)] *)
Definition to_csv (df : DataFrame) (p : string) (index_label : option string) : M unit :=
  write_file p (CsvFile (csv_of_frame df index_label)).

(** [json.load] on the text of a file. *)
Definition json_load (c : content) : result (gmap string jval) :=
  match c with
  | JsonFile [d] => Ok d
  | _ => Raise JSONDecodeError
  end.

(** [with open(p, "r") as f: data = json.load(f)] *)
Definition load_json (p : string) : M (gmap string jval) :=
  let! c := read_file p in lift (json_load c).

(** [with open(p, "w+") as f: json.dump(data, f)] *)
Definition dump_json (p : string) (data : gmap string jval) : M unit :=
  write_file p (JsonFile [data]).

(** *** Python idioms shared by the modules *)

(** [next(i for i in itertools.count() if p(i))], searched from [i] for
    at most [fuel] candidates. *)
Fixpoint next_count (p : nat → bool) (fuel i : nat) : result nat :=
  match fuel with
  | 0 => Raise StopIteration
  | S fuel' => if p i then Ok i else next_count p fuel' (S i)
  end.

(** [f"dataset-{i}"] *)
Definition dataset_name (i : nat) : string := "dataset-" +:+ pretty i.

(** The index [new_dataset] picks: the first [i] whose name is not in the
    listing.  One candidate more than there are entries always suffices. *)
Definition fresh_index (datasets : list string) : result nat :=
  next_count (λ i, negb (bool_decide (dataset_name i ∈ datasets)))
             (S (length datasets)) 0.

(** [REGISTRY[key]] for a string-keyed [dict], kept in insertion order. *)
Fixpoint registry_get {V} (reg : list (string * V)) (key : string) : result V :=
  match reg with
  | [] => Raise (KeyError key)
  | (k, v) :: reg' => if String.eqb k key then Ok v else registry_get reg' key
  end.

(** An entry of the conversion registry: a function from a path to the
    new path, acting on the file system. *)
Definition conversion : Type := string → filesystem → filesystem * result string.

(** An entry of the transform registry: image array to image array. *)
Definition transform : Type := ndarray → result ndarray.

(** ** processing.py: the parallel map *)

Module Processing.

(** Process count for multiprocessing. *)
Definition POOL_SIZE : nat := 4.

(** A Python callable as the pool sees it: called on one argument,
    [f(x)], or on an argument tuple unpacked into positional arguments.
    The pool sends the callable to its workers pickled.  A function
    defined at the top of a module pickles by its name; for any other
    callable [pickle_error] is the exception pickling it raises. *)
Record callable (A B : Type) := Callable {
  call : A → M B;
  call_star : A → M B;
  pickle_error : option exn
}.
Arguments Callable {A B} call call_star pickle_error.
Arguments call {A B} c x.
Arguments call_star {A B} c x.
Arguments pickle_error {A B} c.

(** *** [multiprocessing.Pool]

    [Pool.map] cuts the inputs into chunks, hands every chunk to a
    worker, and files each chunk's outputs under the chunk's number as
    the workers report back, in whatever order they do.  The order is
    read off the world's oracle. *)

(** The chunk size [Pool._map_async] computes. *)
Definition chunksize (n : nat) : nat :=
  let q := n / (POOL_SIZE * 4) in
  if (n mod (POOL_SIZE * 4) =? 0) then q else S q.

(** [Pool._get_tasks]: successive slices of [size] inputs, until an
    empty slice.  At most [fuel] slices are cut; the length of the
    inputs is always enough. *)
Fixpoint get_tasks {A} (fuel size : nat) (it : list A) : list (list A) :=
  match fuel with
  | 0 => []
  | S fuel' =>
      match take size it with
      | [] => []
      | x => x :: get_tasks fuel' size (drop size it)
      end
  end.

(** The worker's [mapstar]: the function over one chunk, in order,
    stopping at the first exception. *)
Definition mapstar {A B} (f : A → M B) (chunk : list A) : M (list B) :=
  mapM f chunk.

(** An order of completion: every task is slotted into the order of the
    tasks after it, at the place the oracle picks.  Every order of the
    tasks arises from some oracle. *)
Fixpoint completion_order {T} (picks : list nat) (tasks : list T) : list T :=
  match tasks with
  | [] => []
  | t :: tasks' =>
      let rest := completion_order (tail picks) tasks' in
      let k := hd 0 picks mod S (length rest) in
      take k rest ++ t :: drop k rest
  end.

(** [MapResult]: the outputs filed so far, by chunk number, and the
    first exception a worker reported. *)
Record MapResult (B : Type) := Collected {
  _value : gmap nat (list B);
  _failure : option exn
}.
Arguments Collected {B} _ _.
Arguments _value {B} m.
Arguments _failure {B} m.

(** [MapResult._set]: file a chunk's outputs, or keep the first
    exception; after a failure nothing more is filed. *)
Definition _set {B} (st : MapResult B) (i : nat) (r : result (list B)) : MapResult B :=
  match _failure st, r with
  | None, Ok ys => Collected (<[i := ys]> (_value st)) None
  | None, Raise e => Collected (_value st) (Some e)
  | Some _, _ => st
  end.

(** The workers: chunks run to completion one after the other in the
    order of completion; a failed chunk does not stop the others. *)
Fixpoint run_tasks {A B} (f : A → M B) (order : list (nat * list A))
    (st : MapResult B) (w : world) : world * MapResult B :=
  match order with
  | [] => (w, st)
  | (i, chunk) :: order' =>
      let (w', r) := mapstar f chunk w in
      run_tasks f order' (_set st i r) w'
  end.

(** [MapResult.get]: the outputs in chunk order, or the exception. *)
Definition get {B} (st : MapResult B) (ntasks : nat) : result (list B) :=
  match _failure st with
  | Some e => Raise e
  | None => Ok (concat (map (λ i, default [] (_value st !! i)) (seq 0 ntasks)))
  end.

(** [Pool.map] and [Pool.starmap], on the function [f] already taken
    in the calling convention of each. *)
Definition Pool_map {A B} (f : A → M B) (iterable : list A) : M (list B) :=
  λ w,
    let n := length iterable in
    let task_batches := imap pair (get_tasks n (chunksize n) iterable) in
    let k := length task_batches in
    let order := completion_order (take k (sched w)) task_batches in
    let w0 := World (fsys w) (trace w) (drop k (sched w)) in
    let (w', st) := run_tasks f order (Collected ∅ None) w0 in
    (w', get st k).

(** [process_map(f, args, packed)].  Every task carries the function,
    so with a function that does not pickle no task reaches a worker:
    the first task that cannot be sent fails the map with the pickling
    exception.  Without inputs there is no task and nothing is
    pickled. *)
Definition process_map {A B} (f : callable A B) (args : list A) (packed : bool)
    : M (list B) :=
  match pickle_error f, args with
  | Some e, _ :: _ => raise e
  | _, _ =>
      if packed then Pool_map (call_star f) args
      else Pool_map (call f) args
  end.

(** A module-level function of one parameter; unpacking an argument
    into it is a [TypeError] for the arguments the pipeline maps
    over. *)
Definition unary {A B} (body : A → M B) : callable A B :=
  Callable body (λ _, raise TypeError) None.

(** A module-level function of two parameters: it takes an unpacked
    pair only. *)
Definition binary {A1 A2 B} (body : A1 → A2 → M B) : callable (A1 * A2) B :=
  Callable (λ _, raise TypeError) (λ x, body x.1 x.2) None.

(** The same function defined inside the body of another: pickle
    cannot look a local object up by name and raises
    [AttributeError]. *)
Definition nested {A B} (f : callable A B) : callable A B :=
  Callable (call f) (call_star f) (Some AttributeError).

End Processing.

(** ** pipeline/storage.py *)

Module Storage.
Section Storage.
(** The registry of [pipeline/conversions.py]. *)
Variable CONVERSIONS : list (string * conversion).

Definition init_data_store : M unit :=
  try_except
    (mkdir "data";;
     mkdir "data/images";;
     mkdir "data/datasets")
    (λ e, match e with FileExistsError => true | _ => false end)
    (ret tt).

Definition init_label_store : M unit :=
  let df := new_frame ("File" :: "Class" :: map fst CONVERSIONS) [] in
  to_csv df "data/log.csv" None.

Definition new_dataset : M string :=
  let! datasets := listdir "data/datasets" in
  let! i := lift (fresh_index datasets) in
  let path := "data/datasets/" +:+ dataset_name i in
  mkdir path;;
  mkdir (path +:+ "/images");;
  let df := new_frame ["File"; "Class"] [] in
  to_csv df (path +:+ "/log.csv") None;;
  dump_json (path +:+ "/process.json")
    {[ "Conversions" := JList []; "Transforms" := JList [] ]};;
  ret path.

Definition delete_dataset (dataset : string) : M unit :=
  rmtree dataset.
End Storage.
End Storage.

(** ** pipeline/dataset.py *)

Module Dataset.
Import Processing.
Section Dataset.
(** The registries of [pipeline/conversions.py] and
    [pipeline/transforms.py], and the class vocabulary of
    [pipeline/store.py]: [CLASSES c] is [CLASSES[c]], [None] where the
    key is missing.  The registries hold functions defined at module
    level. *)
Variable CONVERSIONS : list (string * conversion).
Variable TRANSFORMS : list (string * transform).
Variable CLASSES : cell → option Z.
Variable DEFAULT_CLASS : cell.

(** [img = CONVERSIONS[c](img)], on behalf of source file [file]. *)
Definition convert (file c img : string) : M string :=
  let! conv := lift (registry_get CONVERSIONS c) in
  λ w, let (f', out) := conv img (fsys w) in
       (World f' (trace w ++ [EConvert file c img out]) (sched w), out).

(** [for c in conversions_to_apply: img = CONVERSIONS[c](img)] *)
Fixpoint convert_all (file : string) (conversions_to_apply : list string)
    (img : string) : M string :=
  match conversions_to_apply with
  | [] => ret img
  | c :: cs => let! img' := convert file c img in convert_all file cs img'
  end.

(** The body of [_copy_and_apply], the function [new_dataset] defines
    inside itself, closed over its [dataset]. *)
Definition _copy_and_apply (dataset : string) (file : cell)
    (conversions_to_apply : list string) : M string :=
  match file with
  | CStr file =>
      let img := dataset +:+ "/images/" +:+ basename file in
      copyfile file img;;
      convert_all file conversions_to_apply img
  | _ => raise TypeError
  end.

(** [[c for c in conversions if not r[c]]] *)
Definition not_applied (r : row) (conversions : list string) : result (list string) :=
  rfilter (λ c, rbind (row_get r c) (λ flag, Ok (negb (truthy flag)))) conversions.

(** The value of [conversions_left] on the [from_store] branch, from
    the store ledger as read. *)
Definition conversions_left_store (df_store : DataFrame)
    (filenames conversions : list string) : result (list (row * list string)) :=
  rbind (df_col df_store "File") (λ store_files,
    let df := df_mask df_store (map (λ f, cell_in f filenames) store_files) in
    rmap (λ r, rbind (not_applied r conversions) (λ cs, Ok (r, cs)))
         (iterrows df)).

(** The block [# Create new dataset] of [new_dataset]; its value is
    the local [dataset]. *)
Definition create_new_dataset (conversions : list string) : M string :=
  let! datasets := listdir "data/datasets" in
  let! i := lift (fresh_index datasets) in
  let dataset := "data/datasets/" +:+ dataset_name i in
  mkdir dataset;;
  mkdir (dataset +:+ "/images");;
  dump_json (dataset +:+ "/process.json")
    {[ "Conversions" := JList conversions;
       "Transforms" := JList [];
       "Bundled" := JNull ]};;
  ret dataset.

(** The value of [conversions_left] on the other branch. *)
Definition conversions_left_files (filenames conversions : list string)
    : list (row * list string) :=
  map (λ f, ([("File", CStr f); ("Class", DEFAULT_CLASS)], conversions)) filenames.

(** [[(r["File"], cs) for r, cs in conversions_left]] *)
Definition task_args (conversions_left : list (row * list string))
    : result (list (cell * list string)) :=
  rmap (λ rc : row * list string,
          rbind (row_get rc.1 "File") (λ f, Ok (f, rc.2)))
       conversions_left.

(** [[(new, r["Class"]) for new, (r, _) in zip(new_images, conversions_left)]] *)
Definition ledger_rows (new_images : list string)
    (conversions_left : list (row * list string)) : result (list (list cell)) :=
  rmap (λ x : string * (row * list string),
          rbind (row_get x.2.1 "Class") (λ c, Ok [CStr x.1; c]))
       (zip new_images conversions_left).

(** The block [# Add images] of [new_dataset], for the [dataset] just
    created. *)
Definition add_images (dataset : string) (filenames conversions : list string)
    (from_store : bool) : M string :=
  let! conversions_left :=
    if from_store then
      let! df_store := read_csv "data/log.csv" (Some "Index") in
      lift (conversions_left_store df_store filenames conversions)
    else
      ret (conversions_left_files filenames conversions) in
  let! args := lift (task_args conversions_left) in
  let! new_images :=
    process_map (nested (binary (_copy_and_apply dataset))) args true in
  let! new_data := lift (ledger_rows new_images conversions_left) in
  let new_df := new_frame ["File"; "Class"] new_data in
  to_csv new_df (dataset +:+ "/log.csv") (Some "Index");;
  ret dataset.

Definition new_dataset (filenames conversions : list string) (from_store : bool)
    : M string :=
  let! dataset := create_new_dataset conversions in
  add_images dataset filenames conversions from_store.

Definition delete_dataset (dataset : string) : M unit :=
  rmtree dataset.

(** [Image.open(fp)], [np.array(img)], [img.close()] *)
Definition _load_image_array (fp : cell) : M ndarray :=
  match fp with
  | CStr fp =>
      let! c := read_file fp in
      match c with
      | ImageFile px => ret px
      | _ => raise UnidentifiedImageError
      end
  | _ => raise TypeError
  end.

(** [for f in transforms: images = process_map(TRANSFORMS[f], images)] *)
Fixpoint transform_all (transforms : list string) (images : list ndarray)
    : M (list ndarray) :=
  match transforms with
  | [] => ret images
  | f :: fs =>
      let! t := lift (registry_get TRANSFORMS f) in
      let! images' := process_map (unary (λ a, lift (t a))) images false in
      transform_all fs images'
  end.

Definition _make_imageset (dataset : string) (transforms : list string) : M bool :=
  let! loaded :=
    try_except
      (let! df := read_csv (dataset +:+ "/log.csv") None in
       let! fps := lift (df_col df "File") in
       let! images := process_map (unary _load_image_array) fps false in
       ret (Some images))
      (λ e, match e with FileNotFoundError => true | _ => false end)
      (ret None) in
  match loaded with
  | None => ret false
  | Some images =>
      let! images := transform_all transforms images in
      let! data := load_json (dataset +:+ "/process.json") in
      dump_json (dataset +:+ "/process.json")
                (<["Transforms" := JList transforms]> data);;
      let! stacked := lift (np_array images) in
      write_file (dataset +:+ "/X.npy") (NpyImages stacked);;
      ret true
  end.

(** [int(bool(id))] *)
Definition bundle (id : Z) : Z := if (id =? 0)%Z then 0%Z else 1%Z.

(** [CLASSES[c]] *)
Definition class_id (c : cell) : result Z :=
  match CLASSES c with
  | Some id => Ok id
  | None => Raise (KeyError (cell_str c))
  end.

Definition _make_labelset (dataset : string) (bundled : bool) : M bool :=
  let! df := read_csv (dataset +:+ "/log.csv") None in
  let! labels := lift (df_col df "Class") in
  let! classes := lift (rmap (λ c, rbind (class_id c) (λ id,
                                Ok (if bundled then bundle id else id)))
                             labels) in
  let! data := load_json (dataset +:+ "/process.json") in
  dump_json (dataset +:+ "/process.json") (<["Bundled" := JBool bundled]> data);;
  write_file (dataset +:+ "/Y.npy") (np_array_ints classes);;
  ret true.

Definition make_data (dataset : string) (transforms : list string)
    (bundled : bool) : M bool :=
  let! ok := _make_imageset dataset transforms in
  if ok then _make_labelset dataset bundled else ret false.

Definition get_process (dataset : string) : M (gmap string jval) :=
  load_json (dataset +:+ "/process.json").
End Dataset.
End Dataset.

(** ** pipeline/construction.py *)

Module Construction.
Import Processing.
Section Construction.
Variable TRANSFORMS : list (string * transform).

Definition load_image_array (fp : string) : M ndarray :=
  let! c := read_file fp in
  match c with
  | ImageFile px => ret px
  | _ => raise UnidentifiedImageError
  end.

Fixpoint transform_all (transforms : list string) (images : list ndarray)
    : M (list ndarray) :=
  match transforms with
  | [] => ret images
  | f :: fs =>
      let! t := lift (registry_get TRANSFORMS f) in
      let! images' := process_map (unary (λ a, lift (t a))) images false in
      transform_all fs images'
  end.

(** The metadata update through one handle opened [r+]:
    [json.load] reads the file to its end, the assignment changes the
    loaded object, and [json.dump] writes at the handle's position,
    after the text that is already there. *)
Definition update_in_place (p key : string) (v : jval) : M unit :=
  let! c := read_file p in
  let! data := lift (json_load c) in
  match c with
  | JsonFile docs => write_file p (JsonFile (docs ++ [<[key := v]> data]))
  | _ => raise JSONDecodeError
  end.

Definition make_imageset (dataset : string) (transforms : list string) : M bool :=
  let! loaded :=
    try_except
      (let! df := read_csv (dataset +:+ "/log.csv") None in
       let! files := lift (df_col df "File") in
       let fps := map (λ f, dataset +:+ "/images/" +:+ cell_str f) files in
       let! images := process_map (unary load_image_array) fps false in
       ret (Some images))
      (λ e, match e with FileNotFoundError => true | _ => false end)
      (ret None) in
  match loaded with
  | None => ret false
  | Some images =>
      let! images := transform_all transforms images in
      update_in_place (dataset +:+ "/process.json") "Transforms" (JList transforms);;
      let! stacked := lift (np_array images) in
      write_file (dataset +:+ "/X.npy") (NpyImages stacked);;
      ret true
  end.
End Construction.
End Construction.

(** ** Notions the properties are stated with *)




(** Some call of [f] on one of [args], from a world where [I] holds,
    raised [e]. *)
Definition raised_by {A B} (f : A → M B) (args : list A) (I : world → Prop)
    (e : exn) : Prop :=
  ∃ x w1 w2, x ∈ args ∧ I w1 ∧ f x w1 = (w2, Raise e).

(** The outputs the pool has filed so far belong to the chunk of their
    number, and [Q] relates them to its inputs. *)
Definition filed {A B} (Q : A → B → world → Prop) (all : list (nat * list A))
    (st : Processing.MapResult B) (w : world) : Prop :=
  ∀ i ys, Processing._value st !! i = Some ys →
    ∃ chunk, (i, chunk) ∈ all ∧ Forall2 (λ x y, Q x y w) chunk ys.

(** Whatever [m] does, it only appends to the log, and what it appends
    satisfies [allowed]. *)
Definition logs {A} (allowed : event → Prop) (m : M A) : Prop :=
  ∀ w w' r, m w = (w', r) →
    ∃ evs, trace w' = trace w ++ evs ∧ Forall allowed evs.

Definition is_mkdir (e : event) : Prop := ∃ p, e = EMkdir p.

(** Every path that exists lies in a directory that exists. *)
Definition well_formed (f : filesystem) : Prop :=
  ∀ p, exists_path f p = true → has_parent f p = true.

(** The same, decided. *)
Definition well_formedb (f : filesystem) : bool :=
  forallb (has_parent f) (elements (dom f)).

(** [f"data/datasets/dataset-{i}"] *)
Definition dataset_path (i : nat) : string := "data/datasets/" +:+ dataset_name i.

(** The events logged after those of [w]. *)
Definition new_events (w w' : world) : list event :=
  drop (length (trace w)) (trace w').

(** [evs] is the log of the conversions [cs] applied for source file
    [file] in this order, the first to [img] and each next one to the
    path the one before it returned; [out] is the last path returned. *)
Fixpoint chain (file img : string) (cs : list string) (evs : list event)
    (out : string) : Prop :=
  match cs, evs with
  | [], [] => out = img
  | c :: cs', EConvert file' c' p (Ok q) :: evs' =>
      file' = file ∧ c' = c ∧ p = img ∧ chain file q cs' evs' out
  | _, _ => False
  end.

(** The store ledger of a world, as [new_dataset] reads it. *)
Definition store_ledger (w : world) : result DataFrame :=
  match fsys w !! "data/log.csv" with
  | Some (File (CsvFile t)) => frame_of_csv t (Some "Index")
  | Some (File _) => Raise ParserError
  | Some Dir => Raise IsADirectoryError
  | None => Raise FileNotFoundError
  end.

(** ** Sample stores *)

(** A store just initialized. *)
Definition empty_store : world :=
  World {[ "data" := Dir; "data/images" := Dir; "data/datasets" := Dir ]} [] [].

(** A store whose dataset 1 has been deleted. *)
Definition gapped_store : world :=
  World {[ "data" := Dir; "data/images" := Dir; "data/datasets" := Dir;
           "data/datasets/dataset-0" := Dir;
           "data/datasets/dataset-2" := Dir ]} [] [].

(** A root directory without its subdirectories. *)
Definition half_made_store : world :=
  World {[ "data" := Dir ]} [] [].

(** A class vocabulary. *)
Definition sample_classes (c : cell) : option Z :=
  match c with
  | CStr s =>
      if String.eqb s "none" then Some 0%Z
      else if String.eqb s "bar" then Some 2%Z
      else if String.eqb s "pie" then Some 3%Z
      else None
  | _ => None
  end.

Definition sample_ledger : csv :=
  Csv ["Index"; "File"; "Class"]
      [ [CInt 0; CStr "data/datasets/dataset-0/images/a.png"; CStr "none"];
        [CInt 1; CStr "data/datasets/dataset-0/images/b.png"; CStr "none"];
        [CInt 2; CStr "data/datasets/dataset-0/images/c.png"; CStr "bar"];
        [CInt 3; CStr "data/datasets/dataset-0/images/d.png"; CStr "pie"];
        [CInt 4; CStr "data/datasets/dataset-0/images/e.png"; CStr "none"] ].

Definition sample_process : gmap string jval :=
  {[ "Conversions" := JList []; "Transforms" := JList []; "Bundled" := JNull ]}.

(** A store with one dataset of five labelled images. *)
Definition labelled_store : world :=
  World {[ "data" := Dir; "data/images" := Dir; "data/datasets" := Dir;
           "data/datasets/dataset-0" := Dir;
           "data/datasets/dataset-0/images" := Dir;
           "data/datasets/dataset-0/log.csv" := File (CsvFile sample_ledger);
           "data/datasets/dataset-0/process.json" :=
             File (JsonFile [sample_process]) ]} [] [].

(** A store with a dataset directory that has no ledger. *)
Definition ledgerless_store : world :=
  World {[ "data" := Dir; "data/datasets" := Dir;
           "data/datasets/dataset-0" := Dir;
           "data/datasets/dataset-0/process.json" :=
             File (JsonFile [sample_process]) ]} [] [].

(** A transform registry with the identity under one key. *)
Definition sample_transforms : list (string * transform) :=
  [("same", λ a, Ok a)].

(** A conversion after [convert_to_png] of [processing.py]: the image
    is saved under a new name and the old file removed. *)
Definition to_png : conversion :=
  λ fp f,
    match f !! fp with
    | Some (File (ImageFile px)) =>
        (delete fp (<[fp +:+ ".png" := File (ImageFile px)]> f), Ok (fp +:+ ".png"))
    | Some (File _) => (f, Raise UnidentifiedImageError)
    | Some Dir => (f, Raise IsADirectoryError)
    | None => (f, Raise FileNotFoundError)
    end.

(** A conversion after [make_grayscale]: the image is rewritten in
    place. *)
Definition to_gray : conversion :=
  λ fp f,
    match f !! fp with
    | Some (File (ImageFile px)) => (f, Ok fp)
    | Some (File _) => (f, Raise UnidentifiedImageError)
    | Some Dir => (f, Raise IsADirectoryError)
    | None => (f, Raise FileNotFoundError)
    end.

Definition sample_conversions : list (string * conversion) :=
  [("png", to_png); ("gray", to_gray)].

(** A store ledger with two images, the second already a PNG. *)
Definition stocked_ledger : csv :=
  Csv ["Index"; "File"; "Class"; "png"; "gray"]
      [ [CInt 0; CStr "data/images/a.jpg"; CStr "bar"; CBool false; CBool false];
        [CInt 1; CStr "data/images/b.png"; CStr "pie"; CBool true; CBool false] ].

Definition stocked_store : world :=
  World {[ "data" := Dir; "data/images" := Dir; "data/datasets" := Dir;
           "data/images/a.jpg" := File (ImageFile (Array [2] [1%Z; 2%Z]));
           "data/images/b.png" := File (ImageFile (Array [1] [3%Z]));
           "data/log.csv" := File (CsvFile stocked_ledger) ]} [] [1; 0].

(** A store whose ledger has just been initialized. *)
Definition blank_ledger_store : world :=
  (Storage.init_label_store sample_conversions empty_store).1.

(** ** processing.py: temporary copies and format conversion *)

(** [os.remove] *)
Definition remove (p : string) : M unit :=
  let! f := get_fs in
  match f !! p with
  | Some (File _) => put_fs (delete p f)
  | Some Dir => raise IsADirectoryError
  | None => raise FileNotFoundError
  end.

Fixpoint has_dot (s : string) : bool :=
  match s with
  | EmptyString => false
  | String c s' => Ascii.eqb c "."%char || has_dot s'
  end.

(** ['.'.join(fp.split('.')[:-1])]: the part before the last dot, empty
    when there is no dot. *)
Fixpoint stem (s : string) : string :=
  match s with
  | EmptyString => EmptyString
  | String c s' => if has_dot s' then String c (stem s') else EmptyString
  end.

Module Processing_files.
Section Processing_files.
(** What the image library writes when it saves pixel data as PNG, or
    the exception it raises. *)
Variable encode_png : ndarray → result ndarray.

Definition _create_tmp : M unit :=
  try_except
    (mkdir "tmp")
    (λ e, match e with FileExistsError => true | _ => false end)
    (ret tt).

Definition copy_to_tmp (fp : string) : M string :=
  let new_path := "tmp/" +:+ basename fp in
  try_except
    (copyfile fp new_path)
    (λ e, match e with FileNotFoundError => true | _ => false end)
    (_create_tmp;; copyfile fp new_path);;
  ret new_path.

Definition convert_to_png (fp : string) : M string :=
  let new_fp := stem fp +:+ ".png" in
  let! c := read_file fp in
  match c with
  | ImageFile px =>
      let! data := lift (encode_png px) in
      write_file new_fp (ImageFile data);;
      remove fp;;
      ret new_fp
  | _ => raise UnidentifiedImageError
  end.
End Processing_files.
End Processing_files.

(** ** Further notions *)

(** The transforms [transforms] applied to one image array, one after
    the other. *)
Fixpoint pipeline (TRANSFORMS : list (string * transform))
    (transforms : list string) (px : ndarray) : result ndarray :=
  match transforms with
  | [] => Ok px
  | f :: fs =>
      rbind (registry_get TRANSFORMS f) (λ t,
        rbind (t px) (λ px', pipeline TRANSFORMS fs px'))
  end.


(** What [Image.open] and [np.array] give for the path in a ledger cell:
    the pixel data of the image file there. *)
Definition image_at (f : filesystem) (fp : cell) : result ndarray :=
  match fp with
  | CStr p =>
      match f !! p with
      | Some (File (ImageFile px)) => Ok px
      | Some (File _) => Raise UnidentifiedImageError
      | Some Dir => Raise IsADirectoryError
      | None => Raise FileNotFoundError
      end
  | _ => Raise TypeError
  end.

(** A transform registry with a transform that changes the pixels and
    one that rejects every image. *)
Definition working_transforms : list (string * transform) :=
  [("negate", λ a, Ok (Array (shape a) (map Z.opp (pixels a))));
   ("reverse", λ a, Ok (Array (shape a) (rev (pixels a))));
   ("reject", λ _, Raise (ValueError "not an image"))].

Definition imaged_ledger : csv :=
  Csv ["Index"; "File"; "Class"]
      [ [CInt 0; CStr "data/datasets/dataset-0/images/a.png"; CStr "bar"];
        [CInt 1; CStr "data/datasets/dataset-0/images/b.png"; CStr "none"] ].

(** A store with one dataset of two images. *)
Definition imaged_store : world :=
  World {[ "data" := Dir; "data/images" := Dir; "data/datasets" := Dir;
           "data/datasets/dataset-0" := Dir;
           "data/datasets/dataset-0/images" := Dir;
           "data/datasets/dataset-0/images/a.png" :=
             File (ImageFile (Array [3] [1; 2; 3]%Z));
           "data/datasets/dataset-0/images/b.png" :=
             File (ImageFile (Array [3] [4; 5; 6]%Z));
           "data/datasets/dataset-0/log.csv" := File (CsvFile imaged_ledger);
           "data/datasets/dataset-0/process.json" :=
             File (JsonFile [sample_process]) ]} [] [1; 0].

(** The same dataset with the second image file gone. *)
Definition torn_store : world :=
  World (delete "data/datasets/dataset-0/images/b.png" (fsys imaged_store)) [] [1; 0].

(** * Properties *)

(** ** Generic facts about results and the effect monad *)

Lemma rmap_Ok_Forall2 {A B} (f : A → result B) xs ys :
  rmap f xs = Ok ys ↔ Forall2 (λ x y, f x = Ok y) xs ys.
Proof.
  revert ys. induction xs as [|x xs IH]; intros ys; simpl.
  - split.
    + intros [= <-]. constructor.
    + intros H. inversion H. reflexivity.
  - split.
    + destruct (f x) as [y|e] eqn:Hx; simpl; [|discriminate].
      destruct (rmap f xs) as [ys'|e] eqn:Hxs; simpl; [|discriminate].
      intros [= <-]. constructor; [assumption|]. apply IH. reflexivity.
    + intros H. inversion H as [|? y ? ys' Hx Hrest]; subst.
      rewrite Hx. simpl. apply IH in Hrest. rewrite Hrest. reflexivity.
Qed.

Lemma rmap_Raise_elem {A B} (f : A → result B) xs e :
  rmap f xs = Raise e → ∃ x, x ∈ xs ∧ f x = Raise e.
Proof.
  induction xs as [|x xs IH]; simpl; [discriminate|].
  destruct (f x) as [y|e'] eqn:Hx; simpl.
  - destruct (rmap f xs) as [ys|e'] eqn:Hxs; simpl; [discriminate|].
    intros [= ->]. destruct IH as (x' & Hin & Hx'); [reflexivity|].
    exists x'. split; [by right | assumption].
  - intros [= ->]. exists x. split; [by left | assumption].
Qed.

Lemma rmap_length {A B} (f : A → result B) xs ys :
  rmap f xs = Ok ys → length ys = length xs.
Proof.
  intros H. apply rmap_Ok_Forall2 in H.
  symmetry. eapply Forall2_length, H.
Qed.

Lemma Forall2_Forall2_concat {A B} (P : A → B → Prop) ls ks :
  Forall2 (Forall2 P) ls ks → Forall2 P (concat ls) (concat ks).
Proof.
  induction 1 as [|l k ls ks Hlk _ IH]; simpl; [constructor|].
  by apply Forall2_app.
Qed.

Lemma elem_of_concat {A} (x : A) (ls : list (list A)) :
  x ∈ concat ls ↔ ∃ l, l ∈ ls ∧ x ∈ l.
Proof.
  rewrite list_elem_of_In, in_concat.
  split; intros (l & H1 & H2); exists l; by rewrite ?list_elem_of_In in *.
Qed.

(** ** The worker pool *)

Import Processing.

Lemma chunksize_pos n : 0 < n → 0 < chunksize n.
Proof.
  intros Hn. unfold chunksize.
  destruct (Nat.eqb_spec (n mod (POOL_SIZE * 4)) 0) as [Hmod|Hmod]; [|lia].
  assert (Hdiv : n = (POOL_SIZE * 4) * (n / (POOL_SIZE * 4)) + n mod (POOL_SIZE * 4))
    by (apply Nat.div_mod_eq).
  destruct (n / (POOL_SIZE * 4)); lia.
Qed.

(** The chunks are the inputs, cut up: nothing is lost or reordered. *)
Lemma get_tasks_concat {A} fuel size (it : list A) :
  length it ≤ fuel → (0 < size ∨ it = []) →
  concat (get_tasks fuel size it) = it.
Proof.
  revert it. induction fuel as [|fuel IH]; intros it Hfuel Hsize; simpl.
  - destruct it; [reflexivity | simpl in Hfuel; lia].
  - destruct (take size it) as [|x chunk] eqn:Htake.
    + apply take_nil_inv in Htake. destruct Htake as [->| ->]; [|reflexivity].
      destruct Hsize as [?| ->]; [lia | reflexivity].
    + rewrite concat_cons, <- Htake, IH.
      * apply take_drop.
      * rewrite length_drop.
        destruct it as [|a it]; [by rewrite take_nil in Htake|].
        destruct size; [by rewrite take_0 in Htake|].
        simpl in *. lia.
      * destruct Hsize as [?| ->]; [by left | right; by rewrite drop_nil].
Qed.

Lemma process_tasks_cover {A} (args : list A) :
  concat (get_tasks (length args) (chunksize (length args)) args) = args.
Proof.
  apply get_tasks_concat; [lia|].
  destruct args as [|a args]; [by right | left].
  apply chunksize_pos. simpl. lia.
Qed.

(** Whatever the oracle says, every task completes exactly once. *)
Lemma completion_order_Permutation {T} picks (tasks : list T) :
  completion_order picks tasks ≡ₚ tasks.
Proof.
  revert picks. induction tasks as [|t tasks IH]; intros picks; simpl; [done|].
  rewrite <- Permutation_middle, take_drop. by constructor.
Qed.

Lemma set_failure_None {B} (st : MapResult B) i r :
  _failure (_set st i r) = None →
  _failure st = None
  ∧ ∃ ys, r = Ok ys ∧ _value (_set st i r) = <[i := ys]> (_value st).
Proof.
  unfold _set. destruct (_failure st) as [e|] eqn:Hf.
  - rewrite Hf. discriminate.
  - destruct r as [ys|e]; simpl; [|discriminate].
    intros _. split; [done|]. by exists ys.
Qed.

Section pool_rule.
Context {A B : Type}.
Variable f : A → M B.
Variable args : list A.

(** [I] holds of the world throughout; [Q x y] is what a call on [x]
    that returned [y] has established, and no later call undoes it. *)
Variable I : world → Prop.
Variable Q : A → B → world → Prop.

Hypothesis I_sched : ∀ w s, I w → I (World (fsys w) (trace w) s).
Hypothesis call_ok : ∀ x w w' r,
  x ∈ args → I w → f x w = (w', r) →
  I w' ∧ (∀ y, r = Ok y → Q x y w') ∧ (∀ x' y', Q x' y' w → Q x' y' w').

Lemma mapstar_rule chunk w w' r :
  (∀ x, x ∈ chunk → x ∈ args) → I w → mapstar f chunk w = (w', r) →
  I w' ∧ (∀ x' y', Q x' y' w → Q x' y' w')
  ∧ (∀ ys, r = Ok ys → Forall2 (λ x y, Q x y w') chunk ys)
  ∧ (∀ e, r = Raise e → raised_by f args I e).
Proof.
  unfold mapstar. revert w w' r.
  induction chunk as [|x chunk IH]; intros w w' r Hsub HI; simpl.
  - unfold ret. intros [= <- <-]. repeat split; try done.
    intros ys [= <-]. constructor.
  - unfold bind at 1. destruct (f x w) as [w1 [y|e]] eqn:Hx.
    + destruct (call_ok x w w1 (Ok y)) as (HI1 & HQ1 & Hst1);
        [apply Hsub; by left | done | done |].
      unfold bind at 1.
      destruct (mapM f chunk w1) as [w2 [ys|e]] eqn:Hrest.
      * unfold ret. intros [= <- <-].
        destruct (IH w1 w2 (Ok ys)) as (HI2 & Hst2 & HQ2 & _);
          [intros; apply Hsub; by right | done | done |].
        repeat split; [done | by auto | | done].
        intros ys' [= <-]. constructor; [by auto | by auto].
      * intros [= <- <-].
        destruct (IH w1 w2 (Raise e)) as (HI2 & Hst2 & _ & HE2);
          [intros; apply Hsub; by right | done | done |].
        repeat split; [done | by auto | done | ].
        intros e' [= <-]. by apply HE2.
    + intros [= <- <-].
      destruct (call_ok x w w1 (Raise e)) as (HI1 & _ & Hst1);
        [apply Hsub; by left | done | done |].
      repeat split; [done | done | done |].
      intros e' [= <-]. exists x, w, w1. split; [apply Hsub; by left | done].
Qed.

Lemma run_tasks_rule all order st w w' st' :
  (∀ i chunk, (i, chunk) ∈ order → (i, chunk) ∈ all) →
  (∀ i chunk x, (i, chunk) ∈ all → x ∈ chunk → x ∈ args) →
  I w → filed Q all st w → (∀ e, _failure st = Some e → raised_by f args I e) →
  run_tasks f order st w = (w', st') →
  I w' ∧ filed Q all st' w' ∧ (∀ e, _failure st' = Some e → raised_by f args I e)
  ∧ (_failure st' = None →
       _failure st = None
       ∧ (∀ i, is_Some (_value st !! i) → is_Some (_value st' !! i))
       ∧ (∀ i chunk, (i, chunk) ∈ order → is_Some (_value st' !! i))).
Proof.
  revert st w. induction order as [|[i chunk] order IH];
    intros st w Hsub Hall HI Hfiled Hfail; simpl.
  - intros [= <- <-]. repeat split; try done.
    intros i chunk Hin. by apply elem_of_nil in Hin.
  - destruct (mapstar f chunk w) as [w1 r] eqn:Hchunk.
    destruct (mapstar_rule chunk w w1 r) as (HI1 & Hst1 & HQ1 & HE1);
      [ intros x Hx; eapply Hall; [apply Hsub; by left | done] | done | done | ].
    intros Hrun.
    assert (Hfiled1 : filed Q all (_set st i r) w1).
    { intros j ys. unfold _set.
      destruct (_failure st) as [e0|] eqn:Hf0.
      - intros Hj. destruct (Hfiled j ys Hj) as (c & Hc & HQc).
        exists c. split; [done|]. eapply Forall2_impl; [exact HQc | by auto].
      - destruct r as [ys1|e1]; simpl.
        + destruct (decide (i = j)) as [<-|Hne].
          * rewrite lookup_insert_eq. intros [= <-].
            exists chunk. split; [apply Hsub; by left | by apply HQ1].
          * rewrite lookup_insert_ne by done. intros Hj.
            destruct (Hfiled j ys Hj) as (c & Hc & HQc).
            exists c. split; [done|]. eapply Forall2_impl; [exact HQc | by auto].
        + intros Hj. destruct (Hfiled j ys Hj) as (c & Hc & HQc).
          exists c. split; [done|]. eapply Forall2_impl; [exact HQc | by auto]. }
    assert (Hfail1 : ∀ e, _failure (_set st i r) = Some e → raised_by f args I e).
    { intros e. unfold _set. destruct (_failure st) as [e0|] eqn:Hf0.
      - rewrite Hf0. intros [= <-]. by apply Hfail.
      - destruct r as [ys1|e1]; simpl; [done|]. intros [= <-]. by apply HE1. }
    destruct (IH (_set st i r) w1) as (HI' & Hfiled' & Hfail' & Hdone);
      [intros; apply Hsub; by right | done | done | done | done | done |].
    split; [done|]. split; [done|]. split; [done|].
    intros Hnone'. destruct (Hdone Hnone') as (Hnone & Hkeep & Hnew).
    apply set_failure_None in Hnone as (Hst & ys1 & -> & Hval).
    split; [done|]. split.
    + intros j Hj. apply Hkeep. rewrite Hval.
      destruct (decide (i = j)) as [<-|Hne].
      * rewrite lookup_insert_eq. by eexists.
      * by rewrite lookup_insert_ne.
    + intros j c Hin.
      apply elem_of_cons in Hin as [[= -> ->]|Hin]; [|by eapply Hnew].
      apply Hkeep. rewrite Hval, lookup_insert_eq. by eexists.
Qed.

(** The rule for [Pool.map]: the invariant is kept; on success the
    outputs pair up with the inputs, in input order; an exception
    that comes out was raised by a call on one of the inputs. *)
Lemma Pool_map_rule w w' r :
  I w → Pool_map f args w = (w', r) →
  I w'
  ∧ (∀ ys, r = Ok ys → Forall2 (λ x y, Q x y w') args ys)
  ∧ (∀ e, r = Raise e → raised_by f args I e).
Proof.
  intros HI. unfold Pool_map.
  set (tasks := get_tasks (length args) (chunksize (length args)) args).
  set (all := imap pair tasks).
  set (order := completion_order (take (length all) (sched w)) all).
  destruct (run_tasks f order (Collected ∅ None)
              (World (fsys w) (trace w) (drop (length all) (sched w))))
    as [w1 st] eqn:Hrun.
  intros [= <- <-].
  assert (Hperm : order ≡ₚ all) by apply completion_order_Permutation.
  destruct (run_tasks_rule all order (Collected ∅ None)
              (World (fsys w) (trace w) (drop (length all) (sched w))) w1 st)
    as (HI1 & Hfiled & Hfail & Hdone).
  - intros i c Hin. by apply (elem_of_Permutation_proper _ _ _ Hperm).
  - intros i chunk x Hin Hx.
    apply elem_of_lookup_imap_1 in Hin as (j & c & [= -> ->] & Hj).
    rewrite <- (process_tasks_cover args). apply elem_of_concat.
    exists c. split; [eapply list_elem_of_lookup_2, Hj | done].
  - by apply I_sched.
  - intros i ys. simpl. by rewrite lookup_empty.
  - simpl. done.
  - exact Hrun.
  - split; [done|]. unfold get. split.
    + intros ys. destruct (_failure st) eqn:Hf; [done|]. intros [= <-].
      destruct (Hdone eq_refl) as (_ & _ & Hnew).
      rewrite <- (process_tasks_cover args) at 1. fold tasks.
      apply Forall2_Forall2_concat.
      apply Forall2_same_length_lookup_2.
      { rewrite length_map, length_seq. unfold all. by rewrite length_imap. }
      intros i c zs Hc. rewrite list_lookup_fmap.
      unfold all. rewrite length_imap.
      rewrite lookup_seq_lt by (eapply lookup_lt_Some, Hc). simpl.
      intros [= <-].
      destruct (Hnew i c) as [ys Hys].
      { apply (elem_of_Permutation_proper _ _ _ Hperm).
        by apply (elem_of_lookup_imap_2 pair). }
      rewrite Hys. simpl.
      destruct (Hfiled i ys Hys) as (c' & Hin & HQ).
      apply elem_of_lookup_imap_1 in Hin as (j & c1 & [= -> ->] & Hj).
      rewrite Hc in Hj. by injection Hj as ->.
    + intros e. destruct (_failure st) eqn:Hf; [|done]. intros [= <-].
      by apply Hfail.
Qed.
End pool_rule.

(** ** Effects, step by step *)

Lemma bind_Ok {A B} (m : M A) (k : A → M B) w w1 a :
  m w = (w1, Ok a) → bind m k w = k a w1.
Proof. unfold bind. by intros ->. Qed.

Lemma bind_Raise {A B} (m : M A) (k : A → M B) w w1 e :
  m w = (w1, Raise e) → bind m k w = (w1, Raise e).
Proof. unfold bind. by intros ->. Qed.

Lemma bind_inv {A B} (m : M A) (k : A → M B) w w' r :
  bind m k w = (w', r) →
  (∃ w1 a, m w = (w1, Ok a) ∧ k a w1 = (w', r))
  ∨ (∃ e, m w = (w', Raise e) ∧ r = Raise e).
Proof.
  unfold bind. destruct (m w) as [w1 [a|e]].
  - intros Hk. left. by exists w1, a.
  - intros [= <- <-]. right. by exists e.
Qed.

Lemma bind_lift {A B} (r : result A) (k : A → M B) w :
  bind (lift r) k w = match r with Ok a => k a w | Raise e => (w, Raise e) end.
Proof. unfold bind, lift. by destruct r. Qed.



(** A function that pickles goes to the pool. *)
Lemma process_map_picklable {A B} (f : callable A B) (args : list A) (packed : bool) :
  pickle_error f = None →
  process_map f args packed
  = if packed then Pool_map (call_star f) args else Pool_map (call f) args.
Proof. unfold process_map. by intros ->. Qed.

(** One that does not fails the map before any call, unless there is
    nothing to map. *)
Lemma process_map_unpicklable {A B} (f : callable A B) e x (args : list A)
    (packed : bool) w :
  pickle_error f = Some e →
  process_map f (x :: args) packed w = (w, Raise e).
Proof. unfold process_map. by intros ->. Qed.


(** ** C1: the parallel map against the sequential reference *)



(** ** System calls *)

Lemma world_eta w : World (fsys w) (trace w) (sched w) = w.
Proof. by destruct w. Qed.

Lemma read_file_File p c w :
  fsys w !! p = Some (File c) → read_file p w = (w, Ok c).
Proof. unfold read_file, bind, get_fs, ret. by intros ->. Qed.

Lemma read_file_absent p w :
  exists_path (fsys w) p = false → read_file p w = (w, Raise FileNotFoundError).
Proof.
  unfold exists_path, read_file, bind, get_fs, raise.
  by destruct (fsys w !! p).
Qed.

Lemma write_file_over p c c0 w :
  fsys w !! p = Some (File c0) →
  write_file p c w = (World (<[p := File c]> (fsys w)) (trace w) (sched w), Ok tt).
Proof. unfold write_file, bind, get_fs, put_fs. by intros ->. Qed.

Lemma write_file_new p c w :
  fsys w !! p = None → has_parent (fsys w) p = true →
  write_file p c w = (World (<[p := File c]> (fsys w)) (trace w) (sched w), Ok tt).
Proof. unfold write_file, bind, get_fs, put_fs. by intros -> ->. Qed.

Lemma mkdir_new p w :
  fsys w !! p = None → has_parent (fsys w) p = true →
  mkdir p w = (World (<[p := Dir]> (fsys w)) (trace w ++ [EMkdir p]) (sched w), Ok tt).
Proof.
  unfold mkdir, exists_path, bind, get_fs, put_fs, log. by intros -> ->.
Qed.

Lemma mkdir_exists p w :
  exists_path (fsys w) p = true → mkdir p w = (w, Raise FileExistsError).
Proof. unfold mkdir, bind, get_fs, raise. by intros ->. Qed.

(** ** Paths *)

Lemma append_nil_l s : EmptyString +:+ s = s.
Proof. reflexivity. Qed.

Lemma append_cons c a b : String c a +:+ b = String c (a +:+ b).
Proof. reflexivity. Qed.

Lemma has_slash_app a b : has_slash (a +:+ b) = has_slash a || has_slash b.
Proof.
  induction a as [|c a IH]; [done|].
  rewrite append_cons. simpl. rewrite IH. by rewrite orb_assoc.
Qed.

(** A file directly in a directory has that directory as its parent. *)
Lemma parent_entry d n :
  has_slash n = false → parent (d +:+ "/" +:+ n) = d.
Proof.
  intros Hn. induction d as [|c d IH].
  - rewrite append_nil_l. change ("/" +:+ n) with (String "/" n).
    simpl. by rewrite Hn.
  - rewrite append_cons. simpl. rewrite !has_slash_app.
    change (has_slash "/") with true. rewrite orb_true_r. simpl.
    by rewrite IH.
Qed.

Lemma append_inj_l a b c : a +:+ b = a +:+ c → b = c.
Proof.
  induction a as [|x a IH]; [done|].
  rewrite !append_cons. intros [= H]. by apply IH.
Qed.

Lemma append_assoc a b c : (a +:+ b) +:+ c = a +:+ (b +:+ c).
Proof.
  induction a as [|x a IH]; [done|]. rewrite !append_cons. by rewrite IH.
Qed.

(** ** C2: materializing a dataset without a ledger *)

Lemma make_imageset_absent_ledger TRANSFORMS dataset transforms w :
  exists_path (fsys w) (dataset +:+ "/log.csv") = false →
  Dataset._make_imageset TRANSFORMS dataset transforms w = (w, Ok false).
Proof.
  intros Habs. unfold Dataset._make_imageset, try_except, read_csv, bind.
  by rewrite (read_file_absent _ _ Habs).
Qed.

(** C2.  When nothing exists at the dataset's [log.csv], [make_data]
    returns false and leaves the whole world as it was: no [Y.npy] is
    created and [process.json] is not touched.  The label step was not
    run: run on the same world, it raises. *)
Theorem make_data_absent_ledger TRANSFORMS CLASSES dataset transforms bundled w :
  exists_path (fsys w) (dataset +:+ "/log.csv") = false →
  Dataset.make_data TRANSFORMS CLASSES dataset transforms bundled w = (w, Ok false)
  ∧ Dataset._make_labelset CLASSES dataset bundled w = (w, Raise FileNotFoundError).
Proof.
  intros Habs. split.
  - unfold Dataset.make_data.
    erewrite bind_Ok by (by apply make_imageset_absent_ledger). done.
  - unfold Dataset._make_labelset, read_csv, bind.
    by rewrite (read_file_absent _ _ Habs).
Qed.

Lemma make_data_absent_ledger_witness :
  exists_path (fsys ledgerless_store) ("data/datasets/dataset-0" +:+ "/log.csv") = false
  ∧ Dataset.make_data [] (λ _, None) "data/datasets/dataset-0" ["t"] true
      ledgerless_store
    = (ledgerless_store, Ok false).
Proof.
  split; [reflexivity|].
  apply (make_data_absent_ledger [] (λ _, None) "data/datasets/dataset-0" ["t"]
           true ledgerless_store).
  reflexivity.
Defined.

Lemma append_ne_self s c t : s ≠ s +:+ String c t.
Proof.
  induction s as [|x s IH]; [done|].
  rewrite append_cons. intros [= H]. by apply IH.
Qed.

Lemma is_dir_insert_File (f : filesystem) p q c c0 :
  f !! p = Some (File c0) → is_dir (<[p := File c]> f) q = is_dir f q.
Proof.
  intros Hp. unfold is_dir. destruct (decide (p = q)) as [<-|Hne].
  - by rewrite lookup_insert_eq, Hp.
  - by rewrite lookup_insert_ne.
Qed.

(** ** C5: the label array *)

Lemma bundle_spec id : Dataset.bundle id = if decide (id = 0%Z) then 0%Z else 1%Z.
Proof.
  unfold Dataset.bundle. destruct (Z.eqb_spec id 0); by case_decide.
Qed.

Lemma class_ids_resolved CLASSES (g : Z → Z) labels ids :
  Forall2 (λ c id, CLASSES c = Some id) labels ids →
  rmap (λ c, rbind (Dataset.class_id CLASSES c) (λ id, Ok (g id))) labels
  = Ok (map g ids).
Proof.
  intros H. apply rmap_Ok_Forall2. apply Forall2_fmap_r.
  eapply Forall2_impl; [exact H|]. intros c id Hc. simpl.
  unfold Dataset.class_id. by rewrite Hc.
Qed.

Lemma np_array_ints_int64 classes :
  Forall (λ id, int64 id = true) classes →
  np_array_ints classes = NpyLabels classes.
Proof.
  intros H. unfold np_array_ints.
  induction H as [|id classes Hid _ IH]; simpl; [done|].
  rewrite Hid. simpl. by destruct (forallb int64 classes).
Qed.

(** C5.  For a dataset whose ledger's class column resolves to the
    integer ids [ids], [_make_labelset] returns true and persists, in
    row order, the ids with every nonzero id replaced by 1 when
    [bundled] is set, and the ids unchanged when it is not; unbundled
    ids are those of the array's 64-bit integer type. *)
Theorem make_labelset_persists_labels CLASSES dataset bundled w t df labels ids d :
  fsys w !! (dataset +:+ "/log.csv") = Some (File (CsvFile t)) →
  frame_of_csv t None = Ok df →
  df_col df "Class" = Ok labels →
  Forall2 (λ c id, CLASSES c = Some id) labels ids →
  (bundled = false → Forall (λ id, int64 id = true) ids) →
  fsys w !! (dataset +:+ "/process.json") = Some (File (JsonFile [d])) →
  is_dir (fsys w) dataset = true →
  is_dir (fsys w) (dataset +:+ "/Y.npy") = false →
  let out := Dataset._make_labelset CLASSES dataset bundled w in
  out.2 = Ok true
  ∧ fsys out.1 !! (dataset +:+ "/Y.npy")
    = Some (File (NpyLabels
        (if bundled
         then map (λ id, if decide (id = 0%Z) then 0%Z else 1%Z) ids
         else ids))).
Proof.
  intros Hlog Hdf Hcol Hids Hrange Hjson Hdir Hy.
  set (classes := if bundled
                  then map (λ id, if decide (id = 0%Z) then 0%Z else 1%Z) ids
                  else ids).
  assert (Hfit : np_array_ints classes = NpyLabels classes).
  { apply np_array_ints_int64. unfold classes. destruct bundled; [|by apply Hrange].
    apply Forall_fmap, Forall_true. intros id. simpl. by case_decide. }
  set (w1 := World (<[dataset +:+ "/process.json" :=
                       File (JsonFile [<["Bundled" := JBool bundled]> d])]> (fsys w))
                   (trace w) (sched w)).
  assert (Hrun : Dataset._make_labelset CLASSES dataset bundled w
                 = (World (<[dataset +:+ "/Y.npy" := File (NpyLabels classes)]> (fsys w1))
                          (trace w) (sched w), Ok true)).
  { unfold Dataset._make_labelset.
    rewrite (bind_Ok _ _ w w df).
    2:{ unfold read_csv. rewrite (bind_Ok _ _ w w (CsvFile t))
          by (by apply read_file_File). unfold lift. by rewrite Hdf. }
    rewrite bind_lift, Hcol.
    rewrite bind_lift.
    replace (rmap _ labels) with (Ok (A:=list Z) classes).
    2:{ symmetry. unfold classes. destruct bundled.
        - rewrite (class_ids_resolved CLASSES Dataset.bundle labels ids Hids).
          f_equal. apply map_ext. intros id. apply bundle_spec.
        - rewrite (class_ids_resolved CLASSES (λ id, id) labels ids Hids).
          by rewrite map_id. }
    rewrite (bind_Ok _ _ w w d).
    2:{ unfold load_json. rewrite (bind_Ok _ _ w w (JsonFile [d]))
          by (by apply read_file_File). done. }
    rewrite (bind_Ok _ _ w w1 tt).
    2:{ unfold dump_json. by erewrite write_file_over. }
    rewrite Hfit.
    assert (Hne : dataset +:+ "/process.json" ≠ dataset +:+ "/Y.npy").
    { intros H. by apply append_inj_l in H. }
    destruct (fsys w !! (dataset +:+ "/Y.npy")) as [[|c0]|] eqn:Hy0.
    - unfold is_dir in Hy. by rewrite Hy0 in Hy.
    - erewrite bind_Ok; [reflexivity|].
      apply (write_file_over _ _ c0 w1).
      simpl. rewrite lookup_insert_ne by done. exact Hy0.
    - erewrite bind_Ok; [reflexivity|].
      apply (write_file_new _ _ w1); simpl.
      + by rewrite lookup_insert_ne.
      + unfold has_parent.
        change (dataset +:+ "/Y.npy") with (dataset +:+ "/" +:+ "Y.npy").
        rewrite parent_entry by done.
        erewrite is_dir_insert_File by done. rewrite Hdir. apply orb_true_r. }
  intros out. unfold out. rewrite Hrun. simpl.
  split; [done|]. by rewrite lookup_insert_eq.
Qed.

(** ** Directory listings and fresh dataset names *)

Lemma strip_prefix_app a b : strip_prefix a (a +:+ b) = Some b.
Proof.
  induction a as [|c a IH]; [by destruct b|].
  rewrite append_cons. simpl. by rewrite Ascii.eqb_refl.
Qed.

Lemma strip_prefix_Some a s b : strip_prefix a s = Some b → s = a +:+ b.
Proof.
  revert s. induction a as [|c a IH]; intros s; simpl.
  - by intros [= ->].
  - destruct s as [|c' s]; [done|].
    destruct (Ascii.eqb_spec c c') as [<-|]; [|done].
    intros H. rewrite append_cons. f_equal. by apply IH.
Qed.

Lemma entry_of_Some d p n :
  entry_of d p = Some n →
  p = d +:+ "/" +:+ n ∧ has_slash n = false ∧ n ≠ EmptyString.
Proof.
  unfold entry_of. destruct (strip_prefix (d +:+ "/") p) as [m|] eqn:Hm; [|done].
  destruct (has_slash m) eqn:Hslash; [done|].
  destruct (String.eqb_spec m EmptyString) as [|Hne]; [done|].
  simpl. intros [= <-]. apply strip_prefix_Some in Hm.
  by rewrite append_assoc in Hm.
Qed.

Lemma entry_of_entry d n :
  has_slash n = false → n ≠ EmptyString → entry_of d (d +:+ "/" +:+ n) = Some n.
Proof.
  intros Hslash Hne. unfold entry_of.
  rewrite <- append_assoc, strip_prefix_app, Hslash.
  by destruct (String.eqb_spec n EmptyString).
Qed.

(** The listing of a directory holds exactly the names of the paths
    that exist directly in it. *)
Lemma elem_of_entries (f : filesystem) d n :
  n ∈ entries f d ↔
  has_slash n = false ∧ n ≠ EmptyString ∧ exists_path f (d +:+ "/" +:+ n) = true.
Proof.
  unfold entries, exists_path. rewrite list_elem_of_omap. split.
  - intros (p & Hp & Hn). apply entry_of_Some in Hn as (-> & Hslash & Hne).
    apply elem_of_elements, elem_of_dom in Hp as [x Hx]. by rewrite Hx.
  - intros (Hslash & Hne & Hex). exists (d +:+ "/" +:+ n).
    split; [|by apply entry_of_entry].
    apply elem_of_elements, elem_of_dom.
    destruct (f !! (d +:+ "/" +:+ n)); [by eexists | done].
Qed.

Lemma pretty_N_go_no_slash x s :
  has_slash (pretty.pretty_N_go x s) = has_slash s.
Proof.
  revert s. induction (N.lt_wf_0 x) as [x _ IH]; intros s.
  assert (x = 0 ∨ 0 < x)%N as [->|Hpos] by lia.
  - by rewrite pretty.pretty_N_go_0.
  - rewrite pretty.pretty_N_go_step by done.
    rewrite IH by (by apply N.div_lt). simpl.
    unfold pretty.pretty_N_char. by repeat case_match.
Qed.

Lemma dataset_name_no_slash i : has_slash (dataset_name i) = false.
Proof.
  unfold dataset_name. rewrite has_slash_app.
  change (has_slash "dataset-") with false. simpl.
  unfold pretty, pretty.pretty_nat, pretty, pretty.pretty_N.
  case_decide; [done|]. by rewrite pretty_N_go_no_slash.
Qed.

Lemma dataset_name_inj i j : dataset_name i = dataset_name j → i = j.
Proof.
  unfold dataset_name. intros H. apply append_inj_l in H.
  by apply (inj pretty) in H.
Qed.

Lemma dataset_name_nonempty i : dataset_name i ≠ EmptyString.
Proof. unfold dataset_name. by rewrite append_cons. Qed.

Lemma next_count_Ok p fuel i j :
  next_count p fuel i = Ok j →
  p j = true ∧ i ≤ j ∧ ∀ k, i ≤ k < j → p k = false.
Proof.
  revert i. induction fuel as [|fuel IH]; intros i; simpl; [done|].
  destruct (p i) eqn:Hi.
  - intros [= <-]. split; [done|]. split; [lia|]. intros k ?. lia.
  - intros H. apply IH in H as (Hj & Hle & Hbelow).
    split; [done|]. split; [lia|]. intros k Hk.
    destruct (decide (k = i)) as [->|]; [done|]. apply Hbelow. lia.
Qed.

Lemma next_count_Raise p fuel i e :
  next_count p fuel i = Raise e → ∀ k, i ≤ k < i + fuel → p k = false.
Proof.
  revert i. induction fuel as [|fuel IH]; intros i; simpl.
  - intros _ k ?. lia.
  - destruct (p i) eqn:Hi; [done|]. intros H k Hk.
    destruct (decide (k = i)) as [->|]; [done|]. apply (IH _ H). lia.
Qed.

(** As many names in use as there are indices below [n] need [n]
    entries. *)
Lemma names_in_use_bound (datasets : list string) n :
  (∀ j, j < n → dataset_name j ∈ datasets) → n ≤ length datasets.
Proof.
  intros Hall.
  assert (H : length (map dataset_name (seq 0 n)) ≤ length datasets);
    [|by rewrite length_map, length_seq in H].
  apply submseteq_length, NoDup_submseteq.
  - apply NoDup_fmap_2; [|apply NoDup_seq].
    intros i j. apply dataset_name_inj.
  - intros x Hx. apply list_elem_of_fmap in Hx as (j & -> & Hj).
    apply elem_of_seq in Hj. apply Hall. lia.
Qed.

(** The search for a fresh index always ends: it returns the smallest
    index whose name is not listed, at most the number of entries. *)
Lemma fresh_index_spec datasets :
  ∃ i, fresh_index datasets = Ok i
       ∧ (dataset_name i ∉ datasets)
       ∧ (∀ j, j < i → dataset_name j ∈ datasets)
       ∧ i ≤ length datasets.
Proof.
  unfold fresh_index.
  destruct (next_count _ (S (length datasets)) 0) as [i|e] eqn:Hsearch.
  - apply next_count_Ok in Hsearch as (Hi & _ & Hbelow).
    assert (Hused : ∀ j, j < i → dataset_name j ∈ datasets).
    { intros j Hj. specialize (Hbelow j (conj (Nat.le_0_l j) Hj)).
      apply negb_false_iff, bool_decide_eq_true in Hbelow. exact Hbelow. }
    exists i. split; [done|]. split; [|split; [done|]].
    + apply negb_true_iff, bool_decide_eq_false in Hi. exact Hi.
    + by apply names_in_use_bound.
  - exfalso.
    assert (S (length datasets) ≤ length datasets); [|lia].
    apply names_in_use_bound. intros j Hj.
    pose proof (next_count_Raise _ _ _ _ Hsearch j) as Hfalse. simpl in Hfalse.
    specialize (Hfalse (conj (Nat.le_0_l j) Hj)).
    apply negb_false_iff, bool_decide_eq_true in Hfalse. exact Hfalse.
Qed.

Lemma listdir_Dir d w :
  is_dir (fsys w) d = true → listdir d w = (w, Ok (entries (fsys w) d)).
Proof.
  unfold is_dir, listdir, bind, get_fs, ret.
  by destruct (fsys w !! d) as [[|c]|].
Qed.

Lemma well_formed_child_absent (f : filesystem) d n :
  well_formed f → f !! d = None → d ≠ EmptyString → has_slash n = false →
  f !! (d +:+ "/" +:+ n) = None.
Proof.
  intros Hwf Hd Hne Hn.
  destruct (f !! (d +:+ "/" +:+ n)) as [x|] eqn:Hx; [|done].
  specialize (Hwf (d +:+ "/" +:+ n)). unfold exists_path in Hwf. rewrite Hx in Hwf.
  specialize (Hwf eq_refl). unfold has_parent, is_dir in Hwf.
  rewrite parent_entry, Hd in Hwf by done.
  by destruct (String.eqb_spec d EmptyString).
Qed.

Lemma exists_path_entry_fresh (f : filesystem) d i :
  dataset_name i ∉ entries f d → f !! (d +:+ "/" +:+ dataset_name i) = None.
Proof.
  intros Hfresh.
  destruct (f !! (d +:+ "/" +:+ dataset_name i)) as [x|] eqn:Hx; [|done].
  exfalso. apply Hfresh, elem_of_entries.
  split; [apply dataset_name_no_slash|]. split; [apply dataset_name_nonempty|].
  unfold exists_path. by rewrite Hx.
Qed.

(** ** What a computation may log *)

Lemma logs_silent {A} allowed (m : M A) :
  (∀ w w' r, m w = (w', r) → trace w' = trace w) → logs allowed m.
Proof.
  intros H w w' r Hm. exists []. rewrite app_nil_r. split; [by eapply H | constructor].
Qed.

Lemma logs_ret {A} allowed (a : A) : logs allowed (ret a).
Proof. apply logs_silent. by intros w w' r [= <- _]. Qed.

Lemma logs_raise {A} allowed e : logs allowed (raise (A:=A) e).
Proof. apply logs_silent. by intros w w' r [= <- _]. Qed.

Lemma logs_lift {A} allowed (x : result A) : logs allowed (lift x).
Proof. apply logs_silent. by intros w w' r [= <- _]. Qed.

Lemma logs_get_fs allowed : logs allowed get_fs.
Proof. apply logs_silent. by intros w w' r [= <- _]. Qed.

Lemma logs_put_fs allowed f : logs allowed (put_fs f).
Proof. apply logs_silent. by intros w w' r [= <- _]. Qed.

Lemma logs_log (allowed : event → Prop) e : allowed e → logs allowed (log e).
Proof.
  intros He w w' r [= <- _]. exists [e]. split; [done|]. by constructor.
Qed.

Lemma logs_bind {A B} allowed (m : M A) (k : A → M B) :
  logs allowed m → (∀ a, logs allowed (k a)) → logs allowed (bind m k).
Proof.
  intros Hm Hk w w' r Hrun.
  apply bind_inv in Hrun as [(w1 & a & Hm1 & Hk1)|(e & Hm1 & _)].
  - destruct (Hm _ _ _ Hm1) as (evs1 & Ht1 & Ha1).
    destruct (Hk a _ _ _ Hk1) as (evs2 & Ht2 & Ha2).
    exists (evs1 ++ evs2). rewrite Ht2, Ht1, app_assoc.
    split; [done|]. by apply Forall_app.
  - by eapply Hm.
Qed.

Lemma logs_try_except {A} allowed (m h : M A) catches :
  logs allowed m → logs allowed h → logs allowed (try_except m catches h).
Proof.
  intros Hm Hh w w' r. unfold try_except.
  destruct (m w) as [w1 [a|e]] eqn:Hm1.
  - intros [= <- <-]. by eapply Hm.
  - destruct (catches e).
    + intros Hh1. destruct (Hm _ _ _ Hm1) as (evs1 & Ht1 & Ha1).
      destruct (Hh _ _ _ Hh1) as (evs2 & Ht2 & Ha2).
      exists (evs1 ++ evs2). rewrite Ht2, Ht1, app_assoc.
      split; [done|]. by apply Forall_app.
    + intros [= <- <-]. by eapply Hm.
Qed.

Lemma logs_weaken {A} (allowed allowed' : event → Prop) (m : M A) :
  (∀ e, allowed e → allowed' e) → logs allowed m → logs allowed' m.
Proof.
  intros Himp Hm w w' r Hrun. destruct (Hm _ _ _ Hrun) as (evs & Ht & Ha).
  exists evs. split; [done|]. eapply Forall_impl; [exact Ha | done].
Qed.

Lemma logs_Pool_map {A B} allowed (f : A → M B) args :
  (∀ x, x ∈ args → logs allowed (f x)) → logs allowed (Pool_map f args).
Proof.
  intros Hf w w' r Hrun.
  set (I := λ v : world, ∃ evs, trace v = trace w ++ evs ∧ Forall allowed evs).
  assert (HI0 : I w) by (exists []; by rewrite app_nil_r).
  assert (Hs : ∀ v s, I v → I (World (fsys v) (trace v) s))
    by (intros v s H; exact H).
  assert (Hc : ∀ x v v' r', x ∈ args → I v → f x v = (v', r') →
            I v' ∧ (∀ y : B, r' = Ok y → True) ∧ (∀ (x' : A) (y' : B), True → True)).
  { intros x v v' r' Hx (evs1 & Ht1 & Ha1) Hcall.
    destruct (Hf x Hx _ _ _ Hcall) as (evs2 & Ht2 & Ha2).
    split; [|done]. exists (evs1 ++ evs2). rewrite Ht2, Ht1, app_assoc.
    split; [done|]. by apply Forall_app. }
  destruct (Pool_map_rule f args I (λ _ _ _, True) Hs Hc w w' r HI0 Hrun)
    as (HI & _).
  exact HI.
Qed.

Lemma logs_process_map {A B} allowed (f : callable A B) (args : list A)
    (packed : bool) :
  (∀ x, x ∈ args → logs allowed ((if packed then call_star f else call f) x)) →
  logs allowed (process_map f args packed).
Proof.
  intros Hf. unfold process_map.
  destruct (pickle_error f) as [e|]; [destruct args as [|x args]; [|apply logs_raise]|];
    destruct packed; by apply logs_Pool_map.
Qed.

(** Goals [logs allowed m] for straight-line code: follow the binds,
    split on the branches. *)
Ltac logs_step :=
  first
    [ apply logs_ret | apply logs_raise | apply logs_lift
    | apply logs_get_fs | apply logs_put_fs
    | apply logs_bind; [|intros ?]
    | apply logs_try_except
    | match goal with
      | |- logs _ (match ?x with _ => _ end) => destruct x
      end ].

Lemma logs_listdir allowed d : logs allowed (listdir d).
Proof. unfold listdir. repeat logs_step. Qed.

Lemma logs_mkdir (allowed : event → Prop) p :
  allowed (EMkdir p) → logs allowed (mkdir p).
Proof. intros Ha. unfold mkdir. repeat logs_step. by apply logs_log. Qed.

Lemma logs_read_file allowed p : logs allowed (read_file p).
Proof. unfold read_file. repeat logs_step. Qed.

Lemma logs_write_file allowed p c : logs allowed (write_file p c).
Proof. unfold write_file. repeat logs_step. Qed.

Lemma logs_copyfile (allowed : event → Prop) src dst :
  allowed (ECopy src dst) → logs allowed (copyfile src dst).
Proof.
  intros Ha. unfold copyfile. repeat logs_step;
    first [apply logs_read_file | apply logs_write_file | by apply logs_log].
Qed.

Lemma logs_read_csv allowed p k : logs allowed (read_csv p k).
Proof. unfold read_csv. repeat logs_step; apply logs_read_file. Qed.

Lemma logs_to_csv allowed df p k : logs allowed (to_csv df p k).
Proof. apply logs_write_file. Qed.

Lemma logs_load_json allowed p : logs allowed (load_json p).
Proof. unfold load_json. repeat logs_step; apply logs_read_file. Qed.

Lemma logs_dump_json allowed p d : logs allowed (dump_json p d).
Proof. apply logs_write_file. Qed.

Lemma bind_assoc {A B C} (m : M A) (k : A → M B) (k' : B → M C) w :
  bind (bind m k) k' w = bind m (λ a, bind (k a) k') w.
Proof. unfold bind. destruct (m w) as [w1 [a|e]]; done. Qed.

Lemma mkdir_inv p w w' r :
  mkdir p w = (w', r) →
  (r = Ok tt ∧ fsys w !! p = None
   ∧ w' = World (<[p := Dir]> (fsys w)) (trace w ++ [EMkdir p]) (sched w))
  ∨ (is_Raise r ∧ w' = w).
Proof.
  unfold mkdir, exists_path, bind, get_fs, put_fs, log, raise.
  destruct (fsys w !! p) eqn:Hp; simpl.
  - intros [= <- <-]. right. split; [by eexists | done].
  - destruct (has_parent (fsys w) p).
    + intros [= <- <-]. by left.
    + destruct (fsys w !! parent p) as [[|c1]|]; intros [= <- <-];
        right; (split; [by eexists | done]).
Qed.

Lemma write_file_inv p c w w' r :
  write_file p c w = (w', r) →
  (r = Ok tt ∧ w' = World (<[p := File c]> (fsys w)) (trace w) (sched w))
  ∨ (is_Raise r ∧ w' = w).
Proof.
  unfold write_file, bind, get_fs, put_fs, raise.
  destruct (fsys w !! p) as [[|c0]|]; simpl.
  - intros [= <- <-]. right. split; [by eexists | done].
  - intros [= <- <-]. by left.
  - destruct (has_parent (fsys w) p).
    + intros [= <- <-]. by left.
    + destruct (fsys w !! parent p) as [[|c1]|]; intros [= <- <-];
        right; (split; [by eexists | done]).
Qed.

Lemma read_file_inv p w w' r :
  read_file p w = (w', r) →
  w' = w ∧ ∀ c, r = Ok c ↔ fsys w !! p = Some (File c).
Proof.
  unfold read_file, bind, get_fs, ret, raise.
  destruct (fsys w !! p) as [[|c0]|]; intros [= <- <-];
    (split; [done|]); intros c; split; congruence.
Qed.

Lemma new_events_app w w' evs :
  trace w' = trace w ++ evs → new_events w w' = evs.
Proof. intros H. unfold new_events. by rewrite H, drop_app_length. Qed.

Lemma logs_convert CONVERSIONS (allowed : event → Prop) file c img :
  (∀ out, allowed (EConvert file c img out)) →
  logs allowed (Dataset.convert CONVERSIONS file c img).
Proof.
  intros Ha. unfold Dataset.convert. apply logs_bind; [apply logs_lift|].
  intros conv w w' r. destruct (conv img (fsys w)) as [f' out] eqn:Hconv.
  intros [= <- <-]. simpl. exists [EConvert file c img out].
  split; [done|]. by constructor.
Qed.

Lemma logs_convert_all CONVERSIONS (allowed : event → Prop) file cs img :
  (∀ c p out, c ∈ cs → allowed (EConvert file c p out)) →
  logs allowed (Dataset.convert_all CONVERSIONS file cs img).
Proof.
  revert img. induction cs as [|c cs IH]; intros img Ha; simpl.
  - apply logs_ret.
  - apply logs_bind.
    + apply logs_convert. intros out. apply Ha. by left.
    + intros img'. apply IH. intros c' p out Hin. apply Ha. by right.
Qed.

Lemma logs_copy_and_apply CONVERSIONS (allowed : event → Prop) dataset file cs :
  (∀ src dst, file = CStr src → allowed (ECopy src dst)) →
  (∀ src c p out, file = CStr src → c ∈ cs → allowed (EConvert src c p out)) →
  logs allowed (Dataset._copy_and_apply CONVERSIONS dataset file cs).
Proof.
  intros Hcopy Hconv. unfold Dataset._copy_and_apply.
  destruct file as [src| |]; try apply logs_raise.
  apply logs_bind.
  - apply logs_copyfile. by apply Hcopy.
  - intros _. apply logs_convert_all. intros c p out Hc. by apply Hconv.
Qed.

Lemma logs_add_images CONVERSIONS DEFAULT_CLASS dataset filenames conversions from_store :
  logs (λ _, True)
    (Dataset.add_images CONVERSIONS DEFAULT_CLASS dataset filenames conversions from_store).
Proof.
  unfold Dataset.add_images.
  apply logs_bind.
  { destruct from_store; [|apply logs_ret].
    apply logs_bind; [apply logs_read_csv | intros ?; apply logs_lift]. }
  intros cl. apply logs_bind; [apply logs_lift|]. intros args.
  apply logs_bind.
  { apply logs_process_map. intros x _. simpl.
    apply logs_copy_and_apply; done. }
  intros new_images. apply logs_bind; [apply logs_lift|]. intros new_data.
  apply logs_bind; [apply logs_to_csv | intros ?; apply logs_ret].
Qed.

(** ** C6: the index of a new dataset *)

(** With [data/datasets] listed, the search finds the smallest free
    index and the first [mkdir] makes its directory. *)
Lemma first_mkdir_runs {B} (k : string → M B) w :
  is_dir (fsys w) "data/datasets" = true →
  ∃ i, fresh_index (entries (fsys w) "data/datasets") = Ok i
    ∧ (let! datasets := listdir "data/datasets" in
       let! i := lift (fresh_index datasets) in
       mkdir ("data/datasets/" +:+ dataset_name i);;
       k ("data/datasets/" +:+ dataset_name i)) w
      = k (dataset_path i)
          (World (<[dataset_path i := Dir]> (fsys w))
                 (trace w ++ [EMkdir (dataset_path i)]) (sched w)).
Proof.
  intros Hdir.
  destruct (fresh_index_spec (entries (fsys w) "data/datasets"))
    as (i & Hi & Hfree & _ & _).
  exists i. split; [done|].
  rewrite (bind_Ok _ _ w w (entries (fsys w) "data/datasets"))
    by (by apply listdir_Dir).
  rewrite bind_lift, Hi.
  assert (Hnew : fsys w !! dataset_path i = None).
  { apply (exists_path_entry_fresh _ "data/datasets" i Hfree). }
  assert (Hpar : has_parent (fsys w) (dataset_path i) = true).
  { unfold has_parent.
    change (dataset_path i) with ("data/datasets" +:+ "/" +:+ dataset_name i).
    rewrite parent_entry by apply dataset_name_no_slash.
    rewrite Hdir. apply orb_true_r. }
  by rewrite (bind_Ok _ _ _ _ _ (mkdir_new _ _ Hnew Hpar)).
Qed.

Lemma logged_then_grown {B} (m : M B) w i :
  logs (λ _, True) m →
  let w1 := World (<[dataset_path i := Dir]> (fsys w))
                  (trace w ++ [EMkdir (dataset_path i)]) (sched w) in
  EMkdir (dataset_path i) ∈ new_events w (m w1).1.
Proof.
  intros Hm w1. destruct (m w1) as [w' r] eqn:Hrun.
  destruct (Hm _ _ _ Hrun) as (evs & Htrace & _). simpl in Htrace.
  simpl. rewrite (new_events_app w w' (EMkdir (dataset_path i) :: evs)).
  - by left.
  - by rewrite Htrace, <- app_assoc.
Qed.

Lemma add_images_returns CONVERSIONS DEFAULT_CLASS dataset filenames conversions
    from_store w w' p :
  Dataset.add_images CONVERSIONS DEFAULT_CLASS dataset filenames conversions
    from_store w = (w', Ok p) →
  p = dataset.
Proof.
  unfold Dataset.add_images. intros H.
  repeat (apply bind_inv in H as [(? & ? & _ & H)|(? & _ & ?)]; [|done]).
  by injection H as _ <-.
Qed.

(** The tail of the block that creates the dataset, and the tail of
    the constructor of [storage.py], after the first [mkdir]. *)
Lemma new_dataset_unfold CONVERSIONS DEFAULT_CLASS filenames conversions from_store w :
  Dataset.new_dataset CONVERSIONS DEFAULT_CLASS filenames conversions from_store w
  = (let! datasets := listdir "data/datasets" in
     let! i := lift (fresh_index datasets) in
     mkdir ("data/datasets/" +:+ dataset_name i);;
     (λ dataset,
        mkdir (dataset +:+ "/images");;
        dump_json (dataset +:+ "/process.json")
          {[ "Conversions" := JList conversions;
             "Transforms" := JList [];
             "Bundled" := JNull ]};;
        Dataset.add_images CONVERSIONS DEFAULT_CLASS dataset filenames
          conversions from_store)
       ("data/datasets/" +:+ dataset_name i)) w.
Proof.
  unfold Dataset.new_dataset, Dataset.create_new_dataset, bind.
  destruct (listdir "data/datasets" w) as [w1 [ds|e]]; [|done].
  destruct (lift (fresh_index ds) w1) as [w2 [i|e]]; [|done].
  destruct (mkdir _ w2) as [w3 [[]|e]]; [|done].
  destruct (mkdir _ w3) as [w4 [[]|e]]; [|done].
  destruct (dump_json _ _ w4) as [w5 [[]|e]]; done.
Qed.

(** C6, as the code has it.  With the store's [data/datasets] listed,
    either constructor makes the directory [dataset-i] for the smallest
    index [i] whose name is not in use: nothing exists at its path,
    every smaller index is in use, and so [i] is at most the number of
    entries of [data/datasets].  A path that is returned is that
    directory's. *)
Theorem new_dataset_takes_smallest_free_index
    CONVERSIONS DEFAULT_CLASS filenames conversions from_store w :
  is_dir (fsys w) "data/datasets" = true →
  ∃ i,
    exists_path (fsys w) (dataset_path i) = false
    ∧ (∀ j, j < i → exists_path (fsys w) (dataset_path j) = true)
    ∧ i ≤ length (entries (fsys w) "data/datasets")
    ∧ (let out := Dataset.new_dataset CONVERSIONS DEFAULT_CLASS filenames
                    conversions from_store w in
       EMkdir (dataset_path i) ∈ new_events w out.1
       ∧ ∀ p, out.2 = Ok p → p = dataset_path i)
    ∧ (let out := Storage.new_dataset w in
       EMkdir (dataset_path i) ∈ new_events w out.1
       ∧ ∀ p, out.2 = Ok p → p = dataset_path i).
Proof.
  intros Hdir.
  destruct (fresh_index_spec (entries (fsys w) "data/datasets"))
    as (i & Hi & Hfree & Hused & Hle).
  exists i. split; [|split; [|split; [done|split]]].
  - unfold exists_path.
    change (dataset_path i) with ("data/datasets" +:+ "/" +:+ dataset_name i).
    by rewrite (exists_path_entry_fresh _ "data/datasets" i Hfree).
  - intros j Hj. by apply (elem_of_entries (fsys w) "data/datasets"), Hused.
  - intros out. unfold out. rewrite new_dataset_unfold.
    destruct (first_mkdir_runs (λ dataset,
        mkdir (dataset +:+ "/images");;
        dump_json (dataset +:+ "/process.json")
          {[ "Conversions" := JList conversions;
             "Transforms" := JList [];
             "Bundled" := JNull ]};;
        Dataset.add_images CONVERSIONS DEFAULT_CLASS dataset filenames
          conversions from_store) w Hdir) as (i' & Hi' & Heq).
    rewrite Heq. clear Heq.
    assert (i' = i) as -> by congruence.
    split.
    + apply logged_then_grown.
      apply logs_bind; [by apply logs_mkdir|]. intros _.
      apply logs_bind; [apply logs_dump_json|]. intros _.
      apply logs_add_images.
    + intros p Hp.
      match goal with
      | H : (?m ?v).2 = Ok p |- _ => destruct (m v) as [w' r] eqn:Hrun
      end.
      simpl in Hp. subst r.
      apply bind_inv in Hrun as [(? & ? & _ & Hrun)|(? & _ & ?)]; [|done].
      apply bind_inv in Hrun as [(? & ? & _ & Hrun)|(? & _ & ?)]; [|done].
      by apply add_images_returns in Hrun.
  - intros out. unfold out, Storage.new_dataset.
    destruct (first_mkdir_runs (λ path,
          mkdir (path +:+ "/images");;
          to_csv (new_frame ["File"; "Class"] []) (path +:+ "/log.csv") None;;
          dump_json (path +:+ "/process.json")
            {[ "Conversions" := JList []; "Transforms" := JList [] ]};;
          ret path) w Hdir) as (i' & Hi' & Heq).
    rewrite Heq. clear Heq.
    assert (i' = i) as -> by congruence.
    split.
    + apply logged_then_grown.
      apply logs_bind; [by apply logs_mkdir|]. intros _.
      apply logs_bind; [apply logs_to_csv|]. intros _.
      apply logs_bind; [apply logs_dump_json|]. intros _.
      apply logs_ret.
    + intros p Hp.
      match goal with
      | H : (?m ?v).2 = Ok p |- _ => destruct (m v) as [w' r] eqn:Hrun
      end.
      simpl in Hp. subst r.
      repeat (apply bind_inv in Hrun as [(? & ? & _ & Hrun)|(? & _ & ?)]; [|done]).
      by injection Hrun as _ <-.
Qed.

Lemma dataset_path_inj i j : dataset_path i = dataset_path j → i = j.
Proof.
  unfold dataset_path. intros H. apply append_inj_l in H.
  by apply dataset_name_inj.
Qed.

(** C6, as the spec words it, fails: with datasets 0 and 2 in the store
    (two entries), the new dataset gets index 1, which is below the
    count of existing dataset directories. *)
Lemma new_dataset_index_below_count :
  ¬ ∃ i,
      (Dataset.new_dataset [] (CStr "none") [] [] false gapped_store).2
      = Ok (dataset_path i)
      ∧ length (entries (fsys gapped_store) "data/datasets") ≤ i.
Proof.
  intros (i & Hres & Hcount).
  assert (Hrun : (Dataset.new_dataset [] (CStr "none") [] [] false gapped_store).2
                 = Ok (dataset_path 1)) by (vm_compute; reflexivity).
  assert (Hlen : length (entries (fsys gapped_store) "data/datasets") = 2)
    by (vm_compute; reflexivity).
  assert (Hsame : dataset_path 1 = dataset_path i) by congruence.
  apply dataset_path_inj in Hsame. lia.
Qed.

Lemma new_dataset_takes_smallest_free_index_witness :
  is_dir (fsys gapped_store) "data/datasets" = true
  ∧ ∃ i, exists_path (fsys gapped_store) (dataset_path i) = false
         ∧ i ≤ length (entries (fsys gapped_store) "data/datasets").
Proof.
  split; [reflexivity|].
  destruct (new_dataset_takes_smallest_free_index [] (CStr "none") [] [] false
              gapped_store eq_refl) as (i & Hfree & _ & Hle & _).
  exists i. split; [exact Hfree | exact Hle].
Defined.

(** ** C7: the metadata of a fresh dataset *)

(** C7 fails for the constructor of [storage.py].  The dataset it makes
    in a fresh store has the metadata record
    [{"Conversions": [], "Transforms": []}], without a [Bundled] field,
    where the constructor of [dataset.py] writes [Bundled: null]. *)
Lemma storage_new_dataset_has_no_bundled_field :
  (Storage.new_dataset empty_store).2 = Ok (dataset_path 0)
  ∧ (∃ d, (Dataset.get_process (dataset_path 0)
             (Storage.new_dataset empty_store).1).2 = Ok d
          ∧ d !! "Transforms" = Some (JList [])
          ∧ d !! "Bundled" = None)
  ∧ (Dataset.new_dataset [] (CStr "none") [] [] false empty_store).2
    = Ok (dataset_path 0)
  ∧ (∃ d, (Dataset.get_process (dataset_path 0)
             (Dataset.new_dataset [] (CStr "none") [] [] false empty_store).1).2
          = Ok d
          ∧ d !! "Transforms" = Some (JList [])
          ∧ d !! "Bundled" = Some JNull).
Proof.
  split; [vm_compute; reflexivity|]. split.
  - exists {[ "Conversions" := JList []; "Transforms" := JList [] ]}.
    repeat split; vm_compute; reflexivity.
  - split; [vm_compute; reflexivity|].
    exists {[ "Conversions" := JList []; "Transforms" := JList [];
              "Bundled" := JNull ]}.
    repeat split; vm_compute; reflexivity.
Qed.

(** ** C3: the transform list in the metadata *)

(** After a successful [_make_imageset] of [dataset.py] the metadata
    reads back with the transform list just applied. *)
Lemma make_imageset_records_transforms TRANSFORMS dataset transforms w w' :
  Dataset._make_imageset TRANSFORMS dataset transforms w = (w', Ok true) →
  ∃ d images,
    Dataset.get_process dataset w' = (w', Ok d)
    ∧ d !! "Transforms" = Some (JList transforms)
    ∧ fsys w' !! (dataset +:+ "/X.npy") = Some (File (NpyImages images)).
Proof.
  unfold Dataset._make_imageset. intros H.
  apply bind_inv in H as [(w1 & loaded & _ & H)|(? & _ & ?)]; [|done].
  destruct loaded as [images|]; [|by injection H].
  apply bind_inv in H as [(w2 & images' & _ & H)|(? & _ & ?)]; [|done].
  apply bind_inv in H as [(w3 & data & _ & H)|(? & _ & ?)]; [|done].
  apply bind_inv in H as [(w4 & [] & Hdump & H)|(? & _ & ?)]; [|done].
  rewrite bind_lift in H. destruct (np_array images') as [stacked|e]; [|done].
  apply bind_inv in H as [(w5 & [] & Hsave & H)|(? & _ & ?)]; [|done].
  injection H as <-.
  apply write_file_inv in Hdump as [(_ & ->)|([e He] & _)]; [|done].
  apply write_file_inv in Hsave as [(_ & ->)|([e He] & _)]; [|done].
  assert (Hne : dataset +:+ "/X.npy" ≠ dataset +:+ "/process.json").
  { intros Heq. by apply append_inj_l in Heq. }
  exists (<["Transforms" := JList transforms]> data), stacked.
  split; [|split].
  - unfold Dataset.get_process, load_json.
    erewrite (bind_Ok _ _ _ _ (JsonFile [<["Transforms" := JList transforms]> data]));
      [reflexivity|].
    apply read_file_File. simpl.
    rewrite lookup_insert_ne by done. by rewrite lookup_insert_eq.
  - by rewrite lookup_insert_eq.
  - simpl. by rewrite lookup_insert_eq.
Qed.

(** After a successful [make_imageset] of [construction.py] the
    metadata file holds two documents, the old record and the new one,
    and no longer reads back. *)
Lemma make_imageset_breaks_metadata TRANSFORMS dataset transforms w w' :
  Construction.make_imageset TRANSFORMS dataset transforms w = (w', Ok true) →
  Dataset.get_process dataset w' = (w', Raise JSONDecodeError).
Proof.
  unfold Construction.make_imageset. intros H.
  apply bind_inv in H as [(w1 & loaded & _ & H)|(? & _ & ?)]; [|done].
  destruct loaded as [images|]; [|by injection H].
  apply bind_inv in H as [(w2 & images' & _ & H)|(? & _ & ?)]; [|done].
  apply bind_inv in H as [(w3 & [] & Hupd & H)|(? & _ & ?)]; [|done].
  rewrite bind_lift in H. destruct (np_array images') as [stacked|e]; [|done].
  apply bind_inv in H as [(w4 & [] & Hsave & H)|(? & _ & ?)]; [|done].
  injection H as <-.
  unfold Construction.update_in_place in Hupd.
  apply bind_inv in Hupd as [(v1 & c & Hread & Hupd)|(? & _ & ?)]; [|done].
  apply read_file_inv in Hread as [-> _].
  rewrite bind_lift in Hupd.
  destruct c as [|docs| | | |]; try done.
  destruct docs as [|d [|d' docs]]; try done. simpl in Hupd.
  apply write_file_inv in Hupd as [(_ & ->)|([e He] & _)]; [|done].
  apply write_file_inv in Hsave as [(_ & ->)|([e He] & _)]; [|done].
  assert (Hne : dataset +:+ "/X.npy" ≠ dataset +:+ "/process.json").
  { intros Heq. by apply append_inj_l in Heq. }
  unfold Dataset.get_process, load_json.
  erewrite (bind_Ok _ _ _ _ (JsonFile ([d] ++ [<["Transforms" := JList transforms]> d])));
    [reflexivity|].
  apply read_file_File. simpl.
  rewrite lookup_insert_ne by done. by rewrite lookup_insert_eq.
Qed.

(** C3 fails for the entry point of [construction.py].  On a dataset
    fresh from [storage.py], [make_imageset] returns true and then
    [get_process] raises, and a second run raises too; the entry point
    of [dataset.py], on the same dataset, leaves the transform list in
    the metadata. *)
Lemma construction_make_imageset_metadata_unreadable :
  (Construction.make_imageset sample_transforms (dataset_path 0) ["same"]
     (Storage.new_dataset empty_store).1).2 = Ok true
  ∧ (Dataset.get_process (dataset_path 0)
       (Construction.make_imageset sample_transforms (dataset_path 0) ["same"]
          (Storage.new_dataset empty_store).1).1).2 = Raise JSONDecodeError
  ∧ (Construction.make_imageset sample_transforms (dataset_path 0) []
       (Construction.make_imageset sample_transforms (dataset_path 0) ["same"]
          (Storage.new_dataset empty_store).1).1).2 = Raise JSONDecodeError
  ∧ (Dataset._make_imageset sample_transforms (dataset_path 0) ["same"]
       (Storage.new_dataset empty_store).1).2 = Ok true
  ∧ ∃ d, (Dataset.get_process (dataset_path 0)
            (Dataset._make_imageset sample_transforms (dataset_path 0) ["same"]
               (Storage.new_dataset empty_store).1).1).2 = Ok d
         ∧ d !! "Transforms" = Some (JList ["same"]).
Proof.
  split; [vm_compute; reflexivity|].
  split; [vm_compute; reflexivity|].
  split; [vm_compute; reflexivity|].
  split; [vm_compute; reflexivity|].
  exists {[ "Conversions" := JList []; "Transforms" := JList ["same"] ]}.
  split; vm_compute; reflexivity.
Qed.

(** ** C8: initializing the store *)

Lemma well_formedb_spec (f : filesystem) : well_formedb f = true → well_formed f.
Proof.
  unfold well_formedb, well_formed, exists_path. intros H p Hp.
  rewrite forallb_forall in H. apply H.
  apply list_elem_of_In, elem_of_elements, elem_of_dom.
  destruct (f !! p); [by eexists | done].
Qed.

(** C8, as the spec words it, fails: when the root directory exists
    without its subdirectories, [init_data_store] returns without an
    error and creates neither of them. *)
Lemma init_data_store_leaves_subdirectories_missing :
  (Storage.init_data_store half_made_store).2 = Ok tt
  ∧ is_dir (fsys (Storage.init_data_store half_made_store).1) "data/images" = false
  ∧ is_dir (fsys (Storage.init_data_store half_made_store).1) "data/datasets" = false.
Proof. repeat split; vm_compute; reflexivity. Qed.

(** C8, as the code has it.  On a well-formed file system
    [init_data_store] raises no error.  When nothing exists at the root
    path, the root directory and its [images] and [datasets]
    subdirectories exist afterwards; when something does, nothing is
    changed. *)
Theorem init_data_store_creates_absent_store w :
  well_formed (fsys w) →
  (Storage.init_data_store w).2 = Ok tt
  ∧ (exists_path (fsys w) "data" = false →
     is_dir (fsys (Storage.init_data_store w).1) "data" = true
     ∧ is_dir (fsys (Storage.init_data_store w).1) "data/images" = true
     ∧ is_dir (fsys (Storage.init_data_store w).1) "data/datasets" = true)
  ∧ (exists_path (fsys w) "data" = true → (Storage.init_data_store w).1 = w).
Proof.
  intros Hwf. unfold Storage.init_data_store, try_except.
  destruct (exists_path (fsys w) "data") eqn:Hroot.
  - rewrite (bind_Raise _ _ w w FileExistsError) by (by apply mkdir_exists).
    simpl. done.
  - assert (Hnone : fsys w !! "data" = None).
    { unfold exists_path in Hroot. by destruct (fsys w !! "data"). }
    assert (Himg : fsys w !! "data/images" = None).
    { by apply (well_formed_child_absent (fsys w) "data" "images"). }
    assert (Hds : fsys w !! "data/datasets" = None).
    { by apply (well_formed_child_absent (fsys w) "data" "datasets"). }
    rewrite (bind_Ok _ _ _ _ _ (mkdir_new "data" w Hnone eq_refl)).
    erewrite bind_Ok.
    2:{ apply mkdir_new; simpl.
        - by rewrite lookup_insert_ne.
        - unfold has_parent, is_dir. simpl. by rewrite lookup_insert_eq. }
    erewrite mkdir_new; simpl.
    + split; [done|]. split; [|done]. intros _. unfold is_dir.
      rewrite lookup_insert_ne, lookup_insert_ne, lookup_insert_eq by done.
      rewrite lookup_insert_ne, lookup_insert_eq by done.
      by rewrite lookup_insert_eq.
    + by rewrite !lookup_insert_ne.
    + unfold has_parent, is_dir. simpl.
      by rewrite lookup_insert_ne, lookup_insert_eq.
Qed.

Lemma init_data_store_creates_absent_store_witness :
  well_formed (fsys (World ∅ [] []))
  ∧ is_dir (fsys (Storage.init_data_store (World ∅ [] [])).1) "data/datasets" = true.
Proof.
  assert (Hwf : well_formed (fsys (World ∅ [] [])))
    by (apply well_formedb_spec; vm_compute; reflexivity).
  split; [exact Hwf|].
  destruct (init_data_store_creates_absent_store (World ∅ [] []) Hwf)
    as (_ & Hmade & _).
  apply Hmade. vm_compute. reflexivity.
Defined.

(** ** C9: a store ledger without an [Index] column *)

Lemma position_None k names : k ∉ names → position k names = None.
Proof.
  induction names as [|n names IH]; intros Hk; simpl; [done|].
  destruct (String.eqb_spec n k) as [->|Hne].
  - exfalso. apply Hk. by left.
  - rewrite IH; [done|]. intros Hin. apply Hk. by right.
Qed.

Lemma read_header_fresh_ledger keys :
  "Index" ∉ keys →
  "Index" ∉ read_header (EmptyString :: "File" :: "Class" :: keys).
Proof.
  intros Hkeys Hin. unfold read_header in Hin.
  apply elem_of_lookup_imap_1 in Hin as (i & y & Heq & Hy).
  destruct (String.eqb y EmptyString).
  - by rewrite !append_cons in Heq.
  - subst y. apply list_elem_of_lookup_2 in Hy.
    repeat (apply elem_of_cons in Hy as [Hy|Hy]; [done|]). done.
Qed.

Lemma listdir_inv d w w' r : listdir d w = (w', r) → w' = w.
Proof.
  unfold listdir, bind, get_fs, ret, raise.
  destruct (fsys w !! d) as [[|c]|]; by intros [= <- _].
Qed.

Lemma under_datasets_ne s : "data/datasets/" +:+ s ≠ "data/log.csv".
Proof. rewrite !append_cons. discriminate. Qed.

(** Creating the dataset directory leaves the store ledger alone. *)
Lemma create_new_dataset_keeps_store_ledger conversions w w2 r :
  Dataset.create_new_dataset conversions w = (w2, r) →
  fsys w2 !! "data/log.csv" = fsys w !! "data/log.csv".
Proof.
  unfold Dataset.create_new_dataset. intros H.
  apply bind_inv in H as [(v1 & ds & Hls & H)|(? & Hls & ?)];
    apply listdir_inv in Hls as ->; [|done].
  rewrite bind_lift in H. destruct (fresh_index ds) as [i|e]; [|by injection H as <-].
  apply bind_inv in H as [(v2 & [] & Hmk & H)|(? & Hmk & ?)].
  2:{ apply mkdir_inv in Hmk as [(? & _)|(_ & ->)]; done. }
  apply mkdir_inv in Hmk as [(_ & _ & ->)|([e He] & _)]; [|done].
  assert (H1 : <["data/datasets/" +:+ dataset_name i := Dir]> (fsys w)
                 !! "data/log.csv" = fsys w !! "data/log.csv").
  { rewrite lookup_insert_ne; [done|]. apply under_datasets_ne. }
  apply bind_inv in H as [(v3 & [] & Hmk & H)|(? & Hmk & ?)].
  2:{ apply mkdir_inv in Hmk as [(? & _)|(_ & ->)]; done. }
  apply mkdir_inv in Hmk as [(_ & _ & ->)|([e He] & _)]; [|done].
  assert (H2 : <[("data/datasets/" +:+ dataset_name i) +:+ "/images" := Dir]>
                 (<["data/datasets/" +:+ dataset_name i := Dir]> (fsys w))
                 !! "data/log.csv" = fsys w !! "data/log.csv").
  { rewrite lookup_insert_ne; [done|].
    rewrite append_assoc. apply under_datasets_ne. }
  apply bind_inv in H as [(v4 & [] & Hw & H)|(? & Hw & ?)].
  2:{ apply write_file_inv in Hw as [(? & _)|(_ & ->)]; done. }
  apply write_file_inv in Hw as [(_ & ->)|([e He] & _)]; [|done].
  injection H as <- _. simpl.
  rewrite lookup_insert_ne; [done|].
  rewrite append_assoc. apply under_datasets_ne.
Qed.

(** C9.  When no conversion is keyed [Index], the store ledger that
    [init_label_store] writes has an unnamed index column, and on any
    world whose store ledger is that file [new_dataset] with
    [from_store] set never returns a dataset path, whatever the
    filenames: it raises, and where the dataset directory can be set up
    the exception is the [TypeError] with which [read_csv] fails on a
    table of the header alone that lacks the index label. *)
Theorem new_dataset_from_store_rejects_fresh_ledger
    CONVERSIONS DEFAULT_CLASS filenames conversions w0 w1 w :
  "Index" ∉ map fst CONVERSIONS →
  Storage.init_label_store CONVERSIONS w0 = (w1, Ok tt) →
  fsys w !! "data/log.csv" = fsys w1 !! "data/log.csv" →
  is_Raise (Dataset.new_dataset CONVERSIONS DEFAULT_CLASS filenames conversions
              true w).2
  ∧ (∀ dataset w2,
       Dataset.create_new_dataset conversions w = (w2, Ok dataset) →
       (Dataset.new_dataset CONVERSIONS DEFAULT_CLASS filenames conversions
          true w).2 = Raise TypeError).
Proof.
  intros Hkeys Hinit Hsame.
  unfold Storage.init_label_store, to_csv in Hinit.
  apply write_file_inv in Hinit as [(_ & ->)|([e He] & _)]; [|done].
  simpl in Hsame. rewrite lookup_insert_eq in Hsame.
  assert (Hstep : ∀ dataset w2,
            Dataset.create_new_dataset conversions w = (w2, Ok dataset) →
            (Dataset.new_dataset CONVERSIONS DEFAULT_CLASS filenames conversions
               true w).2 = Raise TypeError).
  { intros dataset w2 Hcreate.
    unfold Dataset.new_dataset.
    rewrite (bind_Ok _ _ _ _ _ Hcreate).
    pose proof (create_new_dataset_keeps_store_ledger _ _ _ _ Hcreate) as Hledger.
    rewrite Hsame in Hledger.
    assert (Hframe : frame_of_csv
              (csv_of_frame (new_frame ("File" :: "Class" :: map fst CONVERSIONS) [])
                            None) (Some "Index")
              = Raise TypeError).
    { unfold frame_of_csv, csv_of_frame, new_frame. simpl header.
      rewrite position_None; [done|]. by apply read_header_fresh_ledger. }
    unfold Dataset.add_images, read_csv, bind, lift.
    rewrite (read_file_File _ _ _ Hledger). by rewrite Hframe. }
  split; [|exact Hstep].
  unfold Dataset.new_dataset at 1. unfold bind at 1.
  destruct (Dataset.create_new_dataset conversions w) as [w2 [dataset|e]] eqn:Hcreate.
  - specialize (Hstep dataset w2 eq_refl). unfold Dataset.new_dataset in Hstep.
    rewrite (bind_Ok _ _ _ _ _ Hcreate) in Hstep. rewrite Hstep. by eexists.
  - by eexists.
Qed.

(** ** The body of [_copy_and_apply] *)

Lemma read_csv_store_ledger w :
  read_csv "data/log.csv" (Some "Index") w = (w, store_ledger w).
Proof.
  unfold read_csv, store_ledger, read_file, bind, get_fs, ret, raise, lift.
  destruct (fsys w !! "data/log.csv") as [[|[]]|]; done.
Qed.

Lemma convert_inv CONVERSIONS file c img w w' q :
  Dataset.convert CONVERSIONS file c img w = (w', Ok q) →
  trace w' = trace w ++ [EConvert file c img (Ok q)].
Proof.
  unfold Dataset.convert. rewrite bind_lift.
  destruct (registry_get CONVERSIONS c) as [conv|e]; [|done].
  destruct (conv img (fsys w)) as [f' out]. by intros [= <- ->].
Qed.

Lemma convert_all_chain CONVERSIONS file cs img w w' out :
  Dataset.convert_all CONVERSIONS file cs img w = (w', Ok out) →
  ∃ evs, trace w' = trace w ++ evs ∧ chain file img cs evs out.
Proof.
  revert img w. induction cs as [|c cs IH]; intros img w; simpl.
  - intros [= <- <-]. exists []. by rewrite app_nil_r.
  - intros H. apply bind_inv in H as [(w1 & q & Hc & H)|(? & _ & ?)]; [|done].
    apply convert_inv in Hc. apply IH in H as (evs & Ht & Hchain).
    exists (EConvert file c img (Ok q) :: evs). split.
    + by rewrite Ht, Hc, <- app_assoc.
    + done.
Qed.

Lemma copyfile_inv src dst w w' :
  copyfile src dst w = (w', Ok tt) → trace w' = trace w ++ [ECopy src dst].
Proof.
  unfold copyfile. unfold bind at 1, get_fs.
  destruct (String.eqb src dst && exists_path (fsys w) src); [done|]. intros H.
  apply bind_inv in H as [(w1 & c & Hr & H)|(? & _ & ?)]; [|done].
  apply read_file_inv in Hr as [-> _].
  apply bind_inv in H as [(w2 & [] & Hw & H)|(? & _ & ?)]; [|done].
  apply write_file_inv in Hw as [(_ & ->)|([e He] & _)]; [|done].
  by injection H as <-.
Qed.

(** Called directly, the body does what is asked of a task: when it
    returns it has logged the copy of its file and then its
    conversions, in order, each on the path the one before returned. *)
Lemma copy_and_apply_inv CONVERSIONS dataset file cs w w' out :
  Dataset._copy_and_apply CONVERSIONS dataset file cs w = (w', Ok out) →
  ∃ src evs,
    file = CStr src
    ∧ trace w' = trace w ++ ECopy src (dataset +:+ "/images/" +:+ basename src) :: evs
    ∧ chain src (dataset +:+ "/images/" +:+ basename src) cs evs out.
Proof.
  unfold Dataset._copy_and_apply. destruct file as [src| |]; try done.
  intros H. apply bind_inv in H as [(w1 & [] & Hc & H)|(? & _ & ?)]; [|done].
  apply copyfile_inv in Hc. apply convert_all_chain in H as (evs & Ht & Hchain).
  exists src, evs. split; [done|]. split; [|done].
  by rewrite Ht, Hc, <- app_assoc.
Qed.

(** ** The plan of [new_dataset]: rows and conversions left *)

Lemma select_fmap {A B} (h : A → B) mask xs :
  select mask (map h xs) = map h (select mask xs).
Proof.
  revert xs. induction mask as [|b mask IH]; intros [|x xs]; simpl; try done.
  destruct b; simpl; by rewrite IH.
Qed.

Lemma iterrows_df_mask df mask :
  iterrows (df_mask df mask) = select mask (iterrows df).
Proof. unfold iterrows, df_mask. simpl. by rewrite select_fmap. Qed.

Lemma df_col_inv df k cells :
  df_col df k = Ok cells →
  Forall2 (λ r c, row_get r k = Ok c) (iterrows df) cells.
Proof.
  unfold df_col. case_bool_decide; [|done]. by intros ?%rmap_Ok_Forall2.
Qed.

Lemma cell_in_true c names :
  cell_in c names = true → ∃ s, c = CStr s ∧ s ∈ names.
Proof.
  destruct c as [s| |]; simpl; try done.
  intros H%bool_decide_eq_true. by exists s.
Qed.

Lemma conversions_left_store_inv df filenames conversions cl :
  Dataset.conversions_left_store df filenames conversions = Ok cl →
  ∃ files,
    df_col df "File" = Ok files
    ∧ map fst cl = select (map (λ f, cell_in f filenames) files) (iterrows df)
    ∧ Forall (λ rc, Dataset.not_applied rc.1 conversions = Ok rc.2) cl.
Proof.
  unfold Dataset.conversions_left_store.
  destruct (df_col df "File") as [files|e]; simpl; [|done].
  rewrite iterrows_df_mask. intros H. exists files. split; [done|].
  apply rmap_Ok_Forall2 in H.
  revert H. generalize (select (map (λ f, cell_in f filenames) files) (iterrows df)).
  intros rows H. induction H as [|r [r' cs] rows cl Hr _ IH]; simpl; [done|].
  destruct (Dataset.not_applied r conversions) as [cs'|e] eqn:Hcs; [|done].
  simpl in Hr. injection Hr as <- <-. destruct IH as [-> IH].
  split; [done|]. by constructor.
Qed.

Lemma task_args_inv cl args :
  Dataset.task_args cl = Ok args →
  Forall2 (λ rc x, row_get rc.1 "File" = Ok x.1 ∧ x.2 = rc.2) cl args.
Proof.
  unfold Dataset.task_args. intros H%rmap_Ok_Forall2.
  eapply Forall2_impl; [exact H|]. intros [r cs] [f cs'] Hx. simpl in *.
  destruct (row_get r "File") as [f'|e]; [|done]. simpl in Hx.
  by injection Hx as -> ->.
Qed.

(** The first step of [# Add images]: the plan, from the store ledger or
    from the filenames. *)
Lemma conversions_left_run DEFAULT_CLASS filenames conversions (from_store : bool) w :
  (if from_store
   then let! df_store := read_csv "data/log.csv" (Some "Index") in
        lift (Dataset.conversions_left_store df_store filenames conversions)
   else ret (Dataset.conversions_left_files DEFAULT_CLASS filenames conversions)) w
  = (w, if from_store
        then rbind (store_ledger w)
               (λ df, Dataset.conversions_left_store df filenames conversions)
        else Ok (Dataset.conversions_left_files DEFAULT_CLASS filenames conversions)).
Proof.
  destruct from_store; [|done].
  unfold bind. rewrite read_csv_store_ledger. by destruct (store_ledger w).
Qed.

Lemma logs_create_new_dataset conversions :
  logs is_mkdir (Dataset.create_new_dataset conversions).
Proof.
  unfold Dataset.create_new_dataset.
  apply logs_bind; [apply logs_listdir|]. intros ds.
  apply logs_bind; [apply logs_lift|]. intros i.
  apply logs_bind; [apply logs_mkdir; by eexists|]. intros _.
  apply logs_bind; [apply logs_mkdir; by eexists|]. intros _.
  apply logs_bind; [apply logs_dump_json|]. intros _. apply logs_ret.
Qed.

Lemma store_ledger_same w w' :
  fsys w' !! "data/log.csv" = fsys w !! "data/log.csv" →
  store_ledger w' = store_ledger w.
Proof. unfold store_ledger. by intros ->. Qed.

Lemma task_args_files DEFAULT_CLASS filenames conversions :
  Dataset.task_args (Dataset.conversions_left_files DEFAULT_CLASS filenames conversions)
  = Ok (map (λ f, (CStr f, conversions)) filenames).
Proof.
  unfold Dataset.task_args, Dataset.conversions_left_files.
  apply rmap_Ok_Forall2. apply Forall2_fmap. by apply Forall_Forall2_diag, Forall_true.
Qed.

(** ** The function [new_dataset] maps over the pool *)

Lemma Pool_map_nil {A B} (f : A → M B) w : Pool_map f [] w = (w, Ok []).
Proof. unfold Pool_map. simpl. by rewrite world_eta. Qed.

(** [_copy_and_apply] is defined inside [new_dataset]: with a task to
    send, the map fails on pickling it. *)
Lemma tasks_rejected CONVERSIONS dataset x args w :
  process_map (nested (binary (Dataset._copy_and_apply CONVERSIONS dataset)))
    (x :: args) true w
  = (w, Raise AttributeError).
Proof. by apply process_map_unpicklable. Qed.

Lemma tasks_none CONVERSIONS dataset w :
  process_map (nested (binary (Dataset._copy_and_apply CONVERSIONS dataset)))
    [] true w
  = (w, Ok []).
Proof. unfold process_map. simpl. apply Pool_map_nil. Qed.

(** The plan [# Add images] works to in world [w]. *)
Lemma add_images_with_task CONVERSIONS DEFAULT_CLASS dataset filenames conversions
    (from_store : bool) w cl x args :
  (if from_store
   then rbind (store_ledger w)
          (λ df, Dataset.conversions_left_store df filenames conversions)
   else Ok (Dataset.conversions_left_files DEFAULT_CLASS filenames conversions))
  = Ok cl →
  Dataset.task_args cl = Ok (x :: args) →
  Dataset.add_images CONVERSIONS DEFAULT_CLASS dataset filenames conversions
    from_store w
  = (w, Raise AttributeError).
Proof.
  intros Hcl Hargs. unfold Dataset.add_images.
  unfold bind at 1. rewrite conversions_left_run, Hcl.
  rewrite bind_lift, Hargs. unfold bind at 1. by rewrite tasks_rejected.
Qed.

Lemma add_images_without_task CONVERSIONS DEFAULT_CLASS dataset filenames conversions
    (from_store : bool) w :
  (if from_store
   then rbind (store_ledger w)
          (λ df, Dataset.conversions_left_store df filenames conversions)
   else Ok (Dataset.conversions_left_files DEFAULT_CLASS filenames conversions))
  = Ok [] →
  Dataset.add_images CONVERSIONS DEFAULT_CLASS dataset filenames conversions
    from_store w
  = (to_csv (new_frame ["File"; "Class"] []) (dataset +:+ "/log.csv") (Some "Index");;
     ret dataset) w.
Proof.
  intros Hcl. unfold Dataset.add_images.
  unfold bind at 1. rewrite conversions_left_run, Hcl.
  rewrite bind_lift. change (Dataset.task_args []) with (Ok (@nil (cell * list string))).
  cbv iota. unfold bind at 1. rewrite tasks_none. by rewrite bind_lift.
Qed.

(** [# Add images] returns only when there was no task, and what it
    then writes is a ledger without rows. *)
Lemma add_images_Ok_inv CONVERSIONS DEFAULT_CLASS dataset filenames conversions
    (from_store : bool) w w' p :
  Dataset.add_images CONVERSIONS DEFAULT_CLASS dataset filenames conversions
    from_store w = (w', Ok p) →
  (if from_store
   then rbind (store_ledger w)
          (λ df, Dataset.conversions_left_store df filenames conversions)
   else Ok (Dataset.conversions_left_files DEFAULT_CLASS filenames conversions))
  = Ok []
  ∧ p = dataset
  ∧ w' = World (<[dataset +:+ "/log.csv" :=
                    File (CsvFile (Csv ["Index"; "File"; "Class"] []))]> (fsys w))
               (trace w) (sched w).
Proof.
  intros H. pose proof H as Hrun. unfold Dataset.add_images in H.
  apply bind_inv in H as [(w1 & cl & Hcl & H)|(? & _ & ?)]; [|done].
  rewrite conversions_left_run in Hcl. injection Hcl as <- Hcl.
  rewrite bind_lift in H.
  destruct (Dataset.task_args cl) as [[|x args]|e] eqn:Hargs; [|..|done].
  - apply task_args_inv, Forall2_length in Hargs.
    destruct cl as [|rc cl]; [|done].
    rewrite (add_images_without_task _ _ _ _ _ _ _ Hcl) in Hrun.
    apply bind_inv in Hrun as [(w2 & [] & Hw & Hrun)|(? & _ & ?)]; [|done].
    apply write_file_inv in Hw as [(_ & ->)|([e He] & _)]; [|done].
    by injection Hrun as <- <-.
  - unfold bind at 1 in H. by rewrite tasks_rejected in H.
Qed.

(** Nothing [# Add images] does shows in the log: no file is copied and
    no conversion called. *)
Lemma add_images_logs_nothing CONVERSIONS DEFAULT_CLASS dataset filenames
    conversions from_store :
  logs (λ _, False)
    (Dataset.add_images CONVERSIONS DEFAULT_CLASS dataset filenames conversions
       from_store).
Proof.
  unfold Dataset.add_images.
  apply logs_bind.
  { destruct from_store; [|apply logs_ret].
    apply logs_bind; [apply logs_read_csv | intros ?; apply logs_lift]. }
  intros cl. apply logs_bind; [apply logs_lift|]. intros args.
  apply logs_bind.
  { destruct args as [|x args].
    - apply logs_silent. intros w w' r. rewrite tasks_none. by intros [= <- _].
    - apply logs_silent. intros w w' r. rewrite tasks_rejected. by intros [= <- _]. }
  intros new_images. apply logs_bind; [apply logs_lift|]. intros new_data.
  apply logs_bind; [apply logs_to_csv | intros ?; apply logs_ret].
Qed.

Lemma new_dataset_logs_mkdir CONVERSIONS DEFAULT_CLASS filenames conversions
    from_store :
  logs is_mkdir
    (Dataset.new_dataset CONVERSIONS DEFAULT_CLASS filenames conversions from_store).
Proof.
  unfold Dataset.new_dataset.
  apply logs_bind; [apply logs_create_new_dataset|]. intros dataset.
  eapply logs_weaken; [|apply add_images_logs_nothing]. done.
Qed.

(** What [new_dataset] does with a plan that has a task, and with one
    that has none. *)
Lemma new_dataset_with_task CONVERSIONS DEFAULT_CLASS filenames conversions
    (from_store : bool) w w2 dataset cl x args :
  Dataset.create_new_dataset conversions w = (w2, Ok dataset) →
  (if from_store
   then rbind (store_ledger w)
          (λ df, Dataset.conversions_left_store df filenames conversions)
   else Ok (Dataset.conversions_left_files DEFAULT_CLASS filenames conversions))
  = Ok cl →
  Dataset.task_args cl = Ok (x :: args) →
  Dataset.new_dataset CONVERSIONS DEFAULT_CLASS filenames conversions from_store w
  = (w2, Raise AttributeError).
Proof.
  intros Hcreate Hcl Hargs. unfold Dataset.new_dataset.
  rewrite (bind_Ok _ _ _ _ _ Hcreate).
  apply add_images_with_task with cl x args; [|done].
  by rewrite (store_ledger_same _ _
                (create_new_dataset_keeps_store_ledger _ _ _ _ Hcreate)).
Qed.

Lemma new_dataset_without_task CONVERSIONS DEFAULT_CLASS filenames conversions
    (from_store : bool) w w2 dataset :
  Dataset.create_new_dataset conversions w = (w2, Ok dataset) →
  (if from_store
   then rbind (store_ledger w)
          (λ df, Dataset.conversions_left_store df filenames conversions)
   else Ok (Dataset.conversions_left_files DEFAULT_CLASS filenames conversions))
  = Ok [] →
  Dataset.new_dataset CONVERSIONS DEFAULT_CLASS filenames conversions from_store w
  = (to_csv (new_frame ["File"; "Class"] []) (dataset +:+ "/log.csv") (Some "Index");;
     ret dataset) w2.
Proof.
  intros Hcreate Hcl. unfold Dataset.new_dataset.
  rewrite (bind_Ok _ _ _ _ _ Hcreate).
  apply add_images_without_task.
  by rewrite (store_ledger_same _ _
                (create_new_dataset_keeps_store_ledger _ _ _ _ Hcreate)).
Qed.

(** ** C4: which conversions a new dataset applies *)

(** C4 fails.  No run of [new_dataset] copies a file or applies a
    conversion: its log holds directory creations only.  With
    [from_store] unset and a file to import, the call raises
    [AttributeError] as soon as the dataset directory and its metadata
    are there, and leaves the world as the creation block left it, for
    any list of conversions; C4 asks for every requested conversion
    applied to every file. *)
Theorem new_dataset_applies_no_conversion
    CONVERSIONS DEFAULT_CLASS filenames conversions (from_store : bool) w w' r :
  Dataset.new_dataset CONVERSIONS DEFAULT_CLASS filenames conversions from_store w
  = (w', r) →
  Forall is_mkdir (new_events w w')
  ∧ (∀ file c p out,
       EConvert file c p out ∈ trace w' → EConvert file c p out ∈ trace w)
  ∧ (∀ w2 dataset,
       Dataset.create_new_dataset conversions w = (w2, Ok dataset) →
       from_store = false → filenames ≠ [] →
       w' = w2 ∧ r = Raise AttributeError).
Proof.
  intros Hrun.
  destruct (new_dataset_logs_mkdir _ _ _ _ _ _ _ _ Hrun) as (made & Ht & Hmade).
  split; [by rewrite (new_events_app _ _ _ Ht)|]. split.
  - intros file c p out. rewrite Ht. intros [Hin|Hin]%elem_of_app; [done|].
    rewrite Forall_forall in Hmade. by destruct (Hmade _ Hin).
  - intros w2 dataset Hcreate -> Hfiles.
    destruct filenames as [|f filenames]; [done|].
    assert (Hfail : Dataset.new_dataset CONVERSIONS DEFAULT_CLASS (f :: filenames)
                      conversions false w = (w2, Raise AttributeError)).
    { eapply new_dataset_with_task; [exact Hcreate|reflexivity|].
      rewrite task_args_files. reflexivity. }
    rewrite Hfail in Hrun. by injection Hrun as <- <-.
Qed.

(** ** C10: requested files the store does not hold *)

Lemma rmap_total {A B} (h : A → result B) xs :
  Forall (λ x, is_Ok (h x)) xs → ∃ ys, rmap h xs = Ok ys ∧ length ys = length xs.
Proof.
  induction 1 as [|x xs [y Hy] _ (ys & Hys & Hlen)]; simpl; [by exists []|].
  rewrite Hy, Hys. simpl. exists (y :: ys). split; [done|]. simpl. by rewrite Hlen.
Qed.

Lemma row_get_zip_Ok cols (cells : list cell) k :
  k ∈ cols → length cells = length cols → is_Ok (row_get (zip cols cells) k).
Proof.
  revert cells. induction cols as [|l cols IH]; intros [|v cells] Hk Hlen;
    simpl in *; try done.
  - by apply elem_of_nil in Hk.
  - destruct (String.eqb_spec l k) as [_|Hne]; [by eexists|].
    apply IH; [|lia]. by apply elem_of_cons in Hk as [->|Hk].
Qed.

Lemma not_applied_total (r : row) conversions :
  Forall (λ c, is_Ok (row_get r c)) conversions →
  is_Ok (Dataset.not_applied r conversions).
Proof.
  unfold Dataset.not_applied.
  induction 1 as [|c cs [flag Hflag] _ [ys Hys]]; simpl; [by eexists|].
  rewrite Hflag. simpl. rewrite Hys. simpl. by eexists.
Qed.

Lemma select_none {A B} (g : B → bool) (xs : list A) ys :
  Forall (λ y, g y = false) ys → select (map g ys) xs = [].
Proof.
  intros H. revert xs. induction H as [|y ys Hy _ IH]; intros [|x xs]; simpl; try done.
  rewrite Hy. apply IH.
Qed.

Lemma select_some {A B} (P : A → B → Prop) (g : B → bool) xs ys y :
  Forall2 P xs ys → y ∈ ys → g y = true →
  ∃ x rest, select (map g ys) xs = x :: rest.
Proof.
  induction 1 as [|x0 y0 xs ys _ _ IH]; intros Hy Hg; [by apply elem_of_nil in Hy|].
  simpl. destruct (g y0) eqn:Hg0; [by eexists _, _|].
  apply elem_of_cons in Hy as [->|Hy]; [congruence|]. by apply IH.
Qed.

Lemma select_sublist {A} mask (xs : list A) x : x ∈ select mask xs → x ∈ xs.
Proof.
  revert xs. induction mask as [|b mask IH]; intros [|x0 xs]; simpl;
    try by intros ?%elem_of_nil.
  destruct b.
  - intros [->|Hin]%elem_of_cons; [by left | right; by apply IH].
  - intros Hin. right. by apply IH.
Qed.

(** From a store ledger with rectangular rows whose columns include
    the requested conversions, the plan can be computed: it has one
    entry per selected row, and every entry gives a task. *)
Lemma plan_of_store_total df filenames conversions files :
  Forall (λ cells, length cells = length (columns df)) (rows df) →
  df_col df "File" = Ok files →
  Forall (λ c, c ∈ columns df) conversions →
  ∃ cl args,
    Dataset.conversions_left_store df filenames conversions = Ok cl
    ∧ Dataset.task_args cl = Ok args
    ∧ length args
      = length (select (map (λ f, cell_in f filenames) files) (iterrows df)).
Proof.
  intros Hrect Hfiles Hconv.
  pose proof (df_col_inv _ _ _ Hfiles) as Hcol.
  assert (Hrows : Forall (λ r, is_Ok (row_get r "File")
                               ∧ is_Ok (Dataset.not_applied r conversions))
                         (iterrows df)).
  { unfold iterrows. apply Forall_fmap. eapply Forall_impl; [exact Hrect|].
    intros cells Hlen. simpl. split.
    - apply row_get_zip_Ok; [|done].
      unfold df_col in Hfiles. by case_bool_decide.
    - apply not_applied_total. eapply Forall_impl; [exact Hconv|].
      intros c Hc. by apply row_get_zip_Ok. }
  set (sel := select (map (λ f, cell_in f filenames) files) (iterrows df)).
  assert (Hsel : Forall (λ r, is_Ok (row_get r "File")
                              ∧ is_Ok (Dataset.not_applied r conversions)) sel).
  { apply Forall_forall. intros r Hr%select_sublist.
    rewrite Forall_forall in Hrows. by apply Hrows. }
  destruct (rmap_total
              (λ r, rbind (Dataset.not_applied r conversions) (λ cs, Ok (r, cs))) sel)
    as (cl & Hcl & Hlen).
  { eapply Forall_impl; [exact Hsel|]. intros r [_ [cs Hcs]]. simpl.
    rewrite Hcs. by eexists. }
  assert (Hplan : Dataset.conversions_left_store df filenames conversions = Ok cl).
  { unfold Dataset.conversions_left_store. rewrite Hfiles. simpl.
    by rewrite iterrows_df_mask. }
  destruct (conversions_left_store_inv _ _ _ _ Hplan) as (files' & Hfiles' & Hfst & _).
  rewrite Hfiles in Hfiles'. injection Hfiles' as <-. fold sel in Hfst.
  destruct (rmap_total (λ rc : row * list string,
                          rbind (row_get rc.1 "File") (λ f, Ok (f, rc.2))) cl)
    as (args & Hargs & Hlen').
  { apply Forall_forall. intros [r cs] Hin. simpl.
    assert (Hr : r ∈ sel).
    { rewrite <- Hfst. apply list_elem_of_fmap. by exists (r, cs). }
    rewrite Forall_forall in Hsel. destruct (Hsel r Hr) as [[f Hf] _].
    rewrite Hf. by eexists. }
  exists cl, args. split; [done|]. split; [done|]. by rewrite Hlen', Hlen.
Qed.

(** C10 fails.  From a store ledger that can be read, with
    rectangular rows and a column for every requested conversion:
    when none of the requested files is in the ledger, [new_dataset]
    with [from_store] set comes down to writing a ledger without rows
    and returning the dataset; when at least one of them is, it raises
    [AttributeError] and leaves the world as the creation block left it,
    without a dataset ledger, whatever other names were requested. *)
Theorem new_dataset_from_store_raises_on_selected_row
    CONVERSIONS DEFAULT_CLASS filenames conversions w w2 dataset df files :
  Dataset.create_new_dataset conversions w = (w2, Ok dataset) →
  store_ledger w = Ok df →
  Forall (λ cells, length cells = length (columns df)) (rows df) →
  df_col df "File" = Ok files →
  Forall (λ c, c ∈ columns df) conversions →
  ((∃ f, f ∈ filenames ∧ CStr f ∈ files) →
   Dataset.new_dataset CONVERSIONS DEFAULT_CLASS filenames conversions true w
   = (w2, Raise AttributeError))
  ∧ ((∀ f, f ∈ filenames → CStr f ∉ files) →
     Dataset.new_dataset CONVERSIONS DEFAULT_CLASS filenames conversions true w
     = (to_csv (new_frame ["File"; "Class"] []) (dataset +:+ "/log.csv")
          (Some "Index");;
        ret dataset) w2).
Proof.
  intros Hcreate Hledger Hrect Hfiles Hconv.
  destruct (plan_of_store_total df filenames conversions files Hrect Hfiles Hconv)
    as (cl & args & Hcl & Hargs & Hlen).
  split.
  - intros (f & Hf & Hin).
    destruct (select_some _ (λ f0, cell_in f0 filenames) _ _ (CStr f)
                (df_col_inv _ _ _ Hfiles) Hin) as (r & rest & Hsel);
      [by apply bool_decide_eq_true|].
    rewrite Hsel in Hlen. destruct args as [|x args]; [done|].
    eapply new_dataset_with_task; [exact Hcreate| |exact Hargs].
    by rewrite Hledger.
  - intros Hnone.
    rewrite select_none in Hlen.
    2:{ apply Forall_forall. intros c Hc.
        destruct (cell_in c filenames) eqn:Hcin; [|done].
        apply cell_in_true in Hcin as (s & -> & Hs). by destruct (Hnone s Hs). }
    destruct args as [|x args]; [|done].
    apply task_args_inv, Forall2_length in Hargs. destruct cl as [|rc cl]; [|done].
    apply new_dataset_without_task; [done|]. by rewrite Hledger.
Qed.

(** ** The theorems at sample inputs *)

Lemma make_labelset_persists_labels_witness :
  (Dataset._make_labelset sample_classes "data/datasets/dataset-0" true
     labelled_store).2 = Ok true
  ∧ fsys (Dataset._make_labelset sample_classes "data/datasets/dataset-0" true
            labelled_store).1 !! ("data/datasets/dataset-0" +:+ "/Y.npy")
    = Some (File (NpyLabels [0; 0; 1; 1; 0]%Z))
  ∧ fsys (Dataset._make_labelset sample_classes "data/datasets/dataset-0" false
            labelled_store).1 !! ("data/datasets/dataset-0" +:+ "/Y.npy")
    = Some (File (NpyLabels [0; 0; 2; 3; 0]%Z)).
Proof.
  pose proof (λ bundled,
    make_labelset_persists_labels sample_classes "data/datasets/dataset-0"
      bundled labelled_store sample_ledger
      (Frame ["Index"; "File"; "Class"] (range_index 5) (records sample_ledger))
      [CStr "none"; CStr "none"; CStr "bar"; CStr "pie"; CStr "none"]
      [0; 0; 2; 3; 0]%Z sample_process
      eq_refl eq_refl eq_refl
      ltac:(repeat constructor) ltac:(intros _; by repeat constructor)
      eq_refl eq_refl eq_refl) as H.
  split; [exact (proj1 (H true))|].
  split; [exact (proj2 (H true)) | exact (proj2 (H false))].
Defined.

Lemma new_dataset_from_store_rejects_fresh_ledger_witness :
  is_Raise (Dataset.new_dataset sample_conversions (CStr "none")
              ["data/images/a.jpg"] ["png"] true blank_ledger_store).2.
Proof.
  apply (new_dataset_from_store_rejects_fresh_ledger sample_conversions (CStr "none")
           ["data/images/a.jpg"] ["png"] empty_store blank_ledger_store
           blank_ledger_store).
  - simpl. intros H.
    apply elem_of_cons in H as [H|H]; [done|].
    apply elem_of_cons in H as [H|H]; [done|].
    by apply elem_of_nil in H.
  - vm_compute. reflexivity.
  - reflexivity.
Defined.

Lemma new_dataset_applies_no_conversion_witness :
  Dataset.new_dataset sample_conversions (CStr "none") ["data/images/a.jpg"]
    ["png"] false stocked_store
  = ((Dataset.create_new_dataset ["png"] stocked_store).1, Raise AttributeError)
  ∧ ∀ file c p out,
      EConvert file c p out
      ∉ trace (Dataset.new_dataset sample_conversions (CStr "none")
                 ["data/images/a.jpg"] ["png"] false stocked_store).1.
Proof.
  assert (Hcreate : Dataset.create_new_dataset ["png"] stocked_store
                    = ((Dataset.create_new_dataset ["png"] stocked_store).1,
                       Ok (dataset_path 0)))
    by (vm_compute; reflexivity).
  destruct (new_dataset_applies_no_conversion sample_conversions (CStr "none")
              ["data/images/a.jpg"] ["png"] false stocked_store _ _
              (surjective_pairing _)) as (_ & Hconv & Hfail).
  destruct (Hfail _ _ Hcreate eq_refl) as [Hw Hr]; [done|].
  split.
  - rewrite <- Hw, <- Hr. apply surjective_pairing.
  - intros file c p out Hin. apply Hconv in Hin. by apply elem_of_nil in Hin.
Defined.

Lemma new_dataset_from_store_raises_on_selected_row_witness :
  Dataset.new_dataset sample_conversions (CStr "none")
    ["data/images/a.jpg"; "data/images/nowhere.png"] ["png"; "gray"] true
    stocked_store
  = ((Dataset.create_new_dataset ["png"; "gray"] stocked_store).1,
     Raise AttributeError)
  ∧ (Dataset.new_dataset sample_conversions (CStr "none")
       ["data/images/nowhere.png"] ["png"; "gray"] true stocked_store).2
    = Ok (dataset_path 0).
Proof.
  assert (Hcreate : Dataset.create_new_dataset ["png"; "gray"] stocked_store
                    = ((Dataset.create_new_dataset ["png"; "gray"] stocked_store).1,
                       Ok (dataset_path 0)))
    by (vm_compute; reflexivity).
  assert (Hledger : ∃ df, store_ledger stocked_store = Ok df
                          ∧ columns df = ["File"; "Class"; "png"; "gray"]
                          ∧ rows df = [ [CStr "data/images/a.jpg"; CStr "bar";
                                         CBool false; CBool false];
                                        [CStr "data/images/b.png"; CStr "pie";
                                         CBool true; CBool false] ]).
  { eexists. split; [vm_compute; reflexivity|]. split; reflexivity. }
  destruct Hledger as (df & Hledger & Hcols & Hrows).
  assert (Hrect : Forall (λ cells, length cells = length (columns df)) (rows df))
    by (rewrite Hrows, Hcols; by repeat constructor).
  assert (Hfiles : df_col df "File"
                   = Ok [CStr "data/images/a.jpg"; CStr "data/images/b.png"])
    by (unfold df_col, iterrows; rewrite Hrows, Hcols; vm_compute; reflexivity).
  assert (Hconv : Forall (λ c, c ∈ columns df) ["png"; "gray"])
    by (rewrite Hcols; by repeat constructor).
  split.
  - apply (proj1 (new_dataset_from_store_raises_on_selected_row sample_conversions
                    (CStr "none") ["data/images/a.jpg"; "data/images/nowhere.png"]
                    ["png"; "gray"] stocked_store _ (dataset_path 0) df _
                    Hcreate Hledger Hrect Hfiles Hconv)).
    exists "data/images/a.jpg". split; by left.
  - vm_compute. reflexivity.
Defined.

(** * Further properties *)

(** ** The parallel map calls the function once per input *)






(** ** Materializing the feature array *)

(** The parallel map of a function that only reads the file system. *)
Lemma Pool_map_reading {A B} (h : filesystem → A → result B)
    (f : A → M B) (xs : list A) w w' r :
  (∀ x v, f x v = (v, h (fsys v) x)) →
  Pool_map f xs w = (w', r) →
  fsys w' = fsys w ∧ trace w' = trace w
  ∧ (∀ ys, r = Ok ys → rmap (h (fsys w)) xs = Ok ys)
  ∧ (∀ e, r = Raise e → ∃ x, x ∈ xs ∧ h (fsys w) x = Raise e).
Proof.
  intros Hcall Hrun.
  destruct (Pool_map_rule f xs
              (λ v, fsys v = fsys w ∧ trace v = trace w)
              (λ x y _, h (fsys w) x = Ok y)) with (4 := Hrun)
    as ((Hfs & Htr) & HOk & HRaise); [| | done |].
  - intros v s Hv. exact Hv.
  - intros x v v' r' _ [Hfs Htr]. rewrite Hcall. intros [= <- <-].
    split; [done|]. split; [|done]. intros y Hy. by rewrite <- Hfs.
  - split; [done|]. split; [done|]. split.
    + intros ys Hys. apply rmap_Ok_Forall2. by apply HOk.
    + intros e He. destruct (HRaise e He) as (x & v1 & v2 & Hx & [Hfs1 _] & Hxe).
      rewrite Hcall in Hxe. injection Hxe as _ Hxe. exists x. split; [done|].
      by rewrite <- Hfs1.
Qed.

Lemma process_map_reading {A B} (h : filesystem → A → result B)
    (f : callable A B) (xs : list A) (packed : bool) w w' r :
  pickle_error f = None →
  (∀ x v, (if packed then call_star f else call f) x v = (v, h (fsys v) x)) →
  process_map f xs packed w = (w', r) →
  fsys w' = fsys w ∧ trace w' = trace w
  ∧ (∀ ys, r = Ok ys → rmap (h (fsys w)) xs = Ok ys)
  ∧ (∀ e, r = Raise e → ∃ x, x ∈ xs ∧ h (fsys w) x = Raise e).
Proof.
  intros Hp Hcall. rewrite (process_map_picklable f xs packed Hp).
  destruct packed; by apply Pool_map_reading.
Qed.

(** [np.array] on arrays of one shape is the list of them. *)
Lemma np_array_Ok images stacked :
  np_array images = Ok stacked →
  stacked = images ∧ ∀ a b, a ∈ images → b ∈ images → shape a = shape b.
Proof.
  unfold np_array. destruct images as [|a0 rest].
  - intros [= <-]. split; [done|]. by intros a b ?%elem_of_nil.
  - destruct (forallb _ rest) eqn:Hall; [|done]. intros [= <-]. split; [done|].
    assert (Hsame : ∀ a, a ∈ a0 :: rest → shape a = shape a0).
    { intros a [->|Hin]%elem_of_cons; [done|].
      rewrite forallb_forall in Hall. apply list_elem_of_In in Hin.
      by apply (bool_decide_eq_true_1 _), Hall. }
    intros a b Ha Hb. by rewrite (Hsame a Ha), (Hsame b Hb).
Qed.

Lemma load_image_array_reads fp v :
  Dataset._load_image_array fp v = (v, image_at (fsys v) fp).
Proof.
  unfold Dataset._load_image_array, image_at, read_file, bind, get_fs, ret, raise.
  destruct fp as [p| |]; try done.
  destruct (fsys v !! p) as [[|[]]|]; done.
Qed.

Lemma Forall2_pipeline_step TRANSFORMS f t fs (xs ys zs : list ndarray) :
  registry_get TRANSFORMS f = Ok t →
  Forall2 (λ x y, t x = Ok y) xs ys →
  Forall2 (λ y z, pipeline TRANSFORMS fs y = Ok z) ys zs →
  Forall2 (λ x z, pipeline TRANSFORMS (f :: fs) x = Ok z) xs zs.
Proof.
  intros Hf Hxy. revert zs. induction Hxy as [|x y xs ys Hx _ IH]; intros zs Hyz.
  - inversion Hyz. constructor.
  - inversion Hyz as [|? z ? zs' Hy Hrest]; subst. constructor; [|by apply IH].
    change (rbind (registry_get TRANSFORMS f)
              (λ t0, rbind (t0 x) (λ px', pipeline TRANSFORMS fs px')) = Ok z).
    rewrite Hf. simpl. by rewrite Hx.
Qed.

(** The stages of transforms, each a parallel map over the whole
    collection, amount to the whole pipeline on every image. *)
Lemma transform_all_inv TRANSFORMS transforms images w w' r :
  Dataset.transform_all TRANSFORMS transforms images w = (w', r) →
  fsys w' = fsys w ∧ trace w' = trace w
  ∧ ∀ ys, r = Ok ys →
      Forall2 (λ px y, pipeline TRANSFORMS transforms px = Ok y) images ys.
Proof.
  revert images w. induction transforms as [|f fs IH]; intros images w H; simpl in H.
  - injection H as <- <-. split; [done|]. split; [done|].
    intros ys [= <-]. by apply Forall_Forall2_diag, Forall_true.
  - rewrite bind_lift in H. destruct (registry_get TRANSFORMS f) as [t|e] eqn:Hf.
    2:{ injection H as <- <-. done. }
    apply bind_inv in H as [(w1 & images' & Hstage & H)|(e & Hstage & ->)].
    + apply (Pool_map_reading (λ _ a, t a)) in Hstage
        as (Hfs1 & Htr1 & HOk1 & _); [|done].
      apply IH in H as (Hfs2 & Htr2 & HOk2).
      split; [congruence|]. split; [congruence|].
      intros ys Hys. eapply Forall2_pipeline_step; [done| |by apply HOk2].
      apply rmap_Ok_Forall2. by apply HOk1.
    + apply (Pool_map_reading (λ _ a, t a)) in Hstage
        as (Hfs1 & Htr1 & _ & _); done.
Qed.

(** What a run of [_make_imageset] that returns true has done. *)
Lemma make_imageset_inv TRANSFORMS dataset transforms w w' :
  Dataset._make_imageset TRANSFORMS dataset transforms w = (w', Ok true) →
  ∃ t df fps pxs ys d0,
    fsys w !! (dataset +:+ "/log.csv") = Some (File (CsvFile t))
    ∧ frame_of_csv t None = Ok df
    ∧ df_col df "File" = Ok fps
    ∧ Forall2 (λ fp px, image_at (fsys w) fp = Ok px) fps pxs
    ∧ Forall2 (λ px y, pipeline TRANSFORMS transforms px = Ok y) pxs ys
    ∧ (∀ a b, a ∈ ys → b ∈ ys → shape a = shape b)
    ∧ fsys w !! (dataset +:+ "/process.json") = Some (File (JsonFile [d0]))
    ∧ fsys w'
      = <[dataset +:+ "/X.npy" := File (NpyImages ys)]>
          (<[dataset +:+ "/process.json" :=
               File (JsonFile [<["Transforms" := JList transforms]> d0])]> (fsys w))
    ∧ trace w' = trace w.
Proof.
  unfold Dataset._make_imageset. intros H.
  apply bind_inv in H as [(w1 & loaded & Hload & H)|(? & _ & ?)]; [|done].
  destruct loaded as [images|]; [|by injection H].
  unfold try_except in Hload.
  match type of Hload with
  | match ?m w with _ => _ end = _ => destruct (m w) as [v [o|e]] eqn:Htry
  end.
  2:{ by destruct e. }
  injection Hload as -> ->.
  apply bind_inv in Htry as [(v1 & df & Hcsv & Htry)|(? & _ & ?)]; [|done].
  unfold read_csv in Hcsv.
  apply bind_inv in Hcsv as [(v0 & c & Hread & Hcsv)|(? & _ & ?)]; [|done].
  apply read_file_inv in Hread as [-> Hc]. pose proof (proj1 (Hc c) eq_refl) as Hledger.
  destruct c as [t| | | | |]; try done. unfold lift in Hcsv. injection Hcsv as <- Hdf.
  rewrite bind_lift in Htry. destruct (df_col df "File") as [fps|e] eqn:Hcol; [|done].
  apply bind_inv in Htry as [(v2 & pxs & Hpool & Htry)|(? & _ & ?)]; [|done].
  injection Htry as -> <-.
  apply (process_map_reading image_at) in Hpool as (Hfs1 & Htr1 & HOk1 & _);
    [|done|intros x v; apply load_image_array_reads].
  apply bind_inv in H as [(w2 & ys & Htrans & H)|(? & _ & ?)]; [|done].
  apply transform_all_inv in Htrans as (Hfs2 & Htr2 & HOk2).
  apply bind_inv in H as [(w3 & d0 & Hjson & H)|(? & _ & ?)]; [|done].
  unfold load_json in Hjson.
  apply bind_inv in Hjson as [(v3 & c & Hread & Hjson)|(? & _ & ?)]; [|done].
  apply read_file_inv in Hread as [-> Hc']. pose proof (proj1 (Hc' c) eq_refl) as Hmeta.
  unfold lift in Hjson. injection Hjson as <- Hjson.
  destruct c as [|[|d [|]]| | | |]; try done. injection Hjson as ->.
  apply bind_inv in H as [(w4 & [] & Hdump & H)|(? & _ & ?)]; [|done].
  apply write_file_inv in Hdump as [(_ & ->)|([e He] & _)]; [|done].
  rewrite bind_lift in H.
  destruct (np_array ys) as [stacked|e] eqn:Hstack; [|done].
  apply np_array_Ok in Hstack as [-> Hshape].
  apply bind_inv in H as [(w5 & [] & Hsave & H)|(? & _ & ?)]; [|done].
  apply write_file_inv in Hsave as [(_ & ->)|([e He] & _)]; [|done].
  injection H as <-. simpl.
  exists t, df, fps, pxs, ys, d0.
  split; [done|]. split; [by f_equal|]. split; [done|].
  split; [by apply rmap_Ok_Forall2, HOk1|].
  split; [by apply HOk2|]. split; [done|].
  split; [by rewrite <- Hfs1, <- Hfs2|].
  split; [by rewrite Hfs2, Hfs1 | by rewrite Htr2, Htr1].
Qed.

(** X2.  A run of [_make_imageset] that returns true has read the
    ledger's [File] column, decoded every listed image, and written
    exactly two files: [X.npy], holding for every ledger row, in row
    order, its image put through the transforms in the order given,
    all of one shape; and [process.json], holding the record that was
    there with only its [Transforms] field replaced by the list.
    Nothing else in the file system changes and nothing is logged. *)
Theorem make_imageset_materializes TRANSFORMS dataset transforms w w' :
  Dataset._make_imageset TRANSFORMS dataset transforms w = (w', Ok true) →
  ∃ t df fps pxs ys d0,
    fsys w !! (dataset +:+ "/log.csv") = Some (File (CsvFile t))
    ∧ frame_of_csv t None = Ok df
    ∧ df_col df "File" = Ok fps
    ∧ Forall2 (λ fp px, image_at (fsys w) fp = Ok px) fps pxs
    ∧ Forall2 (λ px y, pipeline TRANSFORMS transforms px = Ok y) pxs ys
    ∧ (∀ a b, a ∈ ys → b ∈ ys → shape a = shape b)
    ∧ fsys w !! (dataset +:+ "/process.json") = Some (File (JsonFile [d0]))
    ∧ fsys w'
      = <[dataset +:+ "/X.npy" := File (NpyImages ys)]>
          (<[dataset +:+ "/process.json" :=
               File (JsonFile [<["Transforms" := JList transforms]> d0])]> (fsys w))
    ∧ trace w' = trace w.
Proof. apply make_imageset_inv. Qed.

Lemma make_imageset_materializes_witness :
  (Dataset._make_imageset working_transforms "data/datasets/dataset-0"
     ["negate"; "reverse"] imaged_store).2 = Ok true
  ∧ fsys (Dataset._make_imageset working_transforms "data/datasets/dataset-0"
            ["negate"; "reverse"] imaged_store).1
      !! ("data/datasets/dataset-0" +:+ "/X.npy")
    = Some (File (NpyImages [Array [3] [-3; -2; -1]%Z; Array [3] [-6; -5; -4]%Z]))
  ∧ ∃ ys, Forall2 (λ px y, pipeline working_transforms ["negate"; "reverse"] px = Ok y)
            [Array [3] [1; 2; 3]%Z; Array [3] [4; 5; 6]%Z] ys.
Proof.
  assert (Hres : (Dataset._make_imageset working_transforms "data/datasets/dataset-0"
                    ["negate"; "reverse"] imaged_store).2 = Ok true)
    by (vm_compute; reflexivity).
  split; [exact Hres|]. split; [vm_compute; reflexivity|].
  destruct (make_imageset_materializes working_transforms "data/datasets/dataset-0"
              ["negate"; "reverse"] imaged_store
              (Dataset._make_imageset working_transforms "data/datasets/dataset-0"
                 ["negate"; "reverse"] imaged_store).1)
    as (t & df & fps & pxs & ys & d0 & Hled & Hdf & Hcol & Himg & Hpipe & _).
  { rewrite <- Hres. apply surjective_pairing. }
  vm_compute in Hled. injection Hled as <-.
  vm_compute in Hdf. injection Hdf as <-.
  vm_compute in Hcol. injection Hcol as <-.
  exists ys.
  inversion Himg as [|? px1 ? pxs1 H1 Hrest1]; subst.
  inversion Hrest1 as [|? px2 ? pxs2 H2 Hrest2]; subst.
  inversion Hrest2; subst.
  vm_compute in H1. injection H1 as <-.
  vm_compute in H2. injection H2 as <-.
  exact Hpipe.
Defined.


(** ** What materialization leaves behind *)



(** X4.  When every file the ledger lists is either an image or
    missing, and at least one is missing, [_make_imageset] returns
    false, whatever the order in which the workers report, and
    [make_data] returns false with it; neither writes a file or logs
    anything. *)
Theorem make_data_missing_image TRANSFORMS CLASSES dataset transforms bundled
    w t df fps :
  fsys w !! (dataset +:+ "/log.csv") = Some (File (CsvFile t)) →
  frame_of_csv t None = Ok df →
  df_col df "File" = Ok fps →
  Forall (λ fp, ∀ e, image_at (fsys w) fp = Raise e → e = FileNotFoundError) fps →
  Exists (λ fp, image_at (fsys w) fp = Raise FileNotFoundError) fps →
  (Dataset._make_imageset TRANSFORMS dataset transforms w).2 = Ok false
  ∧ (Dataset.make_data TRANSFORMS CLASSES dataset transforms bundled w).2 = Ok false
  ∧ fsys (Dataset.make_data TRANSFORMS CLASSES dataset transforms bundled w).1
    = fsys w
  ∧ trace (Dataset.make_data TRANSFORMS CLASSES dataset transforms bundled w).1
    = trace w.
Proof.
  intros Hled Hdf Hcol Hall Hsome.
  assert (Himg : ∃ w1, Dataset._make_imageset TRANSFORMS dataset transforms w
                       = (w1, Ok false) ∧ fsys w1 = fsys w ∧ trace w1 = trace w).
  { unfold Dataset._make_imageset.
    destruct (process_map (unary Dataset._load_image_array) fps false w)
      as [w1 r] eqn:Hpool.
    pose proof Hpool as Hrun.
    apply (process_map_reading image_at) in Hrun as (Hfs1 & Htr1 & HOk1 & HRaise1);
      [|done|intros x v; apply load_image_array_reads].
    assert (Hr : r = Raise FileNotFoundError).
    { destruct r as [pxs|e].
      - exfalso. specialize (HOk1 pxs eq_refl). apply rmap_Ok_Forall2 in HOk1.
        apply Exists_exists in Hsome as (fp & Hin & Hfp).
        apply list_elem_of_lookup in Hin as [k Hk].
        destruct (Forall2_lookup_l _ _ _ _ _ HOk1 Hk) as (px & _ & Hpx). congruence.
      - destruct (HRaise1 e eq_refl) as (fp & Hin & Hfp).
        rewrite Forall_forall in Hall. by rewrite (Hall fp Hin e Hfp). }
    subst r. exists w1. split; [|done].
    unfold try_except, read_csv, bind at 1.
    unfold bind at 1. unfold bind at 1.
    rewrite (read_file_File _ _ _ Hled). unfold lift at 1. rewrite Hdf.
    rewrite bind_lift, Hcol. unfold bind at 1. by rewrite Hpool. }
  destruct Himg as (w1 & Himg & Hfs & Htr).
  split; [by rewrite Himg|].
  unfold Dataset.make_data. rewrite (bind_Ok _ _ _ _ _ Himg). done.
Qed.

Lemma make_data_missing_image_witness :
  (Dataset.make_data working_transforms sample_classes "data/datasets/dataset-0"
     ["negate"] true torn_store).2 = Ok false
  ∧ fsys (Dataset.make_data working_transforms sample_classes
            "data/datasets/dataset-0" ["negate"] true torn_store).1
    = fsys torn_store.
Proof.
  destruct (make_data_missing_image working_transforms sample_classes
              "data/datasets/dataset-0" ["negate"] true torn_store imaged_ledger
              (Frame ["Index"; "File"; "Class"] (range_index 2) (records imaged_ledger))
              [CStr "data/datasets/dataset-0/images/a.png";
               CStr "data/datasets/dataset-0/images/b.png"]
              eq_refl eq_refl eq_refl) as (_ & Hres & Hfs & _).
  - repeat constructor; intros e He; vm_compute in He; congruence.
  - apply Exists_cons_tl, Exists_cons_hd. vm_compute. reflexivity.
  - split; [exact Hres | exact Hfs].
Defined.

(** X5.  When a class label of the ledger is not in the vocabulary,
    [_make_labelset] raises [KeyError] for such a label and leaves the
    world as it was: no label array is written and the metadata is not
    touched. *)
Theorem make_labelset_unknown_class CLASSES dataset bundled w t df labels c :
  fsys w !! (dataset +:+ "/log.csv") = Some (File (CsvFile t)) →
  frame_of_csv t None = Ok df →
  df_col df "Class" = Ok labels →
  c ∈ labels → CLASSES c = None →
  ∃ c', c' ∈ labels ∧ CLASSES c' = None
    ∧ Dataset._make_labelset CLASSES dataset bundled w
      = (w, Raise (KeyError (cell_str c'))).
Proof.
  intros Hled Hdf Hcol Hin Hc.
  destruct (rmap (λ c, rbind (Dataset.class_id CLASSES c)
                         (λ id, Ok (if bundled then Dataset.bundle id else id)))
                 labels) as [classes|e] eqn:Hclasses.
  - exfalso. apply rmap_Ok_Forall2 in Hclasses.
    apply list_elem_of_lookup in Hin as [k Hk].
    destruct (Forall2_lookup_l _ _ _ _ _ Hclasses Hk) as (y & _ & Hy).
    unfold Dataset.class_id in Hy. by rewrite Hc in Hy.
  - apply rmap_Raise_elem in Hclasses as Hwho. destruct Hwho as (c' & Hin' & Hc').
    unfold Dataset.class_id in Hc'.
    destruct (CLASSES c') as [id|] eqn:Hid; [done|]. simpl in Hc'. injection Hc' as <-.
    exists c'. split; [done|]. split; [done|].
    unfold Dataset._make_labelset, read_csv.
    unfold bind at 1. unfold bind at 1.
    rewrite (read_file_File _ _ _ Hled). unfold lift at 1. rewrite Hdf.
    rewrite bind_lift, Hcol. rewrite bind_lift. by rewrite Hclasses.
Qed.

Lemma make_labelset_unknown_class_witness :
  ∃ c', c' ∈ [CStr "bar"; CStr "none"] ∧ (λ _ : cell, None (A:=Z)) c' = None
    ∧ Dataset._make_labelset (λ _, None) "data/datasets/dataset-0" true imaged_store
      = (imaged_store, Raise (KeyError (cell_str c'))).
Proof.
  apply (make_labelset_unknown_class (λ _, None) "data/datasets/dataset-0" true
           imaged_store imaged_ledger
           (Frame ["Index"; "File"; "Class"] (range_index 2) (records imaged_ledger))
           [CStr "bar"; CStr "none"] (CStr "bar") eq_refl eq_refl eq_refl).
  - by left.
  - reflexivity.
Defined.

(** ** Deleting a dataset *)

Lemma rmtree_lookup d (f : filesystem) p :
  filter (λ kv : string * node, below d kv.1 = false) f !! p
  = if below d p then None else f !! p.
Proof.
  destruct (below d p) eqn:Hb.
  - apply map_lookup_filter_None. right. intros x _. simpl. by rewrite Hb.
  - destruct (f !! p) as [x|] eqn:Hp.
    + apply map_lookup_filter_Some. by split.
    + apply map_lookup_filter_None. by left.
Qed.

Lemma below_self d : below d d = true.
Proof. unfold below. by rewrite String.eqb_refl. Qed.

Lemma below_child d s : below d (d +:+ String "/" s) = true.
Proof.
  unfold below.
  change (d +:+ String "/" s) with (d +:+ "/" +:+ s).
  rewrite <- append_assoc, strip_prefix_app. apply orb_true_r.
Qed.

(** X6.  Deleting a dataset directory removes the directory and every
    path below it and leaves every other path as it was.  Afterwards
    the metadata of that dataset cannot be read and a second deletion
    fails, both with [FileNotFoundError]. *)
Theorem delete_dataset_removes_tree dataset w :
  is_dir (fsys w) dataset = true →
  (Dataset.delete_dataset dataset w).2 = Ok tt
  ∧ (∀ p, fsys (Dataset.delete_dataset dataset w).1 !! p
          = if below dataset p then None else fsys w !! p)
  ∧ Dataset.get_process dataset (Dataset.delete_dataset dataset w).1
    = ((Dataset.delete_dataset dataset w).1, Raise FileNotFoundError)
  ∧ Dataset.delete_dataset dataset (Dataset.delete_dataset dataset w).1
    = ((Dataset.delete_dataset dataset w).1, Raise FileNotFoundError)
  ∧ Storage.delete_dataset dataset w = Dataset.delete_dataset dataset w.
Proof.
  intros Hdir.
  assert (Hrun : Dataset.delete_dataset dataset w
                 = (World (filter (λ kv : string * node, below dataset kv.1 = false)
                                  (fsys w)) (trace w) (sched w), Ok tt)).
  { unfold Dataset.delete_dataset, rmtree, bind, get_fs, put_fs.
    unfold is_dir in Hdir. by destruct (fsys w !! dataset) as [[|c]|]. }
  rewrite Hrun. simpl.
  split; [done|]. split; [apply rmtree_lookup|]. split; [|split; [|done]].
  - unfold Dataset.get_process, load_json, read_file, bind, get_fs, raise. simpl.
    by rewrite rmtree_lookup, (below_child dataset "process.json").
  - unfold Dataset.delete_dataset, rmtree, bind, get_fs, raise. simpl.
    by rewrite rmtree_lookup, below_self.
Qed.

Lemma delete_dataset_removes_tree_witness :
  is_dir (fsys imaged_store) "data/datasets/dataset-0" = true
  ∧ Dataset.get_process "data/datasets/dataset-0"
      (Dataset.delete_dataset "data/datasets/dataset-0" imaged_store).1
    = ((Dataset.delete_dataset "data/datasets/dataset-0" imaged_store).1,
       Raise FileNotFoundError).
Proof.
  split; [reflexivity|].
  destruct (delete_dataset_removes_tree "data/datasets/dataset-0" imaged_store eq_refl)
    as (_ & _ & Hmeta & _).
  exact Hmeta.
Defined.

(** ** Initializing the store twice *)

Lemma mkdir_Raise p w w' e :
  mkdir p w = (w', Raise e) →
  w' = w ∧ (e = FileExistsError ∨ has_parent (fsys w) p = false).
Proof.
  unfold mkdir, bind, get_fs, put_fs, log, raise.
  destruct (exists_path (fsys w) p).
  - intros [= <- <-]. split; [done | by left].
  - destruct (has_parent (fsys w) p); [done|].
    destruct (fsys w !! parent p) as [[|c1]|]; intros [= <- <-];
      (split; [done | by right]).
Qed.

Lemma init_data_store_run w :
  ∃ w', Storage.init_data_store w = (w', Ok tt)
        ∧ exists_path (fsys w') "data" = true
        ∧ (exists_path (fsys w) "data" = true → w' = w).
Proof.
  unfold Storage.init_data_store, try_except.
  destruct (exists_path (fsys w) "data") eqn:Hroot.
  - rewrite (bind_Raise _ _ w w FileExistsError) by (by apply mkdir_exists).
    exists w. done.
  - assert (Hnone : fsys w !! "data" = None).
    { unfold exists_path in Hroot. by destruct (fsys w !! "data"). }
    rewrite (bind_Ok _ _ _ _ _ (mkdir_new "data" w Hnone eq_refl)).
    set (w1 := World (<["data" := Dir]> (fsys w)) (trace w ++ [EMkdir "data"]) (sched w)).
    assert (Hkeep : ∀ v (q : string) n, fsys v !! "data" = Some Dir →
              q ≠ "data" → <[q := n]> (fsys v) !! "data" = Some Dir).
    { intros v q n Hv Hq. by rewrite lookup_insert_ne. }
    assert (H1 : fsys w1 !! "data" = Some Dir) by (simpl; by rewrite lookup_insert_eq).
    unfold bind at 1.
    destruct (mkdir "data/images" w1) as [w2 [[]|e]] eqn:Hmk2.
    + apply mkdir_inv in Hmk2 as [(_ & _ & ->)|([e He] & _)]; [|done].
      assert (H2 : <["data/images" := Dir]> (fsys w1) !! "data" = Some Dir)
        by (by apply Hkeep).
      match goal with
      | |- context [mkdir "data/datasets" ?v] =>
          destruct (mkdir "data/datasets" v) as [w3 [[]|e]] eqn:Hmk3
      end.
      * apply mkdir_inv in Hmk3 as [(_ & _ & ->)|([e He] & _)]; [|done].
        eexists. split; [reflexivity|]. split; [|done].
        unfold exists_path. simpl. rewrite lookup_insert_ne by done. simpl in H2.
        by rewrite H2.
      * apply mkdir_Raise in Hmk3 as [-> [->|Hpar]].
        -- eexists. split; [reflexivity|]. split; [|done].
           unfold exists_path. simpl. simpl in H2. by rewrite H2.
        -- unfold has_parent, is_dir in Hpar. simpl in Hpar. simpl in H2.
           by rewrite H2 in Hpar.
    + apply mkdir_Raise in Hmk2 as [-> [->|Hpar]].
      * eexists. split; [reflexivity|]. split; [|done].
        unfold exists_path. by rewrite H1.
      * unfold has_parent, is_dir in Hpar. simpl in Hpar.
        by rewrite lookup_insert_eq in Hpar.
Qed.

(** X7.  On every file system, well formed or not, [init_data_store]
    returns without raising and leaves something at the root path; run
    again on the result it changes nothing. *)
Theorem init_data_store_idempotent w :
  (Storage.init_data_store w).2 = Ok tt
  ∧ exists_path (fsys (Storage.init_data_store w).1) "data" = true
  ∧ Storage.init_data_store (Storage.init_data_store w).1
    = ((Storage.init_data_store w).1, Ok tt).
Proof.
  destruct (init_data_store_run w) as (w' & Hrun & Hroot & _).
  rewrite Hrun. simpl. split; [done|]. split; [done|].
  destruct (init_data_store_run w') as (w'' & Hrun' & _ & Hsame).
  rewrite Hrun'. by rewrite (Hsame Hroot).
Qed.

(** ** Constructing datasets in a well-formed store *)

Lemma is_dir_insert_absent (f : filesystem) q n p :
  f !! q = None → is_dir f p = true → is_dir (<[q := n]> f) p = true.
Proof.
  unfold is_dir. intros Hq Hp. destruct (decide (q = p)) as [->|Hne].
  - by rewrite Hq in Hp.
  - by rewrite lookup_insert_ne.
Qed.

Lemma has_parent_insert_absent (f : filesystem) q n p :
  f !! q = None → has_parent f p = true → has_parent (<[q := n]> f) p = true.
Proof.
  unfold has_parent. intros Hq [Hp|Hp]%orb_true_iff; apply orb_true_iff.
  - by left.
  - right. by apply is_dir_insert_absent.
Qed.

(** Adding a path in an existing directory keeps the file system well
    formed. *)
Lemma well_formed_insert (f : filesystem) q n :
  well_formed f → f !! q = None → has_parent f q = true →
  well_formed (<[q := n]> f).
Proof.
  intros Hwf Hq Hpar p Hp. apply has_parent_insert_absent; [done|].
  destruct (decide (q = p)) as [<-|Hne]; [done|].
  apply Hwf. unfold exists_path in *. by rewrite lookup_insert_ne in Hp.
Qed.

Lemma has_parent_child (f : filesystem) d n :
  has_slash n = false → is_dir f d = true → has_parent f (d +:+ "/" +:+ n) = true.
Proof.
  intros Hn Hd. unfold has_parent. rewrite parent_entry by done.
  rewrite Hd. apply orb_true_r.
Qed.

Lemma dataset_path_nonempty i : dataset_path i ≠ EmptyString.
Proof. unfold dataset_path. by rewrite append_cons. Qed.

(** X8.  In a well-formed store with [data/datasets] present, the
    constructor of [storage.py] always succeeds.  It adds exactly four
    paths, the dataset directory of the smallest free index, its
    [images] directory, an empty ledger and the metadata record; every
    path that existed is left as it was, and the file system stays
    well formed. *)
Theorem storage_new_dataset_on_well_formed_store w :
  well_formed (fsys w) →
  is_dir (fsys w) "data/datasets" = true →
  ∃ i,
    (Storage.new_dataset w).2 = Ok (dataset_path i)
    ∧ fsys w !! dataset_path i = None
    ∧ fsys (Storage.new_dataset w).1
      = <[dataset_path i +:+ "/process.json" :=
            File (JsonFile [{[ "Conversions" := JList []; "Transforms" := JList [] ]}])]>
          (<[dataset_path i +:+ "/log.csv" :=
               File (CsvFile (Csv [EmptyString; "File"; "Class"] []))]>
             (<[dataset_path i +:+ "/images" := Dir]>
                (<[dataset_path i := Dir]> (fsys w))))
    ∧ (∀ p, exists_path (fsys w) p = true →
         fsys (Storage.new_dataset w).1 !! p = fsys w !! p)
    ∧ well_formed (fsys (Storage.new_dataset w).1).
Proof.
  intros Hwf Hdir.
  destruct (fresh_index_spec (entries (fsys w) "data/datasets"))
    as (i & Hi & Hfree & _ & _).
  destruct (first_mkdir_runs (λ path,
          mkdir (path +:+ "/images");;
          to_csv (new_frame ["File"; "Class"] []) (path +:+ "/log.csv") None;;
          dump_json (path +:+ "/process.json")
            {[ "Conversions" := JList []; "Transforms" := JList [] ]};;
          ret path) w Hdir) as (i' & Hi' & Heq).
  assert (i' = i) as -> by congruence.
  exists i. unfold Storage.new_dataset. rewrite Heq. clear Heq Hi'.
  set (d := dataset_path i).
  assert (Hd : fsys w !! d = None)
    by apply (exists_path_entry_fresh _ "data/datasets" i Hfree).
  assert (Hchild : ∀ n, has_slash n = false → fsys w !! (d +:+ "/" +:+ n) = None).
  { intros n Hn. apply well_formed_child_absent; [done|done| |done].
    apply dataset_path_nonempty. }
  set (f1 := <[d := Dir]> (fsys w)).
  set (f2 := <[d +:+ "/images" := Dir]> f1).
  set (f3 := <[d +:+ "/log.csv" := File (CsvFile (Csv [EmptyString; "File"; "Class"] []))]> f2).
  assert (Hd1 : is_dir f1 d = true) by (unfold is_dir, f1; by rewrite lookup_insert_eq).
  assert (H1img : f1 !! (d +:+ "/images") = None).
  { unfold f1. rewrite lookup_insert_ne by apply append_ne_self.
    by apply (Hchild "images"). }
  assert (Hd2 : is_dir f2 d = true) by (by apply is_dir_insert_absent).
  assert (H2log : f2 !! (d +:+ "/log.csv") = None).
  { unfold f2, f1. rewrite lookup_insert_ne
      by (intros Heq; by apply append_inj_l in Heq).
    rewrite lookup_insert_ne by apply append_ne_self. by apply (Hchild "log.csv"). }
  assert (Hd3 : is_dir f3 d = true) by (by apply is_dir_insert_absent).
  assert (H3pj : f3 !! (d +:+ "/process.json") = None).
  { unfold f3, f2, f1.
    rewrite lookup_insert_ne by (intros Heq; by apply append_inj_l in Heq).
    rewrite lookup_insert_ne by (intros Heq; by apply append_inj_l in Heq).
    rewrite lookup_insert_ne by apply append_ne_self.
    by apply (Hchild "process.json"). }
  erewrite bind_Ok.
  2:{ apply mkdir_new; [exact H1img|]. by apply (has_parent_child f1 d "images"). }
  erewrite bind_Ok.
  2:{ unfold to_csv. apply write_file_new; [exact H2log|].
      by apply (has_parent_child f2 d "log.csv"). }
  erewrite bind_Ok.
  2:{ unfold dump_json. apply write_file_new; [exact H3pj|].
      by apply (has_parent_child f3 d "process.json"). }
  simpl. split; [done|]. split; [done|]. split; [done|]. split.
  - intros p Hp. unfold exists_path in Hp.
    assert (Hex : fsys w !! p ≠ None) by (by destruct (fsys w !! p)).
    unfold f3, f2, f1.
    rewrite lookup_insert_ne
      by (intros <-; apply Hex; by apply (Hchild "process.json")).
    rewrite lookup_insert_ne by (intros <-; apply Hex; by apply (Hchild "log.csv")).
    rewrite lookup_insert_ne by (intros <-; apply Hex; by apply (Hchild "images")).
    by rewrite lookup_insert_ne by (intros <-; by apply Hex).
  - apply well_formed_insert; [|exact H3pj|by apply (has_parent_child f3 d "process.json")].
    apply well_formed_insert; [|exact H2log|by apply (has_parent_child f2 d "log.csv")].
    apply well_formed_insert; [|exact H1img|by apply (has_parent_child f1 d "images")].
    apply well_formed_insert; [done|exact Hd|].
    apply (has_parent_child (fsys w) "data/datasets" (dataset_name i));
      [apply dataset_name_no_slash | done].
Qed.

Lemma storage_new_dataset_on_well_formed_store_witness :
  ∃ i, (Storage.new_dataset gapped_store).2 = Ok (dataset_path i)
       ∧ well_formed (fsys (Storage.new_dataset gapped_store).1).
Proof.
  destruct (storage_new_dataset_on_well_formed_store gapped_store)
    as (i & Hres & _ & _ & _ & Hwf).
  - apply well_formedb_spec. vm_compute. reflexivity.
  - reflexivity.
  - exists i. split; [exact Hres | exact Hwf].
Defined.

(** ** Datasets constructed one after the other *)

Lemma storage_new_dataset_Ok_inv w w' p :
  Storage.new_dataset w = (w', Ok p) →
  fsys w !! p = None ∧ fsys w' !! p = Some Dir.
Proof.
  unfold Storage.new_dataset, to_csv, dump_json. intros H.
  apply bind_inv in H as [(v1 & ds & Hls & H)|(? & _ & ?)]; [|done].
  apply listdir_inv in Hls as ->.
  rewrite bind_lift in H. destruct (fresh_index ds) as [i|e]; [|done].
  apply bind_inv in H as [(v2 & [] & Hmk & H)|(? & _ & ?)]; [|done].
  apply mkdir_inv in Hmk as [(_ & Hnew & ->)|([e He] & _)]; [|done].
  apply bind_inv in H as [(v3 & [] & Hmk & H)|(? & _ & ?)]; [|done].
  apply mkdir_inv in Hmk as [(_ & _ & ->)|([e He] & _)]; [|done].
  apply bind_inv in H as [(v4 & [] & Hw & H)|(? & _ & ?)]; [|done].
  apply write_file_inv in Hw as [(_ & ->)|([e He] & _)]; [|done].
  apply bind_inv in H as [(v5 & [] & Hw & H)|(? & _ & ?)]; [|done].
  apply write_file_inv in Hw as [(_ & ->)|([e He] & _)]; [|done].
  injection H as <- <-. simpl. split; [done|].
  rewrite !lookup_insert_ne by (apply not_eq_sym, append_ne_self).
  by rewrite lookup_insert_eq.
Qed.

Lemma create_new_dataset_Ok_inv conversions w w' d :
  Dataset.create_new_dataset conversions w = (w', Ok d) → fsys w !! d = None.
Proof.
  unfold Dataset.create_new_dataset. intros H.
  apply bind_inv in H as [(v1 & ds & Hls & H)|(? & _ & ?)]; [|done].
  apply listdir_inv in Hls as ->.
  rewrite bind_lift in H. destruct (fresh_index ds) as [i|e]; [|done].
  apply bind_inv in H as [(v2 & [] & Hmk & H)|(? & _ & ?)]; [|done].
  apply mkdir_inv in Hmk as [(_ & Hnew & ->)|([e He] & _)]; [|done].
  apply bind_inv in H as [(v3 & [] & _ & H)|(? & _ & ?)]; [|done].
  apply bind_inv in H as [(v4 & [] & _ & H)|(? & _ & ?)]; [|done].
  by injection H as _ <-.
Qed.

(** X9.  A dataset made by the constructor of [storage.py] keeps its
    path to itself: whichever constructor runs next on the resulting
    world, the path it returns is a different one. *)
Theorem successive_datasets_differ w w1 p1 :
  Storage.new_dataset w = (w1, Ok p1) →
  (∀ w2 p2, Storage.new_dataset w1 = (w2, Ok p2) → p2 ≠ p1)
  ∧ (∀ CONVERSIONS DEFAULT_CLASS filenames conversions from_store w2 p2,
       Dataset.new_dataset CONVERSIONS DEFAULT_CLASS filenames conversions
         from_store w1 = (w2, Ok p2) →
       p2 ≠ p1).
Proof.
  intros [_ Hthere]%storage_new_dataset_Ok_inv. split.
  - intros w2 p2 [Hfresh _]%storage_new_dataset_Ok_inv. congruence.
  - intros CONVERSIONS DEFAULT_CLASS filenames conversions from_store w2 p2 H.
    unfold Dataset.new_dataset in H.
    apply bind_inv in H as [(v & d & Hcreate & H)|(? & _ & ?)]; [|done].
    apply add_images_returns in H as ->.
    apply create_new_dataset_Ok_inv in Hcreate. congruence.
Qed.

Lemma successive_datasets_differ_witness :
  Storage.new_dataset empty_store
  = ((Storage.new_dataset empty_store).1, Ok (dataset_path 0))
  ∧ ∀ w2 p2, Storage.new_dataset (Storage.new_dataset empty_store).1 = (w2, Ok p2) →
             p2 ≠ dataset_path 0.
Proof.
  assert (Hrun : Storage.new_dataset empty_store
                 = ((Storage.new_dataset empty_store).1, Ok (dataset_path 0)))
    by (vm_compute; reflexivity).
  split; [exact Hrun|].
  exact (proj1 (successive_datasets_differ empty_store _ _ Hrun)).
Defined.

(** ** What a new dataset holds *)

(** X10.  Whenever [new_dataset] returns a dataset, the dataset is
    empty: its ledger is the header alone, and no file was copied and
    no conversion called on the way.  With [from_store] unset it
    returns for an empty list of filenames only. *)
Theorem new_dataset_returns_empty_dataset
    CONVERSIONS DEFAULT_CLASS filenames conversions (from_store : bool) w w' dataset :
  Dataset.new_dataset CONVERSIONS DEFAULT_CLASS filenames conversions from_store w
  = (w', Ok dataset) →
  fsys w' !! (dataset +:+ "/log.csv")
  = Some (File (CsvFile (Csv ["Index"; "File"; "Class"] [])))
  ∧ Forall is_mkdir (new_events w w')
  ∧ (from_store = false → filenames = []).
Proof.
  intros Hrun.
  destruct (new_dataset_logs_mkdir _ _ _ _ _ _ _ _ Hrun) as (made & Ht & Hmade).
  unfold Dataset.new_dataset in Hrun.
  apply bind_inv in Hrun as [(w1 & d & _ & Hadd)|(? & _ & ?)]; [|done].
  apply add_images_Ok_inv in Hadd as (Hplan & -> & ->).
  split; [simpl; by rewrite lookup_insert_eq|].
  split; [by rewrite (new_events_app _ _ _ Ht)|].
  intros ->. injection Hplan as Hplan.
  unfold Dataset.conversions_left_files in Hplan. by destruct filenames.
Qed.

Lemma new_dataset_returns_empty_dataset_witness :
  (Dataset.new_dataset sample_conversions (CStr "none") [] ["png"] false
     stocked_store).2 = Ok (dataset_path 0)
  ∧ fsys (Dataset.new_dataset sample_conversions (CStr "none") [] ["png"] false
            stocked_store).1 !! (dataset_path 0 +:+ "/log.csv")
    = Some (File (CsvFile (Csv ["Index"; "File"; "Class"] []))).
Proof.
  assert (Hres : (Dataset.new_dataset sample_conversions (CStr "none") [] ["png"]
                    false stocked_store).2 = Ok (dataset_path 0))
    by (vm_compute; reflexivity).
  split; [exact Hres|].
  apply (new_dataset_returns_empty_dataset sample_conversions (CStr "none") []
           ["png"] false stocked_store _ (dataset_path 0)).
  rewrite <- Hres. apply surjective_pairing.
Defined.

(** ** processing.py: a copy in the temporary folder *)

Lemma has_slash_basename s : has_slash (basename s) = false.
Proof.
  induction s as [|c s IH]; [done|].
  change (basename (String c s))
    with (if has_slash s then basename s
          else if Ascii.eqb c "/" then s else String c s).
  destruct (has_slash s) eqn:Hs; [done|].
  destruct (Ascii.eqb c "/") eqn:Hc; [done|].
  simpl. by rewrite Hc, Hs.
Qed.

Lemma parent_tmp_entry fp : parent ("tmp/" +:+ basename fp) = "tmp".
Proof. apply (parent_entry "tmp"), has_slash_basename. Qed.

Lemma copyfile_run src dst c w :
  src ≠ dst → fsys w !! src = Some (File c) → fsys w !! dst ≠ Some Dir →
  has_parent (fsys w) dst = true →
  copyfile src dst w
  = (World (<[dst := File c]> (fsys w)) (trace w ++ [ECopy src dst]) (sched w), Ok tt).
Proof.
  intros Hne Hsrc Hdst Hpar. unfold copyfile. unfold bind at 1, get_fs.
  destruct (String.eqb_spec src dst) as [|_]; [done|]. cbn [andb].
  unfold bind at 1. rewrite (read_file_File _ _ _ Hsrc).
  unfold bind at 1.
  assert (Hw : write_file dst c w
               = (World (<[dst := File c]> (fsys w)) (trace w) (sched w), Ok tt)).
  { destruct (fsys w !! dst) as [[|c0]|] eqn:Hl; [done|..].
    - by apply (write_file_over _ _ c0).
    - by apply write_file_new. }
  by rewrite Hw.
Qed.

Lemma copyfile_no_directory src dst c w :
  src ≠ dst → fsys w !! src = Some (File c) → fsys w !! dst = None →
  has_parent (fsys w) dst = false → fsys w !! parent dst = None →
  copyfile src dst w = (w, Raise FileNotFoundError).
Proof.
  intros Hne Hsrc Hdst Hpar Hnone. unfold copyfile. unfold bind at 1, get_fs.
  destruct (String.eqb_spec src dst) as [|_]; [done|]. cbn [andb].
  unfold bind at 1. rewrite (read_file_File _ _ _ Hsrc).
  assert (Hw : write_file dst c w = (w, Raise FileNotFoundError)).
  { unfold write_file, bind, get_fs, raise. by rewrite Hdst, Hpar, Hnone. }
  unfold bind at 1. by rewrite Hw.
Qed.


(** X11.  [copy_to_tmp] of an existing file [fp] that is not itself the
    path of the copy returns [tmp/<basename of fp>], which then holds
    the content of [fp]; the folder [tmp] is created when it is
    missing, and nothing else changes. *)
Theorem copy_to_tmp_copies fp c w :
  well_formed (fsys w) →
  fsys w !! fp = Some (File c) →
  (∀ c', fsys w !! "tmp" ≠ Some (File c')) →
  fsys w !! ("tmp/" +:+ basename fp) ≠ Some Dir →
  fp ≠ "tmp/" +:+ basename fp →
  (Processing_files.copy_to_tmp fp w).2 = Ok ("tmp/" +:+ basename fp)
  ∧ fsys (Processing_files.copy_to_tmp fp w).1
    = <["tmp/" +:+ basename fp := File c]> (<["tmp" := Dir]> (fsys w)).
Proof.
  intros Hwf Hfp Htmp Hnew Hne.
  unfold Processing_files.copy_to_tmp, bind, try_except.
  destruct (fsys w !! "tmp") as [[|c']|] eqn:Ht.
  - rewrite (copyfile_run _ _ c); [|done|done|done|].
    + simpl. split; [done|]. by rewrite (insert_id (fsys w) "tmp" Dir).
    + unfold has_parent. rewrite parent_tmp_entry. unfold is_dir. by rewrite Ht.
  - by destruct (Htmp c').
  - assert (Hpar : has_parent (fsys w) ("tmp/" +:+ basename fp) = false).
    { unfold has_parent. rewrite parent_tmp_entry. unfold is_dir. by rewrite Ht. }
    assert (Habs : fsys w !! ("tmp/" +:+ basename fp) = None).
    { destruct (fsys w !! ("tmp/" +:+ basename fp)) as [n|] eqn:Hl; [|done].
      specialize (Hwf ("tmp/" +:+ basename fp)). unfold exists_path in Hwf.
      rewrite Hl in Hwf. specialize (Hwf eq_refl). congruence. }
    rewrite (copyfile_no_directory _ _ c);
      [|done|done|done|done|by rewrite parent_tmp_entry].
    unfold Processing_files._create_tmp, try_except.
    rewrite mkdir_new by done.
    rewrite (copyfile_run _ _ c); [done|done|..]; simpl.
    + rewrite lookup_insert_ne; [done|]. congruence.
    + rewrite lookup_insert_ne; [by rewrite Habs|]. by rewrite append_cons.
    + unfold has_parent. rewrite parent_tmp_entry. unfold is_dir.
      by rewrite lookup_insert_eq.
Qed.

Lemma copy_to_tmp_copies_witness :
  (Processing_files.copy_to_tmp "data/datasets/dataset-0/images/a.png" imaged_store).2
  = Ok "tmp/a.png"
  ∧ fsys (Processing_files.copy_to_tmp "data/datasets/dataset-0/images/a.png"
            imaged_store).1
    = <["tmp/a.png" := File (ImageFile (Array [3] [1; 2; 3]%Z))]>
        (<["tmp" := Dir]> (fsys imaged_store)).
Proof.
  apply (copy_to_tmp_copies "data/datasets/dataset-0/images/a.png"
           (ImageFile (Array [3] [1; 2; 3]%Z)) imaged_store).
  - apply well_formedb_spec. vm_compute. reflexivity.
  - vm_compute. reflexivity.
  - intros c'. vm_compute. discriminate.
  - vm_compute. discriminate.
  - vm_compute. discriminate.
Defined.



(** ** processing.py: conversion to PNG *)

Lemma has_dot_app a b : has_dot (a +:+ b) = has_dot a || has_dot b.
Proof.
  induction a as [|c a IH]; [done|].
  rewrite append_cons. simpl. rewrite IH. by rewrite orb_assoc.
Qed.

(** The new path is the old one with its last extension replaced. *)
Lemma stem_extension s ext :
  has_dot ext = false → stem (s +:+ "." +:+ ext) = s.
Proof.
  intros Hext. induction s as [|c s IH].
  - rewrite append_nil_l. change ("." +:+ ext) with (String "." ext).
    simpl. by rewrite Hext.
  - rewrite append_cons.
    change (stem (String c (s +:+ "." +:+ ext)))
      with (if has_dot (s +:+ "." +:+ ext)
            then String c (stem (s +:+ "." +:+ ext)) else EmptyString).
    rewrite IH, has_dot_app. change (has_dot ("." +:+ ext)) with true.
    by rewrite orb_true_r.
Qed.

Lemma parent_suffix s t t' :
  has_slash t = false → has_slash t' = false →
  parent (s +:+ t) = parent (s +:+ t').
Proof.
  intros Ht Ht'. induction s as [|c s IH].
  - rewrite !append_nil_l. destruct t, t'; simpl in *; try done.
    + apply orb_false_iff in Ht' as [_ ->]. done.
    + apply orb_false_iff in Ht as [_ ->]. done.
    + apply orb_false_iff in Ht as [_ ->]. apply orb_false_iff in Ht' as [_ ->]. done.
  - rewrite !append_cons.
    change (parent (String c (s +:+ t)))
      with (if has_slash (s +:+ t) then String c (parent (s +:+ t)) else EmptyString).
    change (parent (String c (s +:+ t')))
      with (if has_slash (s +:+ t') then String c (parent (s +:+ t')) else EmptyString).
    by rewrite !has_slash_app, Ht, Ht', IH.
Qed.

Lemma remove_File p c w :
  fsys w !! p = Some (File c) →
  remove p w = (World (delete p (fsys w)) (trace w) (sched w), Ok tt).
Proof. unfold remove, bind, get_fs, put_fs. by intros ->. Qed.

(** X13.  On an image file [s.ext] whose extension is not [png],
    [convert_to_png] returns [s.png]: that path then holds the encoded
    pixels, the original is gone, and nothing else changes. *)
Theorem convert_to_png_replaces encode_png s ext px data w :
  well_formed (fsys w) →
  has_dot ext = false → has_slash ext = false → ext ≠ "png" →
  fsys w !! (s +:+ "." +:+ ext) = Some (File (ImageFile px)) →
  encode_png px = Ok data →
  fsys w !! (s +:+ ".png") ≠ Some Dir →
  (Processing_files.convert_to_png encode_png (s +:+ "." +:+ ext) w).2
  = Ok (s +:+ ".png")
  ∧ fsys (Processing_files.convert_to_png encode_png (s +:+ "." +:+ ext) w).1
    = delete (s +:+ "." +:+ ext)
        (<[s +:+ ".png" := File (ImageFile data)]> (fsys w)).
Proof.
  intros Hwf Hdot Hslash Hext Hfp Henc Hnew.
  assert (Hne : s +:+ ".png" ≠ s +:+ "." +:+ ext).
  { intros Heq%append_inj_l. apply Hext.
    change ("." +:+ ext) with (String "." ext) in Heq. congruence. }
  assert (Hpar : has_parent (fsys w) (s +:+ ".png") = true).
  { unfold has_parent.
    rewrite (parent_suffix s ".png" ("." +:+ ext)); [|done|].
    - apply (Hwf (s +:+ "." +:+ ext)). unfold exists_path. by rewrite Hfp.
    - change ("." +:+ ext) with (String "." ext). simpl. by rewrite Hslash. }
  assert (Hw : write_file (s +:+ ".png") (ImageFile data) w
               = (World (<[s +:+ ".png" := File (ImageFile data)]> (fsys w))
                        (trace w) (sched w), Ok tt)).
  { destruct (fsys w !! (s +:+ ".png")) as [[|c0]|] eqn:Hl; [done|..].
    - by apply (write_file_over _ _ c0).
    - by apply write_file_new. }
  assert (Hrun : Processing_files.convert_to_png encode_png (s +:+ "." +:+ ext) w
                 = (World (delete (s +:+ "." +:+ ext)
                             (<[s +:+ ".png" := File (ImageFile data)]> (fsys w)))
                          (trace w) (sched w), Ok (s +:+ ".png"))).
  { unfold Processing_files.convert_to_png. rewrite stem_extension by done.
    unfold bind at 1. rewrite (read_file_File _ _ _ Hfp).
    rewrite bind_lift, Henc. unfold bind at 1. rewrite Hw. unfold bind at 1.
    rewrite (remove_File _ (ImageFile px)); [done|].
    simpl. by rewrite lookup_insert_ne. }
  by rewrite Hrun.
Qed.

Lemma convert_to_png_replaces_witness :
  (Processing_files.convert_to_png (λ px, Ok px)
     ("data/images/a" +:+ "." +:+ "jpg") stocked_store).2
  = Ok ("data/images/a" +:+ ".png").
Proof.
  assert (Himg : ∃ px, fsys stocked_store !! ("data/images/a" +:+ "." +:+ "jpg")
                       = Some (File (ImageFile px))).
  { vm_compute. by eexists. }
  destruct Himg as [px Himg].
  apply (convert_to_png_replaces (λ px, Ok px) "data/images/a" "jpg" px
           px stocked_store).
  - apply well_formedb_spec. vm_compute. reflexivity.
  - reflexivity.
  - reflexivity.
  - discriminate.
  - exact Himg.
  - reflexivity.
  - vm_compute. discriminate.
Defined.

(** X14.  On an image file whose name already ends in [.png],
    [convert_to_png] saves over the file and then removes it: the call
    returns the path it was given, and that path names nothing any
    more. *)
Theorem convert_to_png_loses_png_file encode_png s px data w :
  fsys w !! (s +:+ ".png") = Some (File (ImageFile px)) →
  encode_png px = Ok data →
  (Processing_files.convert_to_png encode_png (s +:+ ".png") w).2
  = Ok (s +:+ ".png")
  ∧ fsys (Processing_files.convert_to_png encode_png (s +:+ ".png") w).1
    = delete (s +:+ ".png") (fsys w)
  ∧ fsys (Processing_files.convert_to_png encode_png (s +:+ ".png") w).1
      !! (s +:+ ".png") = None.
Proof.
  intros Hfp Henc.
  assert (Hrun : Processing_files.convert_to_png encode_png (s +:+ ".png") w
                 = (World (delete (s +:+ ".png") (fsys w)) (trace w) (sched w),
                    Ok (s +:+ ".png"))).
  { unfold Processing_files.convert_to_png.
    change (stem (s +:+ ".png")) with (stem (s +:+ "." +:+ "png")).
    rewrite (stem_extension s "png" eq_refl).
    unfold bind at 1. rewrite (read_file_File _ _ _ Hfp).
    rewrite bind_lift, Henc. unfold bind at 1.
    rewrite (write_file_over _ _ _ _ Hfp). unfold bind at 1.
    rewrite (remove_File _ (ImageFile data)) by (simpl; apply lookup_insert_eq).
    simpl. by rewrite delete_insert_eq. }
  rewrite Hrun. simpl. split; [done|]. split; [done|]. apply lookup_delete_eq.
Qed.

Lemma convert_to_png_loses_png_file_witness :
  (Processing_files.convert_to_png (λ px, Ok px)
     ("data/datasets/dataset-0/images/a" +:+ ".png") imaged_store).2
  = Ok ("data/datasets/dataset-0/images/a" +:+ ".png")
  ∧ fsys (Processing_files.convert_to_png (λ px, Ok px)
            ("data/datasets/dataset-0/images/a" +:+ ".png") imaged_store).1
      !! ("data/datasets/dataset-0/images/a" +:+ ".png") = None.
Proof.
  destruct (convert_to_png_loses_png_file (λ px, Ok px)
              "data/datasets/dataset-0/images/a"
              (Array [3] [1; 2; 3]%Z) (Array [3] [1; 2; 3]%Z)
              imaged_store) as (Hres & _ & Hgone).
  - vm_compute. reflexivity.
  - reflexivity.
  - split; [exact Hres | exact Hgone].
Defined.

(** ** A conversion the store ledger has no column for *)

Lemma row_get_zip_missing cols (cells : list cell) k :
  k ∉ cols → row_get (zip cols cells) k = Raise (KeyError k).
Proof.
  revert cells. induction cols as [|l cols IH]; intros [|v cells] Hk; simpl; try done.
  destruct (String.eqb_spec l k) as [->|_].
  - exfalso. apply Hk. by left.
  - apply IH. intros Hin. apply Hk. by right.
Qed.

(** The comprehension over the conversions stops at the first one the
    row has no value for. *)
Lemma not_applied_first_missing (r : row) cs1 c cs2 :
  Forall (λ c', is_Ok (row_get r c')) cs1 →
  row_get r c = Raise (KeyError c) →
  Dataset.not_applied r (cs1 ++ c :: cs2) = Raise (KeyError c).
Proof.
  unfold Dataset.not_applied. intros Hcs1 Hc.
  induction Hcs1 as [|c' cs1 [flag Hflag] _ IH]; simpl.
  - by rewrite Hc.
  - rewrite Hflag. simpl. by rewrite IH.
Qed.

Lemma select_first {A B} (P : A → B → Prop) (g : B → bool) xs ys y :
  Forall2 P xs ys → y ∈ ys → g y = true →
  ∃ x rest, select (map g ys) xs = x :: rest ∧ x ∈ xs.
Proof.
  induction 1 as [|x0 y0 xs ys _ _ IH]; intros Hy Hg; [by apply elem_of_nil in Hy|].
  simpl. destruct (g y0) eqn:Hg0.
  - exists x0, (select (map g ys) xs). split; [done | by left].
  - apply elem_of_cons in Hy as [->|Hy]; [congruence|].
    destruct (IH Hy Hg) as (x & rest & Hsel & Hx).
    exists x, rest. split; [done | by right].
Qed.

Lemma create_new_dataset_metadata conversions w w2 dataset :
  Dataset.create_new_dataset conversions w = (w2, Ok dataset) →
  fsys w2 !! (dataset +:+ "/process.json")
  = Some (File (JsonFile [ {[ "Conversions" := JList conversions;
                               "Transforms" := JList [];
                               "Bundled" := JNull ]} ])).
Proof.
  unfold Dataset.create_new_dataset, dump_json. intros H.
  apply bind_inv in H as [(v1 & ds & Hls & H)|(? & _ & ?)]; [|done].
  rewrite bind_lift in H. destruct (fresh_index ds) as [i|e]; [|done].
  apply bind_inv in H as [(v2 & [] & _ & H)|(? & _ & ?)]; [|done].
  apply bind_inv in H as [(v3 & [] & _ & H)|(? & _ & ?)]; [|done].
  apply bind_inv in H as [(v4 & [] & Hw & H)|(? & _ & ?)]; [|done].
  apply write_file_inv in Hw as [(_ & ->)|([e He] & _)]; [|done].
  injection H as <- <-. simpl. apply lookup_insert_eq.
Qed.

(** X15.  With [from_store] set, a requested conversion that is not a
    column of the store ledger makes [new_dataset] raise [KeyError] on
    it as soon as one requested file is in the ledger.  The exception
    comes after the dataset directory and its metadata record have been
    created and before any file is copied: the world left behind is the
    one the creation block produced. *)
Theorem new_dataset_unknown_conversion_column
    CONVERSIONS DEFAULT_CLASS filenames cs1 c cs2 w w2 dataset df files f :
  Dataset.create_new_dataset (cs1 ++ c :: cs2) w = (w2, Ok dataset) →
  store_ledger w = Ok df →
  Forall (λ cells, length cells = length (columns df)) (rows df) →
  df_col df "File" = Ok files →
  f ∈ filenames → CStr f ∈ files →
  Forall (λ c', c' ∈ columns df) cs1 →
  c ∉ columns df →
  Dataset.new_dataset CONVERSIONS DEFAULT_CLASS filenames (cs1 ++ c :: cs2) true w
  = (w2, Raise (KeyError c))
  ∧ fsys w2 !! (dataset +:+ "/process.json")
    = Some (File (JsonFile [ {[ "Conversions" := JList (cs1 ++ c :: cs2);
                                 "Transforms" := JList [];
                                 "Bundled" := JNull ]} ])).
Proof.
  intros Hcreate Hledger Hrect Hfiles Hf Hin Hcs1 Hc.
  split; [|by apply create_new_dataset_metadata in Hcreate].
  assert (Hplan : Dataset.conversions_left_store df filenames (cs1 ++ c :: cs2)
                  = Raise (KeyError c)).
  { unfold Dataset.conversions_left_store. rewrite Hfiles. simpl.
    rewrite iterrows_df_mask.
    destruct (select_first _ (λ f0, cell_in f0 filenames) _ _ (CStr f)
                (df_col_inv _ _ _ Hfiles) Hin)
      as (r & rest & -> & Hr); [by apply bool_decide_eq_true|].
    simpl. unfold iterrows in Hr.
    apply list_elem_of_fmap in Hr as (cells & -> & Hcells).
    rewrite Forall_forall in Hrect. specialize (Hrect cells Hcells).
    rewrite not_applied_first_missing; [done| |by apply row_get_zip_missing].
    eapply Forall_impl; [exact Hcs1|]. intros c' Hc'.
    by apply row_get_zip_Ok. }
  unfold Dataset.new_dataset. rewrite (bind_Ok _ _ _ _ _ Hcreate).
  unfold Dataset.add_images. unfold bind at 1.
  rewrite (conversions_left_run DEFAULT_CLASS filenames (cs1 ++ c :: cs2) true w2).
  rewrite (store_ledger_same _ _
             (create_new_dataset_keeps_store_ledger _ _ _ _ Hcreate)).
  by rewrite Hledger; simpl; rewrite Hplan.
Qed.

Lemma new_dataset_unknown_conversion_column_witness :
  (Dataset.new_dataset sample_conversions (CStr "none") ["data/images/a.jpg"]
     (["png"] ++ "blur" :: ["gray"]) true stocked_store).2
  = Raise (KeyError "blur").
Proof.
  assert (Hcreate : Dataset.create_new_dataset (["png"] ++ "blur" :: ["gray"])
                      stocked_store
                    = ((Dataset.create_new_dataset (["png"] ++ "blur" :: ["gray"])
                          stocked_store).1, Ok (dataset_path 0))).
  { vm_compute. reflexivity. }
  assert (Hledger : ∃ df, store_ledger stocked_store = Ok df
                          ∧ columns df = ["File"; "Class"; "png"; "gray"]
                          ∧ rows df = [ [CStr "data/images/a.jpg"; CStr "bar";
                                         CBool false; CBool false];
                                        [CStr "data/images/b.png"; CStr "pie";
                                         CBool true; CBool false] ]).
  { eexists. split; [vm_compute; reflexivity|]. split; reflexivity. }
  destruct Hledger as (df & Hledger & Hcols & Hrows).
  destruct (new_dataset_unknown_conversion_column sample_conversions (CStr "none")
              ["data/images/a.jpg"] ["png"] "blur" ["gray"] stocked_store _
              (dataset_path 0) df
              [CStr "data/images/a.jpg"; CStr "data/images/b.png"]
              "data/images/a.jpg" Hcreate Hledger) as [Hrun _].
  - rewrite Hrows, Hcols. by repeat constructor.
  - unfold df_col, iterrows. rewrite Hrows, Hcols. vm_compute. reflexivity.
  - by left.
  - by left.
  - rewrite Hcols. by repeat constructor.
  - rewrite Hcols. intros Hblur.
    repeat (apply elem_of_cons in Hblur as [Hblur|Hblur]; [done|]).
    by apply elem_of_nil in Hblur.
  - by rewrite Hrun.
Defined.
